(** * agent_factory / mcp_tools: the tool-server protocol and its transport

    A shallow embedding of [mcp_tools/server.py], [mcp_tools/transport.py]
    and [mcp_tools/manager.py], with the part of Python's [json] and [str]
    the three files rely on, and of their callers: the echo worker of
    [mcp_tools/servers/echo.py], the functions of [mcp_tools/bridge.py] that
    build no LangChain object, and [start_mcp_servers] of [run_agent.py].

    Conventions.
    - A Python [str] is a list of code points ([N]).
    - A Python [dict] is an association list in insertion order with
      pairwise distinct keys ([Dict]).
    - A JSON number with a fraction or an exponent is carried by its decimal
      text ([JFloat]); binary floating point itself is outside the embedding.
    - Code that raises returns [Raise e]; state that was mutated before the
      exception is kept. *)

From Stdlib Require Import String Ascii NArith ZArith Bool Lia.
From Stdlib Require Import List Sorted FinFun.
Import ListNotations.

Set Warnings "-register-all".

(** Code points named in the definitions. *)
Abbreviation c_backspace := 8%N (only parsing).
Abbreviation c_tab := 9%N (only parsing).
Abbreviation c_newline := 10%N (only parsing).
Abbreviation c_formfeed := 12%N (only parsing).
Abbreviation c_return := 13%N (only parsing).
Abbreviation c_space := 32%N (only parsing).
Abbreviation c_quote := 34%N (only parsing).
Abbreviation c_apostrophe := 39%N (only parsing).
Abbreviation c_plus := 43%N (only parsing).
Abbreviation c_comma := 44%N (only parsing).
Abbreviation c_minus := 45%N (only parsing).
Abbreviation c_dot := 46%N (only parsing).
Abbreviation c_slash := 47%N (only parsing).
Abbreviation c_0 := 48%N (only parsing).
Abbreviation c_9 := 57%N (only parsing).
Abbreviation c_colon := 58%N (only parsing).
Abbreviation c_A := 65%N (only parsing).
Abbreviation c_E := 69%N (only parsing).
Abbreviation c_F := 70%N (only parsing).
Abbreviation c_U := 85%N (only parsing).
Abbreviation c_lbracket := 91%N (only parsing).
Abbreviation c_backslash := 92%N (only parsing).
Abbreviation c_rbracket := 93%N (only parsing).
Abbreviation c_a := 97%N (only parsing).
Abbreviation c_b := 98%N (only parsing).
Abbreviation c_e := 101%N (only parsing).
Abbreviation c_f := 102%N (only parsing).
Abbreviation c_n := 110%N (only parsing).
Abbreviation c_r := 114%N (only parsing).
Abbreviation c_t := 116%N (only parsing).
Abbreviation c_u := 117%N (only parsing).
Abbreviation c_x := 120%N (only parsing).
Abbreviation c_lbrace := 123%N (only parsing).
Abbreviation c_rbrace := 125%N (only parsing).
Abbreviation c_tilde := 126%N (only parsing).
Abbreviation c_delete := 127%N (only parsing).
Abbreviation c_D800 := 55296%N (only parsing).
Abbreviation c_DBFF := 56319%N (only parsing).
Abbreviation c_DC00 := 56320%N (only parsing).
Abbreviation c_DFFF := 57343%N (only parsing).
Abbreviation c_E000 := 57344%N (only parsing).
Abbreviation c_bom := 65279%N (only parsing).
Abbreviation c_10000 := 65536%N (only parsing).
Abbreviation c_110000 := 1114112%N (only parsing).

(* ===================================================================== *)
(** * Python strings *)
(* ===================================================================== *)

Module Py.

Local Open Scope N_scope.

Definition str := list N.

(** A literal of the source, as a [str]. *)
Definition lit (s : string) : str := map N_of_ascii (list_ascii_of_string s).

Fixpoint str_eqb (a b : str) : bool :=
  match a, b with
  | [], [] => true
  | x :: a', y :: b' => N.eqb x y && str_eqb a' b'
  | _, _ => false
  end.

(** [str.isspace] on one code point: the table of CPython's
    [_PyUnicode_IsWhitespace]. *)
Definition isspace (c : N) : bool :=
  ((9 <=? c) && (c <=? 13)) || ((28 <=? c) && (c <=? 32))
  || (c =? 133) || (c =? 160) || (c =? 5760)
  || ((8192 <=? c) && (c <=? 8202))
  || (c =? 8232) || (c =? 8233) || (c =? 8239) || (c =? 8287)
  || (c =? 12288).

Fixpoint lstrip (s : str) : str :=
  match s with
  | c :: r => if isspace c then lstrip r else s
  | [] => []
  end.

Definition rstrip (s : str) : str := rev (lstrip (rev s)).

(** [s.strip()] *)
Definition strip (s : str) : str := rstrip (lstrip s).

(** [sep.join(parts)] *)
Fixpoint join (sep : str) (parts : list str) : str :=
  match parts with
  | [] => []
  | [p] => p
  | p :: rest => p ++ sep ++ join sep rest
  end.

(** [s.startswith(prefix)] *)
Fixpoint startswith (s prefix : str) {struct prefix} : bool :=
  match prefix, s with
  | [], _ => true
  | p :: prefix', c :: s' => N.eqb p c && startswith s' prefix'
  | _ :: _, [] => false
  end.

(** [needle in hay] *)
Fixpoint contains (hay needle : str) : bool :=
  startswith hay needle ||
  match hay with
  | [] => false
  | _ :: hay' => contains hay' needle
  end.

(** Decimal digits of a natural number, most significant first. *)
Fixpoint digits_aux (fuel : nat) (n : N) (acc : str) : str :=
  match fuel with
  | O => acc
  | S f =>
      let acc' := (48 + n mod 10) :: acc in
      if n / 10 =? 0 then acc' else digits_aux f (n / 10) acc'
  end.

Definition str_of_N (n : N) : str := digits_aux (S (N.to_nat (N.log2 n))) n [].

(** [str(n)] for an [int]. *)
Definition str_of_Z (z : Z) : str :=
  match z with
  | Zneg p => 45 :: str_of_N (Npos p)
  | _ => str_of_N (Z.to_N z)
  end.

Definition str_of_nat (n : nat) : str := str_of_N (N.of_nat n).

(** The line terminator. *)
Definition newline : str := [10].

End Py.

Notation "` s" := (Py.lit s%string) (at level 1, format "` s").

(* ===================================================================== *)
(** * Python dictionaries with [str] keys *)
(* ===================================================================== *)

Module Dict.

Definition t (V : Type) := list (Py.str * V).

(** [d.get(k)] *)
Fixpoint get {V} (d : t V) (k : Py.str) : option V :=
  match d with
  | [] => None
  | (k', v) :: d' => if Py.str_eqb k' k then Some v else get d' k
  end.

(** [d[k] = v]: an existing key keeps its place, a new one goes last. *)
Fixpoint set {V} (d : t V) (k : Py.str) (v : V) : t V :=
  match d with
  | [] => [(k, v)]
  | (k', v') :: d' =>
      if Py.str_eqb k' k then (k', v) :: d' else (k', v') :: set d' k v
  end.

(** [list(d.keys())], [list(d.values())] *)
Definition keys {V} (d : t V) : list Py.str := map fst d.
Definition values {V} (d : t V) : list V := map snd d.

(** [dict(pairs)] *)
Definition of_pairs {V} (pairs : list (Py.str * V)) : t V :=
  fold_left (fun d kv => set d (fst kv) (snd kv)) pairs [].

(** [d.get(k, default)] *)
Definition get_default {V} (d : t V) (k : Py.str) (default : V) : V :=
  match get d k with
  | Some v => v
  | None => default
  end.

End Dict.

(* ===================================================================== *)
(** * Exceptions *)
(* ===================================================================== *)

(** The classes below all derive from [Exception], so [except Exception]
    catches each of them.  [KeyboardInterrupt] and [SystemExit] are not
    modelled. *)
Inductive exn_class :=
| JSONDecodeError | ValueError | RuntimeError | TypeError | AttributeError
| KeyError | OSError | RecursionError | TimeoutExpired | OtherException.

(** An exception: its class and [str(e)]. *)
Record exn := Exn { exn_cls : exn_class; exn_str : Py.str }.

Definition is_JSONDecodeError (e : exn) : bool :=
  match exn_cls e with JSONDecodeError => true | _ => false end.

(** The outcome of code that may raise. *)
Inductive outcome (A : Type) :=
| Return (a : A)
| Raise (e : exn).
Arguments Return {A} a.
Arguments Raise {A} e.

(* ===================================================================== *)
(** * JSON values and Python's [json] module *)
(* ===================================================================== *)

(** The values [json.loads] builds and [json.dumps] accepts.  [JFloat]
    carries the decimal text of a float ([float.__repr__], or [NaN],
    [Infinity], [-Infinity]). *)
Inductive json :=
| JNull
| JBool (b : bool)
| JInt (n : Z)
| JFloat (text : Py.str)
| JStr (s : Py.str)
| JList (items : list json)
| JDict (d : list (Py.str * json)).

Module Json.

Local Open Scope N_scope.

(** ** Encoder ([json.encoder], default options: [ensure_ascii=True],
    separators [", "] and [": "]) *)

Definition hex_digit (d : N) : N :=
  if d <? 10 then c_0 + d else c_a - 10 + d.

(** ['{0:04x}'.format(n)] for [n < 0x10000] *)
Definition hex4 (n : N) : Py.str :=
  [hex_digit (n / 4096 mod 16); hex_digit (n / 256 mod 16);
   hex_digit (n / 16 mod 16); hex_digit (n mod 16)].

Definition u_escape (n : N) : Py.str := c_backslash :: c_u :: hex4 n.

(** The replacement of one code point in [py_encode_basestring_ascii]. *)
Definition escape_char (c : N) : Py.str :=
  if c =? c_quote then [c_backslash; c_quote]
  else if c =? c_backslash then [c_backslash; c_backslash]
  else if c =? c_newline then [c_backslash; c_n]
  else if c =? c_return then [c_backslash; c_r]
  else if c =? c_tab then [c_backslash; c_t]
  else if c =? c_backspace then [c_backslash; c_b]
  else if c =? c_formfeed then [c_backslash; c_f]
  else if (c_space <=? c) && (c <=? c_tilde) then [c]
  else if c <? c_10000 then u_escape c
  else
    let n := c - c_10000 in
    u_escape (N.lor c_D800 (N.land (N.shiftr n 10) 1023))
    ++ u_escape (N.lor c_DC00 (N.land n 1023)).

Definition encode_str (s : Py.str) : Py.str :=
  c_quote :: flat_map escape_char s ++ [c_quote].

(** [json.dumps(v)] *)
Fixpoint dumps (v : json) : Py.str :=
  match v with
  | JNull => `"null"
  | JBool true => `"true"
  | JBool false => `"false"
  | JInt n => Py.str_of_Z n
  | JFloat text => text
  | JStr s => encode_str s
  | JList items => `"[" ++ Py.join `", " (map dumps items) ++ `"]"
  | JDict d =>
      `"{" ++ Py.join `", "
                (map (fun kv => encode_str (fst kv) ++ `": " ++ dumps (snd kv)) d)
           ++ `"}"
  end.

(** ** Decoder ([json.decoder] and [json.scanner])

    The functions follow the C accelerator of the module ([c_scanstring]
    and [c_make_scanner]), which the interpreter uses when it is there:
    it reads ASCII digits only, and the wording and the position of its
    error messages are those of CPython 3.11. *)

(** What a scanning function does at a position: it returns a value and the
    text after it, stops ([StopIteration]), or raises [JSONDecodeError].
    Positions are kept as the length of the text that remains. *)
Inductive scan (A : Type) :=
| Scanned (a : A) (rest : Py.str)
| Stop (remaining : nat)
| DecodeError (msg : Py.str) (remaining : nat)
| OutOfFuel.
Arguments Scanned {A} a rest.
Arguments Stop {A} remaining.
Arguments DecodeError {A} msg remaining.
Arguments OutOfFuel {A}.

(** A scanning function has not run out of fuel, and what it has scanned
    left less than [n] characters. *)
Definition consumes {A} (res : scan A) (n : nat) : Prop :=
  match res with
  | Scanned _ rest => (length rest < n)%nat
  | OutOfFuel => False
  | _ => True
  end.

(** [WHITESPACE = re.compile(r'[ \t\n\r]*')] *)
Definition is_ws (c : N) : bool :=
  (c =? c_space) || (c =? c_tab) || (c =? c_newline) || (c =? c_return).

Fixpoint skip_ws (s : Py.str) : Py.str :=
  match s with
  | c :: r => if is_ws c then skip_ws r else s
  | [] => []
  end.

Definition is_digit (c : N) : bool := (c_0 <=? c) && (c <=? c_9).

Definition hex_value (c : N) : option N :=
  if is_digit c then Some (c - c_0)
  else if (c_a <=? c) && (c <=? c_f) then Some (c - c_a + 10)
  else if (c_A <=? c) && (c <=? c_F) then Some (c - c_A + 10)
  else None.

(** [_decode_uXXXX]: four hexadecimal digits. *)
Definition decode_uXXXX (s : Py.str) : option (N * Py.str) :=
  match s with
  | h1 :: h2 :: h3 :: h4 :: r =>
      match hex_value h1, hex_value h2, hex_value h3, hex_value h4 with
      | Some a, Some b, Some c, Some d =>
          Some (4096 * a + 256 * b + 16 * c + d, r)
      | _, _, _, _ => None
      end
  | _ => None
  end.

(** [BACKSLASH]: the one-letter escapes. *)
Definition backslash (c : N) : option N :=
  if c =? c_quote then Some c_quote
  else if c =? c_backslash then Some c_backslash
  else if c =? c_slash then Some c_slash
  else if c =? c_b then Some c_backspace
  else if c =? c_f then Some c_formfeed
  else if c =? c_n then Some c_newline
  else if c =? c_r then Some c_return
  else if c =? c_t then Some c_tab
  else None.

(** [scanstring] of the C accelerator ([c_scanstring], which [json.decoder]
    uses when it is there), entered after the opening quote; [start] is the
    position of that quote and [acc] the characters read so far, reversed.
    A [\uXXXX] escape is only read when a character follows its four
    digits, and a second one is only read as the low half of a surrogate
    pair when a character follows it. *)
Fixpoint scanstring_loop (fuel : nat) (start : nat) (s : Py.str) (acc : Py.str)
  : scan Py.str :=
  match fuel with
  | O => OutOfFuel
  | S fuel' =>
      match s with
      | [] => DecodeError `"Unterminated string starting at" start
      | c :: r =>
          if c =? c_quote then Scanned (rev acc) r
          else if c =? c_backslash then
            match r with
            | [] => DecodeError `"Unterminated string starting at" start
            | esc :: r1 =>
                if esc =? c_u then
                  if (length r1 <=? 4)%nat then
                    DecodeError `"Invalid \uXXXX escape" (length r)
                  else
                  match decode_uXXXX r1 with
                  | None => DecodeError `"Invalid \uXXXX escape" (length r)
                  | Some (uni, r2) =>
                      if (c_D800 <=? uni) && (uni <=? c_DBFF)
                         && (6 <? length r2)%nat
                         && Py.startswith r2 [c_backslash; c_u]
                      then
                        match decode_uXXXX (skipn 2 r2) with
                        | None =>
                            DecodeError `"Invalid \uXXXX escape"
                                        (length r2 - 1)
                        | Some (uni2, r3) =>
                            if (c_DC00 <=? uni2) && (uni2 <=? c_DFFF) then
                              scanstring_loop fuel' start r3
                                (c_10000
                                 + N.lor (N.shiftl (uni - c_D800) 10)
                                         (uni2 - c_DC00) :: acc)
                            else scanstring_loop fuel' start r2 (uni :: acc)
                        end
                      else scanstring_loop fuel' start r2 (uni :: acc)
                  end
                else
                  match backslash esc with
                  | Some ch => scanstring_loop fuel' start r1 (ch :: acc)
                  | None => DecodeError `"Invalid \escape" (length s)
                  end
            end
          else if c <? c_space then
            DecodeError `"Invalid control character at" (length s)
          else scanstring_loop fuel' start r (c :: acc)
      end
  end.

Definition scanstring (start : nat) (s : Py.str) : scan Py.str :=
  scanstring_loop (S (length s)) start s [].

(** The longest prefix of digits, and what follows it. *)
Fixpoint span_digits (s : Py.str) : Py.str * Py.str :=
  match s with
  | c :: r =>
      if is_digit c then let (ds, rest) := span_digits r in (c :: ds, rest)
      else ([], s)
  | [] => ([], [])
  end.

(** [NUMBER_RE]: an integer part (an optional minus sign, then a single 0
    or a digit 1-9 followed by digits), an optional fraction (a dot and one
    digit or more) and an optional exponent (e or E, an optional sign, one
    digit or more).  The three groups, and the text after the match. *)
Definition match_integer (s : Py.str) : option (Py.str * Py.str) :=
  let (sign, s1) := match s with
                    | c :: r => if c =? c_minus then ([c_minus], r) else ([], s)
                    | [] => ([], s)
                    end in
  match s1 with
  | d :: r =>
      if d =? c_0 then Some (sign ++ [c_0], r)
      else if is_digit d then
        let (ds, rest) := span_digits r in Some (sign ++ d :: ds, rest)
      else None
  | [] => None
  end.

Definition match_frac (s : Py.str) : Py.str * Py.str :=
  match s with
  | c :: r =>
      if c =? c_dot then
        match span_digits r with
        | ([], _) => ([], s)
        | (ds, rest) => (c_dot :: ds, rest)
        end
      else ([], s)
  | [] => ([], s)
  end.

Definition match_exp (s : Py.str) : Py.str * Py.str :=
  match s with
  | c :: r =>
      if (c =? c_e) || (c =? c_E) then
        let (sign, r1) := match r with
                          | g :: r' =>
                              if (g =? c_minus) || (g =? c_plus) then ([g], r')
                              else ([], r)
                          | [] => ([], r)
                          end in
        match span_digits r1 with
        | ([], _) => ([], s)
        | (ds, rest) => (c :: sign ++ ds, rest)
        end
      else ([], s)
  | [] => ([], s)
  end.

Definition match_number (s : Py.str)
  : option (Py.str * Py.str * Py.str * Py.str) :=
  match match_integer s with
  | None => None
  | Some (integer, s1) =>
      let (frac, s2) := match_frac s1 in
      let (exp, s3) := match_exp s2 in
      Some (integer, frac, exp, s3)
  end.

(** [int(text)] for a text matched by the first group of [NUMBER_RE]. *)
Definition digits_value (ds : Py.str) : N :=
  fold_left (fun a d => 10 * a + (d - c_0)) ds 0.

Definition parse_int (text : Py.str) : Z :=
  match text with
  | c :: ds => if c =? c_minus then (- Z.of_N (digits_value ds))%Z
               else Z.of_N (digits_value text)
  | [] => 0%Z
  end.

Definition is_empty {A} (l : list A) : bool :=
  match l with [] => true | _ => false end.

(** [scan_once], [JSONArray] and [JSONObject].  [fuel] bounds the nesting
    and the number of items; [loads] gives more than any text can use. *)
Fixpoint scan_once (fuel : nat) (s : Py.str) {struct fuel} : scan json :=
  match fuel with
  | O => OutOfFuel
  | S fuel' =>
      match s with
      | [] => Stop 0
      | c :: r =>
          if c =? c_quote then
            match scanstring (length s) r with
            | Scanned k rest => Scanned (JStr k) rest
            | Stop n => Stop n
            | DecodeError m n => DecodeError m n
            | OutOfFuel => OutOfFuel
            end
          else if c =? c_lbrace then
            match skip_ws r with
            | [] =>
                DecodeError
                  `"Expecting property name enclosed in double quotes" 0
            | c1 :: r1 =>
                if c1 =? c_rbrace then Scanned (JDict []) r1
                else if c1 =? c_quote then object_items fuel' r1 (length r1 + 1) []
                else
                  DecodeError
                    `"Expecting property name enclosed in double quotes"
                    (length r1 + 1)
            end
          else if c =? c_lbracket then
            match skip_ws r with
            | [] => DecodeError `"Expecting value" 0
            | c1 :: r1 =>
                if c1 =? c_rbracket then Scanned (JList []) r1
                else array_items fuel' (c1 :: r1) []
            end
          else if Py.startswith s `"null" then Scanned JNull (skipn 4 s)
          else if Py.startswith s `"true" then Scanned (JBool true) (skipn 4 s)
          else if Py.startswith s `"false" then
            Scanned (JBool false) (skipn 5 s)
          else
            match match_number s with
            | Some (integer, frac, exp, rest) =>
                if is_empty frac && is_empty exp
                then Scanned (JInt (parse_int integer)) rest
                else Scanned (JFloat (integer ++ frac ++ exp)) rest
            | None =>
                if Py.startswith s `"NaN" then
                  Scanned (JFloat `"NaN") (skipn 3 s)
                else if Py.startswith s `"Infinity" then
                  Scanned (JFloat `"Infinity") (skipn 8 s)
                else if Py.startswith s `"-Infinity" then
                  Scanned (JFloat `"-Infinity") (skipn 9 s)
                else Stop (length s)
            end
      end
  end

(** The loop of [JSONArray], entered at the first character of an item;
    [acc] holds the items read so far, reversed. *)
with array_items (fuel : nat) (s : Py.str) (acc : list json) {struct fuel}
  : scan json :=
  match fuel with
  | O => OutOfFuel
  | S fuel' =>
      match scan_once fuel' s with
      | Scanned v r =>
          match skip_ws r with
          | [] => DecodeError `"Expecting ',' delimiter" 0
          | c :: r1 =>
              if c =? c_rbracket then Scanned (JList (rev (v :: acc))) r1
              else if c =? c_comma then array_items fuel' (skip_ws r1) (v :: acc)
              else DecodeError `"Expecting ',' delimiter" (length r1 + 1)
          end
      | Stop n => DecodeError `"Expecting value" n
      | DecodeError m n => DecodeError m n
      | OutOfFuel => OutOfFuel
      end
  end

(** The loop of [JSONObject], entered after the opening quote of a key,
    which stands at position [start]; [acc] holds the pairs read so far,
    reversed. *)
with object_items (fuel : nat) (s : Py.str) (start : nat)
                  (acc : list (Py.str * json)) {struct fuel} : scan json :=
  match fuel with
  | O => OutOfFuel
  | S fuel' =>
      match scanstring start s with
      | Scanned key r =>
          match skip_ws r with
          | [] => DecodeError `"Expecting ':' delimiter" 0
          | c :: r1 =>
              if c =? c_colon then
                match scan_once fuel' (skip_ws r1) with
                | Scanned v r2 =>
                    match skip_ws r2 with
                    | [] => DecodeError `"Expecting ',' delimiter" 0
                    | c2 :: r3 =>
                        if c2 =? c_rbrace then
                          Scanned
                            (JDict (Dict.of_pairs (rev ((key, v) :: acc)))) r3
                        else if c2 =? c_comma then
                          match skip_ws r3 with
                          | [] =>
                              DecodeError
                                `"Expecting property name enclosed in double quotes"
                                0
                          | c3 :: r4 =>
                              if c3 =? c_quote then
                                object_items fuel' r4 (length r4 + 1)
                                             ((key, v) :: acc)
                              else
                                DecodeError
                                  `"Expecting property name enclosed in double quotes"
                                  (length r4 + 1)
                          end
                        else
                          DecodeError `"Expecting ',' delimiter"
                                      (length r3 + 1)
                    end
                | Stop n => DecodeError `"Expecting value" n
                | DecodeError m n => DecodeError m n
                | OutOfFuel => OutOfFuel
                end
              else DecodeError `"Expecting ':' delimiter" (length r1 + 1)
          end
      | Stop n => Stop n
      | DecodeError m n => DecodeError m n
      | OutOfFuel => OutOfFuel
      end
  end.

Fixpoint until_newline (s : Py.str) : Py.str :=
  match s with
  | c :: r => if c =? c_newline then [] else c :: until_newline r
  | [] => []
  end.

(** [str(JSONDecodeError(msg, doc, pos))] *)
Definition decode_error_str (msg : Py.str) (doc : Py.str) (pos : nat)
  : Py.str :=
  let before := firstn pos doc in
  let lineno := S (length (filter (N.eqb 10) before)) in
  let colno := S (length (until_newline (rev before))) in
  msg ++ `": line " ++ Py.str_of_nat lineno ++ `" column "
      ++ Py.str_of_nat colno ++ `" (char " ++ Py.str_of_nat pos ++ `")".

(** [json.loads(s)].  A text of [n] characters nests fewer than [n] values
    and each loop iteration consumes a character, so the fuel is never
    exhausted; the last branch stands for the interpreter's recursion
    limit. *)
Definition loads (s : Py.str) : outcome json :=
  let error msg remaining :=
    Raise (Exn JSONDecodeError
               (decode_error_str msg s (length s - remaining))) in
  if Py.startswith s [c_bom] then
    error `"Unexpected UTF-8 BOM (decode using utf-8-sig)" (length s)
  else
    let s0 := skip_ws s in
    match scan_once (2 * length s0 + 1) s0 with
    | Scanned v r =>
        match skip_ws r with
        | [] => Return v
        | r' => error `"Extra data" (length r')
        end
    | Stop n => error `"Expecting value" n
    | DecodeError m n => error m n
    | OutOfFuel =>
        Raise (Exn RecursionError `"maximum recursion depth exceeded")
    end.

End Json.

(* ===================================================================== *)
(** * [str()], [repr()], truth values and type names of JSON values *)
(* ===================================================================== *)

Module Repr.

Local Open Scope N_scope.

Section Unicode.

(** [str.isprintable] above U+007E, a table of the Unicode database. *)
Variable isprintable : N -> bool.

Definition hex2 (n : N) : Py.str :=
  [Json.hex_digit (n / 16 mod 16); Json.hex_digit (n mod 16)].

Definition hex8 (n : N) : Py.str :=
  Json.hex4 (n / 65536) ++ Json.hex4 (n mod 65536).

(** One character of [repr(s)] for a string quoted with [quote]. *)
Definition repr_char (quote : N) (c : N) : Py.str :=
  if (c =? quote) || (c =? c_backslash) then [c_backslash; c]
  else if c =? c_tab then [c_backslash; c_t]
  else if c =? c_newline then [c_backslash; c_n]
  else if c =? c_return then [c_backslash; c_r]
  else if (c <? c_space) || (c =? c_delete) then c_backslash :: c_x :: hex2 c
  else if c <? c_delete then [c]
  else if isprintable c then [c]
  else if c <? 256 then c_backslash :: c_x :: hex2 c
  else if c <? c_10000 then c_backslash :: c_u :: Json.hex4 c
  else c_backslash :: c_U :: hex8 c.

(** [repr(s)] for a [str]: single quotes, unless the string holds a single
    quote and no double quote. *)
Definition repr_str (s : Py.str) : Py.str :=
  let quote := if existsb (N.eqb 39) s && negb (existsb (N.eqb 34) s)
               then 34 else 39 in
  quote :: flat_map (repr_char quote) s ++ [quote].

Definition repr_float (text : Py.str) : Py.str :=
  if Py.str_eqb text `"NaN" then `"nan"
  else if Py.str_eqb text `"Infinity" then `"inf"
  else if Py.str_eqb text `"-Infinity" then `"-inf"
  else text.

(** [repr(v)] *)
Fixpoint repr (v : json) : Py.str :=
  match v with
  | JNull => `"None"
  | JBool true => `"True"
  | JBool false => `"False"
  | JInt n => Py.str_of_Z n
  | JFloat text => repr_float text
  | JStr s => repr_str s
  | JList items => `"[" ++ Py.join `", " (map repr items) ++ `"]"
  | JDict d =>
      `"{" ++ Py.join `", "
                (map (fun kv => repr_str (fst kv) ++ `": " ++ repr (snd kv)) d)
           ++ `"}"
  end.

(** [str(v)], as an f-string formats [{v}] *)
Definition str_ (v : json) : Py.str :=
  match v with
  | JStr s => s
  | _ => repr v
  end.

(** [repr] of a list of strings, as [f"{list(d.keys())}"] prints it *)
Definition repr_str_list (l : list Py.str) : Py.str :=
  repr (JList (map JStr l)).

End Unicode.

(** The digits of a float text before its exponent are all zero. *)
Fixpoint float_is_zero (text : Py.str) : bool :=
  match text with
  | [] => true
  | c :: r =>
      if (c =? c_e) || (c =? c_E) then true
      else ((c =? c_0) || (c =? c_dot) || (c =? c_minus)) && float_is_zero r
  end.

(** [bool(v)] *)
Definition truthy (v : json) : bool :=
  match v with
  | JNull => false
  | JBool b => b
  | JInt n => negb (Z.eqb n 0)
  | JFloat text => negb (float_is_zero text)
  | JStr s => negb (Json.is_empty s)
  | JList items => negb (Json.is_empty items)
  | JDict d => negb (Json.is_empty d)
  end.

(** [type(v).__name__] *)
Definition type_name (v : json) : Py.str :=
  match v with
  | JNull => `"NoneType"
  | JBool _ => `"bool"
  | JInt _ => `"int"
  | JFloat _ => `"float"
  | JStr _ => `"str"
  | JList _ => `"list"
  | JDict _ => `"dict"
  end.

(** [v == s] for a string literal [s] *)
Definition eq_str (v : json) (s : Py.str) : bool :=
  match v with
  | JStr s' => Py.str_eqb s' s
  | _ => false
  end.

End Repr.

(* ===================================================================== *)
(** * [mcp_tools/server.py] *)
(* ===================================================================== *)

Module Server.

(** What a handler hands back: a JSON-encodable value, or an object that
    [json.dumps] rejects, known by the name of its type. *)
Inductive py_value :=
| Encodable (v : json)
| Unencodable (type_name : Py.str).

(** [class ToolHandler]: the class attributes of a subclass and its
    [handle] method. *)
Record ToolHandler := {
  class_name : Py.str;
  name : Py.str;
  description : Py.str;
  parameters : Dict.t json;
  handle : json -> outcome py_value
}.

(** [ToolHandler.get_schema] *)
Definition get_schema (self : ToolHandler) : json :=
  JDict [ (`"name", JStr (name self));
          (`"description", JStr (description self));
          (`"parameters",
            JDict [ (`"type", JStr `"object");
                    (`"properties", JDict (parameters self)) ]) ].

(** [class StdioToolServer]: the field [_handlers]. *)
Record StdioToolServer := { _handlers : Dict.t ToolHandler }.

(** [StdioToolServer.__init__] *)
Definition __init__ : StdioToolServer := {| _handlers := [] |}.

(** [StdioToolServer.register] *)
Definition register (self : StdioToolServer) (handler : ToolHandler)
  : outcome StdioToolServer :=
  if Json.is_empty (name handler) then
    Raise (Exn ValueError
               (`"ToolHandler " ++ class_name handler ++ `" has no name"))
  else
    Return {| _handlers := Dict.set (_handlers self) (name handler) handler |}.

Section Dispatch.

Variable isprintable : N -> bool.

(** [self._handlers.get(tool_name)]: lists and dicts are unhashable, and no
    key of another type equals a [str] key. *)
Definition handlers_get (self : StdioToolServer) (tool_name : json)
  : outcome (option ToolHandler) :=
  match tool_name with
  | JStr s => Return (Dict.get (_handlers self) s)
  | JList _ | JDict _ =>
      Raise (Exn TypeError
                 (`"unhashable type: '" ++ Repr.type_name tool_name ++ `"'"))
  | _ => Return None
  end.

(** [StdioToolServer._dispatch] *)
Definition _dispatch (self : StdioToolServer) (method params : json)
  : outcome py_value :=
  if Repr.eq_str method `"ping" then
    Return (Encodable
              (JDict [ (`"status", JStr `"ok");
                       (`"tools",
                         JList (map JStr (Dict.keys (_handlers self)))) ]))
  else if Repr.eq_str method `"tools/list" then
    Return (Encodable
              (JList (map get_schema (Dict.values (_handlers self)))))
  else if Repr.eq_str method `"tools/call" then
    match params with
    | JDict p =>
        let tool_name := Dict.get_default p `"name" (JStr []) in
        let tool_params := Dict.get_default p `"arguments" (JDict []) in
        match handlers_get self tool_name with
        | Raise e => Raise e
        | Return None =>
            Raise (Exn ValueError
                       (`"Unknown tool: '"
                         ++ Repr.str_ isprintable tool_name
                         ++ `"'. " ++ `"Available: "
                         ++ Repr.repr_str_list isprintable
                              (Dict.keys (_handlers self))))
        | Return (Some handler) => handle handler tool_params
        end
    | _ =>
        Raise (Exn AttributeError
                   (`"'" ++ Repr.type_name params
                         ++ `"' object has no attribute 'get'"))
    end
  else
    Raise (Exn ValueError
               (`"Unknown method: '" ++ Repr.str_ isprintable method ++ `"'")).

(** Standard output is the list of the strings written to it, oldest
    first. *)
Definition stdout := list Py.str.

Definition success_response (request_id result : json) : json :=
  JDict [ (`"jsonrpc", JStr `"2.0"); (`"id", request_id);
          (`"result", result) ].

Definition error_response (request_id : json) (code : Z) (message : Py.str)
  : json :=
  JDict [ (`"jsonrpc", JStr `"2.0"); (`"id", request_id);
          (`"error",
            JDict [ (`"code", JInt code); (`"message", JStr message) ]) ].

(** [StdioToolServer._write_result]: [json.dumps] raises [TypeError] before
    anything is written when the result cannot be encoded. *)
Definition _write_result (request_id : json) (result : py_value)
                         (out : stdout) : outcome unit * stdout :=
  match result with
  | Encodable v =>
      (Return tt,
       out ++ [Json.dumps (success_response request_id v) ++ Py.newline])
  | Unencodable ty =>
      (Raise (Exn TypeError
                  (`"Object of type " ++ ty ++ `" is not JSON serializable")),
       out)
  end.

(** [StdioToolServer._write_error] *)
Definition _write_error (request_id : json) (code : Z) (message : Py.str)
                        (out : stdout) : outcome unit * stdout :=
  (Return tt,
   out ++ [Json.dumps (error_response request_id code message) ++ Py.newline]).

(** The fields of a request, as the loop reads them: [request.get] of
    [id] (default [None]), of [method] (default: the empty string) and of
    [params] (default: the empty dict).  A JSON text that is not an object
    has no [get]. *)
Definition request_fields (request : json) : outcome (json * json * json) :=
  match request with
  | JDict r =>
      Return (Dict.get_default r `"id" JNull,
              Dict.get_default r `"method" (JStr []),
              Dict.get_default r `"params" (JDict []))
  | _ =>
      Raise (Exn AttributeError
                 (`"'" ++ Repr.type_name request
                       ++ `"' object has no attribute 'get'"))
  end.

(** One iteration of the loop of [StdioToolServer.run], for the line [line]
    read from standard input.  [Raise] is an exception that leaves the
    loop. *)
Definition run_line (self : StdioToolServer) (line : Py.str) (out : stdout)
  : outcome unit * stdout :=
  let line := Py.strip line in
  if Json.is_empty line then (Return tt, out)
  else
    match Json.loads line with
    | Raise e =>
        if is_JSONDecodeError e
        then _write_error JNull (-32700) (`"Parse error: " ++ exn_str e) out
        else (Raise e, out)
    | Return request =>
        match request_fields request with
        | Raise e => (Raise e, out)
        | Return (request_id, method, params) =>
            match _dispatch self method params with
            | Return result =>
                match _write_result request_id result out with
                | (Return tt, out') => (Return tt, out')
                | (Raise e, out') =>
                    _write_error request_id (-32603) (exn_str e) out'
                end
            | Raise e => _write_error request_id (-32603) (exn_str e) out
            end
        end
    end.

(** [StdioToolServer.run]: [stdin] is the sequence of lines the iteration
    over [sys.stdin] yields; the loop ends when it is exhausted. *)
Fixpoint run_from (self : StdioToolServer) (stdin : list Py.str)
                  (out : stdout) : outcome unit * stdout :=
  match stdin with
  | [] => (Return tt, out)
  | line :: rest =>
      match run_line self line out with
      | (Return _, out') => run_from self rest out'
      | (Raise e, out') => (Raise e, out')
      end
  end.

Definition run (self : StdioToolServer) (stdin : list Py.str)
  : outcome unit * stdout :=
  run_from self stdin [].

End Dispatch.

(** A request line: once stripped, it is the text of a JSON object. *)
Definition is_request_line (line : Py.str) : bool :=
  match Json.loads (Py.strip line) with
  | Return (JDict _) => true
  | _ => false
  end.

(** The id of a request line, and the id a response carries. *)
Definition line_id (line : Py.str) : json :=
  match Json.loads (Py.strip line) with
  | Return (JDict r) => Dict.get_default r `"id" JNull
  | _ => JNull
  end.

Definition response_id (response : json) : json :=
  match response with
  | JDict d => Dict.get_default d `"id" JNull
  | _ => JNull
  end.

(** What is written for a response. *)
Definition written (response : json) : Py.str :=
  Json.dumps response ++ Py.newline.

End Server.

(* ===================================================================== *)
(** * Child processes ([subprocess]) *)
(* ===================================================================== *)

Module OS.

(** What the controller reads back after it has written a request: the
    line [stdout.readline()] returns (empty at end of file) and, for that
    case, what [stderr.read()] returns. *)
Record answer := { stdout_line : Py.str; stderr_text : Py.str }.

(** An executable, as the controller sees it: its answer to the latest line
    written to its standard input, given all the lines written so far, and
    whether it outlives [SIGTERM] beyond the grace period. *)
Record program := {
  respond : list Py.str -> answer;
  ignores_sigterm : bool
}.

Inductive status := Running | Exited.

Record process := {
  image : program;
  state : status;
  stdin_lines : list Py.str
}.

(** The calls made on child processes, oldest first. *)
Inductive event :=
| EvPopen (pid : nat)
| EvTerminate (pid : nat)
| EvWait (pid : nat)
| EvKill (pid : nat)
| EvWrite (pid : nat) (line : Py.str)
| EvReadline (pid : nat).

(** The operating system: which command lines can be executed, the
    processes created so far (a process is named by its index) and the
    calls made so far. *)
Record world := {
  launch : list Py.str -> option (Dict.t Py.str) -> outcome program;
  procs : list process;
  trace : list event
}.

Definition log (ev : event) (w : world) : world :=
  {| launch := launch w; procs := procs w; trace := trace w ++ [ev] |}.

Fixpoint update {A} (l : list A) (i : nat) (f : A -> A) : list A :=
  match l, i with
  | [], _ => []
  | x :: l', O => f x :: l'
  | x :: l', S i' => x :: update l' i' f
  end.

Definition set_state (st : status) (p : process) : process :=
  {| image := image p; state := st; stdin_lines := stdin_lines p |}.

Definition with_procs (w : world) (ps : list process) : world :=
  {| launch := launch w; procs := ps; trace := trace w |}.

(** [p.poll() is None] *)
Definition running (w : world) (pid : nat) : bool :=
  match nth_error (procs w) pid with
  | Some p => match state p with Running => true | Exited => false end
  | None => false
  end.

(** [subprocess.Popen(command, stdin=PIPE, stdout=PIPE, stderr=PIPE,
    text=True, env=env, bufsize=1)] *)
Definition Popen (command : list Py.str) (env : option (Dict.t Py.str))
                 (w : world) : outcome nat * world :=
  match launch w command env with
  | Raise e => (Raise e, w)
  | Return prog =>
      let pid := length (procs w) in
      (Return pid,
       log (EvPopen pid)
           (with_procs w (procs w ++ [ {| image := prog; state := Running;
                                          stdin_lines := [] |} ])))
  end.

(** [p.terminate()]: the child exits within the grace period unless it
    ignores the signal. *)
Definition terminate (pid : nat) (w : world) : world :=
  log (EvTerminate pid)
      (with_procs w
         (update (procs w) pid
                 (fun p => if ignores_sigterm (image p) then p
                           else set_state Exited p))).

(** [p.wait(timeout=5)] *)
Definition wait (pid : nat) (w : world) : outcome unit * world :=
  let w' := log (EvWait pid) w in
  if running w pid
  then (Raise (Exn TimeoutExpired `"timed out after 5 seconds"), w')
  else (Return tt, w').

(** [p.kill()] *)
Definition kill (pid : nat) (w : world) : world :=
  log (EvKill pid) (with_procs w (update (procs w) pid (set_state Exited))).

(** [p.stdin.write(line); p.stdin.flush()] *)
Definition write (pid : nat) (line : Py.str) (w : world) : world :=
  log (EvWrite pid line)
      (with_procs w
         (update (procs w) pid
                 (fun p => {| image := image p; state := state p;
                              stdin_lines := stdin_lines p ++ [line] |}))).

(** [p.stdout.readline()], and [p.stderr.read()] when that is empty: the
    error stream ends when the child has exited. *)
Definition readline (pid : nat) (w : world) : answer * world :=
  match nth_error (procs w) pid with
  | Some p =>
      let a := respond (image p) (stdin_lines p) in
      let w' := log (EvReadline pid) w in
      if Json.is_empty (stdout_line a)
      then (a, with_procs w' (update (procs w') pid (set_state Exited)))
      else (a, w')
  | None => ({| stdout_line := []; stderr_text := [] |}, w)
  end.

End OS.

(* ===================================================================== *)
(** * [mcp_tools/transport.py] *)
(* ===================================================================== *)

Module Transport.

(** [id: int | str] *)
Inductive request_id :=
| IdInt (n : Z)
| IdStr (s : Py.str).

Definition json_of_id (i : request_id) : json :=
  match i with
  | IdInt n => JInt n
  | IdStr s => JStr s
  end.

(** [class JsonRpcRequest] *)
Record JsonRpcRequest := {
  method : Py.str;
  params : Dict.t json;
  id : request_id
}.

(** [JsonRpcRequest.to_json] *)
Definition to_json (self : JsonRpcRequest) : Py.str :=
  Json.dumps (JDict [ (`"jsonrpc", JStr `"2.0");
                      (`"method", JStr (method self));
                      (`"params", JDict (params self));
                      (`"id", json_of_id (id self)) ]).

(** [class JsonRpcResponse]; an absent field is [None]. *)
Record JsonRpcResponse := {
  response_id : json;
  result : json;
  error : json
}.

Definition dict_get_or_None (d : Dict.t json) (k : Py.str) : json :=
  Dict.get_default d k JNull.

(** [JsonRpcResponse.from_json] *)
Definition from_json (data : Py.str) : outcome JsonRpcResponse :=
  match Json.loads data with
  | Raise e => Raise e
  | Return (JDict parsed) =>
      Return {| response_id := dict_get_or_None parsed `"id";
                result := dict_get_or_None parsed `"result";
                error := dict_get_or_None parsed `"error" |}
  | Return other =>
      Raise (Exn AttributeError
                 (`"'" ++ Repr.type_name other
                       ++ `"' object has no attribute 'get'"))
  end.

(** [JsonRpcResponse.is_error] *)
Definition is_error (self : JsonRpcResponse) : bool :=
  match error self with
  | JNull => false
  | _ => true
  end.

(** [class StdioTransport]; [_process] names the child process. *)
Record StdioTransport := {
  command : list Py.str;
  env : option (Dict.t Py.str);
  _process : option nat;
  _request_id : Z
}.

(** [StdioTransport.__init__] *)
Definition __init__ (command : list Py.str) (env : option (Dict.t Py.str))
  : StdioTransport :=
  {| command := command; env := env; _process := None; _request_id := 0 |}.

Definition set_process (self : StdioTransport) (p : option nat)
  : StdioTransport :=
  {| command := command self; env := env self; _process := p;
     _request_id := _request_id self |}.

(** [StdioTransport.stop] *)
Definition stop (self : StdioTransport) (w : OS.world)
  : StdioTransport * OS.world :=
  match _process self with
  | Some pid =>
      let w1 := OS.terminate pid w in
      let w2 := match OS.wait pid w1 with
                | (Return _, w') => w'
                | (Raise _, w') => OS.kill pid w'
                end in
      (set_process self None, w2)
  | None => (self, w)
  end.

(** [StdioTransport.is_alive] *)
Definition is_alive (self : StdioTransport) (w : OS.world) : bool :=
  match _process self with
  | Some pid => OS.running w pid
  | None => false
  end.

(** [StdioTransport.start] *)
Definition start (self : StdioTransport) (w : OS.world)
  : outcome unit * StdioTransport * OS.world :=
  let (self1, w1) :=
    match _process self with
    | Some pid => if OS.running w pid then stop self w else (self, w)
    | None => (self, w)
    end in
  match OS.Popen (command self1) (env self1) w1 with
  | (Raise e, w2) => (Raise e, self1, w2)
  | (Return pid, w2) => (Return tt, set_process self1 (Some pid), w2)
  end.

(** [StdioTransport.send] *)
Definition send (self : StdioTransport) (request : JsonRpcRequest)
                (w : OS.world) : outcome JsonRpcResponse * OS.world :=
  match _process self with
  | Some pid =>
      if OS.running w pid then
        let line := to_json request ++ Py.newline in
        let w1 := OS.write pid line w in
        let (a, w2) := OS.readline pid w1 in
        let response_line := OS.stdout_line a in
        if Json.is_empty response_line then
          (Raise (Exn RuntimeError
                      (`"Tool server process died. stderr: "
                        ++ firstn 500 (OS.stderr_text a))), w2)
        else (from_json (Py.strip response_line), w2)
      else
        (Raise (Exn RuntimeError
                    `"Transport not running. Call start() first."), w)
  | None =>
      (Raise (Exn RuntimeError
                  `"Transport not running. Call start() first."), w)
  end.

(** [StdioTransport.next_id]: the value returned and the transport after
    the call. *)
Definition next_id (self : StdioTransport) : Z * StdioTransport :=
  let n := (_request_id self + 1)%Z in
  (n, {| command := command self; env := env self;
         _process := _process self; _request_id := n |}).

End Transport.

(* ===================================================================== *)
(** * [mcp_tools/manager.py] *)
(* ===================================================================== *)

Module Manager.

(** One value of [_servers]: the dict with the keys ["command"],
    ["transport"], ["env"] and ["tools"]. *)
Record server := {
  command : list Py.str;
  transport : option Transport.StdioTransport;
  env : option (Dict.t Py.str);
  tools : json
}.

(** [class ToolServerManager]: the field [_servers]. *)
Record ToolServerManager := { _servers : Dict.t server }.

(** [ToolServerManager.__init__] *)
Definition __init__ : ToolServerManager := {| _servers := [] |}.

Definition set_transport (s : server) (t : option Transport.StdioTransport)
  : server :=
  {| command := command s; transport := t; env := env s; tools := tools s |}.

Definition set_tools (s : server) (ts : json) : server :=
  {| command := command s; transport := transport s; env := env s;
     tools := ts |}.

(** [self._servers[server_id] = s] *)
Definition put (self : ToolServerManager) (server_id : Py.str) (s : server)
  : ToolServerManager :=
  {| _servers := Dict.set (_servers self) server_id s |}.

(** [ToolServerManager.register_server] *)
Definition register_server (self : ToolServerManager) (server_id : Py.str)
                           (command : list Py.str)
                           (env : option (Dict.t Py.str))
  : outcome unit * ToolServerManager :=
  (Return tt,
   put self server_id
       {| command := command; transport := None; env := env;
          tools := JList [] |}).

(** [t["name"]] *)
Definition subscript_name (t : json) : outcome json :=
  match t with
  | JDict d =>
      match Dict.get d `"name" with
      | Some v => Return v
      | None => Raise (Exn KeyError `"'name'")
      end
  | JList _ =>
      Raise (Exn TypeError `"list indices must be integers or slices, not str")
  | JStr _ =>
      Raise (Exn TypeError `"string indices must be integers, not 'str'")
  | _ =>
      Raise (Exn TypeError
                 (`"'" ++ Repr.type_name t ++ `"' object is not subscriptable"))
  end.

Fixpoint names_of (items : list json) : outcome (list json) :=
  match items with
  | [] => Return []
  | t :: rest =>
      match subscript_name t with
      | Raise e => Raise e
      | Return n =>
          match names_of rest with
          | Raise e => Raise e
          | Return ns => Return (n :: ns)
          end
      end
  end.

(** [[t["name"] for t in tools]]: iterating a dict yields its keys and
    iterating a string its characters. *)
Definition tool_names (tools : json) : outcome (list json) :=
  match tools with
  | JList items => names_of items
  | JDict d => names_of (map JStr (Dict.keys d))
  | JStr s => names_of (map (fun c => JStr [c]) s)
  | _ =>
      Raise (Exn TypeError
                 (`"'" ++ Repr.type_name tools ++ `"' object is not iterable"))
  end.

Section Calls.

Variable isprintable : N -> bool.

(** [ToolServerManager.start] *)
Definition start (self : ToolServerManager) (server_id : Py.str)
                 (w : OS.world)
  : outcome json * ToolServerManager * OS.world :=
  match Dict.get (_servers self) server_id with
  | None => (Raise (Exn ValueError (`"Unknown server: " ++ server_id)), self, w)
  | Some server =>
      let transport := Transport.__init__ (command server) (env server) in
      match Transport.start transport w with
      | (Raise e, _, w1) => (Raise e, self, w1)
      | (Return _, transport1, w1) =>
          let (request_id, transport2) := Transport.next_id transport1 in
          let server1 := set_transport server (Some transport2) in
          let self1 := put self server_id server1 in
          let request :=
            {| Transport.method := `"tools/list";
               Transport.params := [];
               Transport.id := Transport.IdInt request_id |} in
          match Transport.send transport2 request w1 with
          | (Raise e, w2) => (Raise e, self1, w2)
          | (Return response, w2) =>
              if Transport.is_error response then
                (Raise (Exn RuntimeError
                            (`"Failed to discover tools from " ++ server_id
                              ++ `": "
                              ++ Repr.str_ isprintable
                                   (Transport.error response))),
                 self1, w2)
              else
                let found :=
                  if Repr.truthy (Transport.result response)
                  then Transport.result response else JList [] in
                let self2 := put self1 server_id (set_tools server1 found) in
                match tool_names found with
                | Raise e => (Raise e, self2, w2)
                | Return _ => (Return found, self2, w2)
                end
          end
      end
  end.

(** The loop of [ToolServerManager.start_all] over the keys of
    [_servers]. *)
Fixpoint start_each (ids : list Py.str) (results : Dict.t json)
                    (self : ToolServerManager) (w : OS.world)
  : Dict.t json * ToolServerManager * OS.world :=
  match ids with
  | [] => (results, self, w)
  | server_id :: rest =>
      match start self server_id w with
      | (Return found, self', w') =>
          start_each rest (Dict.set results server_id found) self' w'
      | (Raise _, self', w') =>
          start_each rest (Dict.set results server_id (JList [])) self' w'
      end
  end.

(** [ToolServerManager.start_all] *)
Definition start_all (self : ToolServerManager) (w : OS.world)
  : outcome (Dict.t json) * ToolServerManager * OS.world :=
  let '(results, self', w') :=
    start_each (Dict.keys (_servers self)) [] self w in
  (Return results, self', w').

(** [ToolServerManager.stop] *)
Definition stop (self : ToolServerManager) (server_id : Py.str)
                (w : OS.world) : ToolServerManager * OS.world :=
  match Dict.get (_servers self) server_id with
  | Some server =>
      match transport server with
      | Some t =>
          let (_, w') := Transport.stop t w in
          (put self server_id (set_transport server None), w')
      | None => (self, w)
      end
  | None => (self, w)
  end.

(** [ToolServerManager.stop_all] *)
Definition stop_all (self : ToolServerManager) (w : OS.world)
  : ToolServerManager * OS.world :=
  fold_left (fun st server_id => stop (fst st) server_id (snd st))
            (Dict.keys (_servers self)) (self, w).

(** [ToolServerManager.call] *)
Definition call (self : ToolServerManager) (server_id tool_name : Py.str)
                (arguments : Dict.t json) (w : OS.world)
  : outcome json * ToolServerManager * OS.world :=
  match Dict.get (_servers self) server_id with
  | None => (Raise (Exn ValueError (`"Unknown server: " ++ server_id)), self, w)
  | Some server =>
      match transport server with
      | Some t =>
          if Transport.is_alive t w then
            let (request_id, t1) := Transport.next_id t in
            let self1 := put self server_id (set_transport server (Some t1)) in
            let request :=
              {| Transport.method := `"tools/call";
                 Transport.params :=
                   [ (`"name", JStr tool_name);
                     (`"arguments", JDict arguments) ];
                 Transport.id := Transport.IdInt request_id |} in
            match Transport.send t1 request w with
            | (Raise e, w1) => (Raise e, self1, w1)
            | (Return response, w1) =>
                if Transport.is_error response then
                  (Raise (Exn RuntimeError
                              (`"Tool call failed (" ++ server_id ++ `"/"
                                ++ tool_name ++ `"): "
                                ++ Repr.str_ isprintable
                                     (Transport.error response))),
                   self1, w1)
                else (Return (Transport.result response), self1, w1)
            end
          else
            (Raise (Exn RuntimeError
                        (`"Server " ++ server_id
                          ++ `" is not running. Call start() first.")),
             self, w)
      | None =>
          (Raise (Exn RuntimeError
                      (`"Server " ++ server_id
                        ++ `" is not running. Call start() first.")),
           self, w)
      end
  end.

End Calls.

(** [ToolServerManager.list_tools] *)
Definition list_tools (self : ToolServerManager) (server_id : Py.str)
  : json :=
  match Dict.get (_servers self) server_id with
  | Some server => tools server
  | None => JList []
  end.

Definition transport_alive (s : server) (w : OS.world) : bool :=
  match transport s with
  | Some t => Transport.is_alive t w
  | None => false
  end.

(** [ToolServerManager.list_servers] *)
Definition list_servers (self : ToolServerManager) (w : OS.world)
  : Dict.t bool :=
  map (fun kv => (fst kv, transport_alive (snd kv) w)) (_servers self).

(** [ToolServerManager.is_running] *)
Definition is_running (self : ToolServerManager) (server_id : Py.str)
                      (w : OS.world) : bool :=
  match Dict.get (_servers self) server_id with
  | Some server => transport_alive server w
  | None => false
  end.

End Manager.

(* ===================================================================== *)
(** * Well-formed values, and sequences of calls *)
(* ===================================================================== *)

Module Valid.

Local Open Scope N_scope.

(** A Unicode scalar value: a code point that is not a surrogate. *)
Definition is_scalar (c : N) : bool :=
  (c <? c_D800) || ((c_E000 <=? c) && (c <? c_110000)).

Definition str (s : Py.str) : bool := forallb is_scalar s.

(** The text [json.dumps] writes for a float: a number with a fraction or
    an exponent, or one of the three names. *)
Definition float_text (text : Py.str) : bool :=
  match Json.match_number text with
  | Some (_, frac, exp, []) =>
      negb (Json.is_empty frac && Json.is_empty exp)
  | _ => false
  end
  || Py.str_eqb text `"NaN" || Py.str_eqb text `"Infinity"
  || Py.str_eqb text `"-Infinity".

Fixpoint distinct (ks : list Py.str) : bool :=
  match ks with
  | [] => true
  | k :: rest => negb (existsb (Py.str_eqb k) rest) && distinct rest
  end.

(** A value a Python program can hold: strings of scalar values, floats
    with the text of a float, dicts with distinct keys. *)
Fixpoint value (v : json) : bool :=
  match v with
  | JNull | JBool _ | JInt _ => true
  | JFloat text => float_text text
  | JStr s => str s
  | JList items => forallb value items
  | JDict d =>
      distinct (map fst d)
      && forallb (fun kv => str (fst kv) && value (snd kv)) d
  end.

(** What a value starts with in the text the encoder writes: no white
    space, no closing bracket and no byte-order mark. *)
Definition starts_value (c : N) : Prop :=
  Json.is_ws c = false /\ (c =? c_rbracket) = false /\ (c =? c_bom) = false.

(** What can follow a value in the text the encoder writes: nothing, a
    comma, or the end of the enclosing list or dict. *)
Definition ends_value (rest : Py.str) : bool :=
  match rest with
  | [] => true
  | c :: _ => (c =? c_comma) || (c =? c_rbracket) || (c =? c_rbrace)
  end.

(** The decoder reads the text of [v] back as [v], whatever follows it,
    given fuel for the length of the text. *)
Definition reads_back (v : json) : Prop :=
  forall fuel rest,
    (length (Json.dumps v) <= fuel)%nat ->
    ends_value rest = true ->
    Json.scan_once fuel (Json.dumps v ++ rest) = Json.Scanned v rest.

(** The text of a dict item, as [dumps] writes it. *)
Definition item_text (kv : Py.str * json) : Py.str :=
  Json.encode_str (fst kv) ++ `": " ++ Json.dumps (snd kv).

Definition request (r : Transport.JsonRpcRequest) : bool :=
  str (Transport.method r)
  && value (JDict (Transport.params r))
  && value (Transport.json_of_id (Transport.id r)).

End Valid.

Module Session.

(** A child process exits on its own. *)
Definition child_exits (pid : nat) (w : OS.world) : OS.world :=
  OS.with_procs w (OS.update (OS.procs w) pid (OS.set_state OS.Exited)).

(** The calls a client makes on one [StdioTransport], and the child dying
    in between. *)
Inductive transport_op :=
| TStart
| TStop
| TIsAlive
| TSend (request : Transport.JsonRpcRequest)
| TNextId
| TChildExits.

(** A transport, the world around it, and the values [next_id] has
    returned so far, oldest first. *)
Definition transport_state : Type :=
  Transport.StdioTransport * OS.world * list Z.

Definition transport_step (st : transport_state) (o : transport_op)
  : transport_state :=
  let '(t, w, ids) := st in
  match o with
  | TStart => let '(_, t', w') := Transport.start t w in (t', w', ids)
  | TStop => let (t', w') := Transport.stop t w in (t', w', ids)
  | TIsAlive => (t, w, ids)
  | TSend request => let (_, w') := Transport.send t request w in (t, w', ids)
  | TNextId => let (n, t') := Transport.next_id t in (t', w, ids ++ [n])
  | TChildExits =>
      match Transport._process t with
      | Some pid => (t, child_exits pid w, ids)
      | None => (t, w, ids)
      end
  end.

Definition transport_run (ops : list transport_op) (st : transport_state)
  : transport_state :=
  fold_left transport_step ops st.

Definition count_next_id (ops : list transport_op) : nat :=
  length (filter (fun o => match o with TNextId => true | _ => false end) ops).

(** The calls a client makes on a [ToolServerManager], and a child dying in
    between. *)
Inductive manager_op :=
| Register (server_id : Py.str) (command : list Py.str)
           (env : option (Dict.t Py.str))
| Start (server_id : Py.str)
| StartAll
| Stop (server_id : Py.str)
| StopAll
| Call (server_id tool_name : Py.str) (arguments : Dict.t json)
| ChildExits (pid : nat).

Definition manager_state : Type := Manager.ToolServerManager * OS.world.

Section Steps.

Variable isprintable : N -> bool.

Definition manager_step (st : manager_state) (o : manager_op)
  : manager_state :=
  let (m, w) := st in
  match o with
  | Register server_id command env =>
      (snd (Manager.register_server m server_id command env), w)
  | Start server_id =>
      let '(_, m', w') := Manager.start isprintable m server_id w in (m', w')
  | StartAll =>
      let '(_, m', w') := Manager.start_all isprintable m w in (m', w')
  | Stop server_id => Manager.stop m server_id w
  | StopAll => Manager.stop_all m w
  | Call server_id tool_name arguments =>
      let '(_, m', w') :=
        Manager.call isprintable m server_id tool_name arguments w in
      (m', w')
  | ChildExits pid => (m, child_exits pid w)
  end.

Definition manager_run (ops : list manager_op) (st : manager_state)
  : manager_state :=
  fold_left manager_step ops st.

End Steps.

(** The call starts the server [server_id]. *)
Definition starts (server_id : Py.str) (o : manager_op) : bool :=
  match o with
  | Start server_id' => Py.str_eqb server_id' server_id
  | StartAll => true
  | _ => false
  end.

(** The registration of [k] exists and holds no transport. *)
Definition detached (k : Py.str) (m : Manager.ToolServerManager) : Prop :=
  exists s, Dict.get (Manager._servers m) k = Some s
            /\ Manager.transport s = None.

(** The process a registration holds through its transport, if any. *)
Definition server_pids (s : Manager.server) : list nat :=
  match Manager.transport s with
  | Some t => match Transport._process t with
              | Some pid => [pid]
              | None => []
              end
  | None => []
  end.

(** The processes the manager can reach: those its transports hold. *)
Definition held_pids (m : Manager.ToolServerManager) : list nat :=
  flat_map (fun kv => server_pids (snd kv)) (Manager._servers m).

End Session.

(* ===================================================================== *)
(** * A worker and a world to run the definitions on *)
(* ===================================================================== *)

Module Example.

(** [len(v)] *)
Definition len (v : json) : outcome json :=
  match v with
  | JStr s => Return (JInt (Z.of_nat (length s)))
  | JList items => Return (JInt (Z.of_nat (length items)))
  | JDict d => Return (JInt (Z.of_nat (length d)))
  | _ =>
      Raise (Exn TypeError
                 (`"object of type '" ++ Repr.type_name v ++ `"' has no len()"))
  end.

(** [class EchoTool] of [mcp_tools/servers/echo.py] *)
Definition EchoTool : Server.ToolHandler :=
  {| Server.class_name := `"EchoTool";
     Server.name := `"echo";
     Server.description :=
       `"Echoes back the input message. Useful for testing.";
     Server.parameters :=
       [ (`"message",
           JDict [ (`"type", JStr `"string");
                   (`"description", JStr `"The message to echo back") ]) ];
     Server.handle := fun params =>
       match params with
       | JDict p =>
           let message := Dict.get_default p `"message" (JStr []) in
           match len message with
           | Return n =>
               Return (Server.Encodable
                         (JDict [ (`"echoed", message); (`"length", n) ]))
           | Raise e => Raise e
           end
       | _ =>
           Raise (Exn AttributeError
                      (`"'" ++ Repr.type_name params
                            ++ `"' object has no attribute 'get'"))
       end |}.

(** The server that [echo.py] builds before it calls [run]. *)
Definition echo_server : Server.StdioToolServer :=
  match Server.register Server.__init__ EchoTool with
  | Return s => s
  | Raise _ => Server.__init__
  end.

(** A table for [isprintable] under which [repr] escapes every code point
    above U+007E. *)
Definition isprintable (c : N) : bool := false.

(** A worker as the controller sees it: it answers the latest line with
    what [run] writes for it, and its output ends when [run] has left its
    loop or has nothing to write. *)
Definition worker (self : Server.StdioToolServer) : OS.program :=
  {| OS.respond := fun lines =>
       let before :=
         snd (Server.run isprintable self (removelast lines)) in
       match Server.run isprintable self lines with
       | (Return _, out) =>
           {| OS.stdout_line := concat (skipn (length before) out);
              OS.stderr_text := [] |}
       | (Raise e, _) =>
           {| OS.stdout_line := []; OS.stderr_text := exn_str e |}
       end;
     OS.ignores_sigterm := false |}.

Definition echo_command : list Py.str :=
  [ `"python"; `"-m"; `"mcp_tools.servers.echo" ].

Fixpoint command_eqb (a b : list Py.str) : bool :=
  match a, b with
  | [], [] => true
  | x :: a', y :: b' => Py.str_eqb x y && command_eqb a' b'
  | _, _ => false
  end.

(** A machine on which only the echo server can be launched. *)
Definition world0 : OS.world :=
  {| OS.launch := fun command _ =>
       if command_eqb command echo_command then Return (worker echo_server)
       else Raise (Exn OSError `"[Errno 2] No such file or directory");
     OS.procs := [];
     OS.trace := [] |}.

(** A call of a tool the echo server does not have. *)
Definition call_nope : Transport.JsonRpcRequest :=
  {| Transport.method := `"tools/call";
     Transport.params := [ (`"name", JStr `"nope"); (`"arguments", JDict []) ];
     Transport.id := Transport.IdInt 3 |}.

(** A health check with a string id. *)
Definition ping : Transport.JsonRpcRequest :=
  {| Transport.method := `"ping";
     Transport.params := [];
     Transport.id := Transport.IdStr `"p1" |}.

(** Two request lines, as [send] writes them. *)
Definition two_requests : list Py.str :=
  [ Transport.to_json call_nope ++ Py.newline;
    Transport.to_json ping ++ Py.newline ].

(** A manager with the echo server registered as [A] and a command that
    cannot be launched registered as [B]. *)
Definition registered : Manager.ToolServerManager :=
  snd (Manager.register_server
         (snd (Manager.register_server Manager.__init__ `"A" echo_command None))
         `"B" [ `"no-such-program" ] None).

(** The same manager and the world after [start_all]. *)
Definition started : Manager.ToolServerManager * OS.world :=
  let '(_, m, w) :=
    Manager.start_all isprintable registered world0 in
  (m, w).

Definition server_A : Manager.server :=
  match Dict.get (Manager._servers (fst started)) `"A" with
  | Some s => s
  | None => {| Manager.command := []; Manager.transport := None;
               Manager.env := None; Manager.tools := JNull |}
  end.

Definition transport_A : Transport.StdioTransport :=
  match Manager.transport server_A with
  | Some t => t
  | None => Transport.__init__ [] None
  end.

End Example.

(* ===================================================================== *)
(** * [mcp_tools/bridge.py] *)
(* ===================================================================== *)

Module Bridge.

Local Open Scope N_scope.

(** [newline_indent] of the encoder for [indent=2]: a line break and two
    spaces for each level. *)
Definition newline_indent (level : nat) : Py.str :=
  c_newline :: repeat c_space (2 * level).

(** [json.dumps(v, indent=2)]: items on lines of their own, separated by a
    comma; an empty list and an empty dict stay on one line. *)
Fixpoint dumps_indent (level : nat) (v : json) : Py.str :=
  match v with
  | JList [] => `"[]"
  | JList items =>
      `"[" ++ newline_indent (S level)
           ++ Py.join (`"," ++ newline_indent (S level))
                      (map (dumps_indent (S level)) items)
           ++ newline_indent level ++ `"]"
  | JDict [] => `"{}"
  | JDict d =>
      `"{" ++ newline_indent (S level)
           ++ Py.join (`"," ++ newline_indent (S level))
                      (map (fun kv => Json.encode_str (fst kv) ++ `": "
                                        ++ dumps_indent (S level) (snd kv)) d)
           ++ newline_indent level ++ `"}"
  | _ => Json.dumps v
  end.

(** [v.get(k, default)] for a key [k] that is a string: only a dict has
    [get]. *)
Definition get_or (v : json) (k : Py.str) (default : json) : outcome json :=
  match v with
  | JDict d => Return (Dict.get_default d k default)
  | _ =>
      Raise (Exn AttributeError
                 (`"'" ++ Repr.type_name v
                       ++ `"' object has no attribute 'get'"))
  end.

(** [params.items()] *)
Definition items (params : json) : outcome (list (Py.str * json)) :=
  match params with
  | JDict d => Return d
  | _ =>
      Raise (Exn AttributeError
                 (`"'" ++ Repr.type_name params
                       ++ `"' object has no attribute 'items'"))
  end.

Section Calls.

Variable isprintable : N -> bool.

(** The body of the loop of [_auto_prompt_instructions]: the line for one
    parameter. *)
Definition param_line (pname : Py.str) (pinfo : json) : outcome Py.str :=
  match get_or pinfo `"type" (JStr `"any") with
  | Raise e => Raise e
  | Return ptype =>
      match get_or pinfo `"description" (JStr []) with
      | Raise e => Raise e
      | Return pdesc =>
          Return (`"  - " ++ pname ++ `" (" ++ Repr.str_ isprintable ptype
                          ++ `"): " ++ Repr.str_ isprintable pdesc)
      end
  end.

Fixpoint param_lines (params : list (Py.str * json))
  : outcome (list Py.str) :=
  match params with
  | [] => Return []
  | (pname, pinfo) :: rest =>
      match param_line pname pinfo with
      | Raise e => Raise e
      | Return line =>
          match param_lines rest with
          | Raise e => Raise e
          | Return lines => Return (line :: lines)
          end
      end
  end.

(** [_auto_prompt_instructions]: the lines are built first and joined last,
    and [str.join] rejects a description that is not a string. *)
Definition _auto_prompt_instructions (schema : json) : outcome Py.str :=
  match get_or schema `"name" (JStr `"unknown") with
  | Raise e => Raise e
  | Return name =>
  match get_or schema `"description" (JStr []) with
  | Raise e => Raise e
  | Return description =>
  match get_or schema `"parameters" (JDict []) with
  | Raise e => Raise e
  | Return parameters =>
  match get_or parameters `"properties" (JDict []) with
  | Raise e => Raise e
  | Return params =>
      let more :=
        if Repr.truthy params then
          match items params with
          | Raise e => Raise e
          | Return d =>
              match param_lines d with
              | Raise e => Raise e
              | Return lines => Return (`"Parameters:" :: lines)
              end
          end
        else Return [] in
      match more with
      | Raise e => Raise e
      | Return more =>
          match description with
          | JStr d =>
              Return (Py.join Py.newline
                        ([ `"## Tool: " ++ Repr.str_ isprintable name; d; [] ]
                           ++ more))
          | _ =>
              Raise (Exn TypeError
                         (`"sequence item 1: expected str instance, "
                           ++ Repr.type_name description ++ `" found"))
          end
      end
  end end end end.

(** [_call_mcp], the function that [mcp_to_langchain_tool] wraps into the
    tool it returns: [kwargs] are the keyword arguments of the call. *)
Definition _call_mcp (manager : Manager.ToolServerManager)
                     (server_id tool_name : Py.str) (kwargs : Dict.t json)
                     (w : OS.world)
  : Py.str * Manager.ToolServerManager * OS.world :=
  match Manager.call isprintable manager server_id tool_name kwargs w with
  | (Return (JStr s), manager', w') => (s, manager', w')
  | (Return result, manager', w') => (dumps_indent 0 result, manager', w')
  | (Raise e, manager', w') =>
      (`"Error calling " ++ server_id ++ `"/" ++ tool_name ++ `": "
         ++ exn_str e,
       manager', w')
  end.

End Calls.

End Bridge.

(* ===================================================================== *)
(** * [run_agent.py]: starting the tool servers *)
(* ===================================================================== *)

Module RunAgent.

Section Servers.

Variable isprintable : N -> bool.

(** [sys.executable] *)
Variable executable : Py.str.

(** [MCP_SERVERS], reduced to the ["command"] of each entry, which is all
    that [start_mcp_servers] reads. *)
Definition MCP_SERVERS : Dict.t (list Py.str) :=
  [ (`"calculator", [ executable; `"-m"; `"mcp_tools.servers.calculator" ]);
    (`"echo", [ executable; `"-m"; `"mcp_tools.servers.echo" ]) ].

(** The loop of [start_mcp_servers]. *)
Fixpoint start_each (server_ids : list Py.str) (all_tools : Dict.t json)
                    (manager : Manager.ToolServerManager) (w : OS.world)
  : Dict.t json * Manager.ToolServerManager * OS.world :=
  match server_ids with
  | [] => (all_tools, manager, w)
  | sid :: rest =>
      match Dict.get MCP_SERVERS sid with
      | None => start_each rest all_tools manager w
      | Some command =>
          let manager1 :=
            snd (Manager.register_server manager sid command None) in
          match Manager.start isprintable manager1 sid w with
          | (Return tools, manager2, w2) =>
              match Manager.tool_names tools with
              | Return _ =>
                  start_each rest (Dict.set all_tools sid tools) manager2 w2
              | Raise _ => start_each rest all_tools manager2 w2
              end
          | (Raise _, manager2, w2) => start_each rest all_tools manager2 w2
          end
      end
  end.

(** [start_mcp_servers]: [None] and the empty list both stand for every
    server of [MCP_SERVERS]. *)
Definition start_mcp_servers (manager : Manager.ToolServerManager)
                             (server_ids : option (list Py.str))
                             (w : OS.world)
  : Dict.t json * Manager.ToolServerManager * OS.world :=
  let server_ids :=
    match server_ids with
    | Some (sid :: rest) => sid :: rest
    | _ => Dict.keys MCP_SERVERS
    end in
  start_each server_ids [] manager w.

End Servers.

End RunAgent.

(* ===================================================================== *)
(** * The worker scripts under [mcp_tools/servers/] *)
(* ===================================================================== *)

Module Startup.

(** The main block of a worker script: [server = StdioToolServer()], then
    [server.register(h)] for each handler in turn.  An exception of
    [register] ends the script before [run] is reached. *)
Fixpoint register_each (self : Server.StdioToolServer)
                       (handlers : list Server.ToolHandler)
  : outcome Server.StdioToolServer :=
  match handlers with
  | [] => Return self
  | handler :: rest =>
      match Server.register self handler with
      | Return self' => register_each self' rest
      | Raise e => Raise e
      end
  end.

Section Worker.

Variable isprintable : N -> bool.

(** A worker script that has reached [server.run()], as the controller sees
    it through the pipes: it answers the latest line with what [run] writes
    for it, and its output ends when [run] has left its loop. *)
Definition worker (self : Server.StdioToolServer) : OS.program :=
  {| OS.respond := fun lines =>
       let before :=
         snd (Server.run isprintable self (removelast lines)) in
       match Server.run isprintable self lines with
       | (Return _, out) =>
           {| OS.stdout_line := concat (skipn (length before) out);
              OS.stderr_text := [] |}
       | (Raise e, _) =>
           {| OS.stdout_line := []; OS.stderr_text := exn_str e |}
       end;
     OS.ignores_sigterm := false |}.

End Worker.

(** A tools/call request, as [ToolServerManager.call] builds it. *)
Definition tools_call (tool_name : Py.str) (arguments : Dict.t json)
                      (request_id : Z) : Transport.JsonRpcRequest :=
  {| Transport.method := `"tools/call";
     Transport.params :=
       [ (`"name", JStr tool_name); (`"arguments", JDict arguments) ];
     Transport.id := Transport.IdInt request_id |}.

End Startup.

(* ===================================================================== *)
(** * The wire format: one line, one message *)
(* ===================================================================== *)

Module Wire.

Local Open Scope N_scope.

(** A printable ASCII character, U+0020 to U+007E: neither a line break
    nor anything a text stream translates. *)
Definition printable (c : N) : bool := (c_space <=? c) && (c <=? c_tilde).

Definition plain (s : Py.str) : bool := forallb printable s.

(** The float texts of a value are plain, as [float.__repr__] makes
    them. *)
Fixpoint plain_floats (v : json) : bool :=
  match v with
  | JFloat text => plain text
  | JList items => forallb plain_floats items
  | JDict d => forallb (fun kv => plain_floats (snd kv)) d
  | _ => true
  end.

(** One message of the protocol: plain text and the line terminator. *)
Definition one_line (s : Py.str) : Prop :=
  exists body, s = body ++ Py.newline /\ plain body = true.

(** The handlers of a worker describe their parameters, and answer
    arguments whose float texts are plain, with values whose float texts
    are plain. *)
Definition plain_handlers (self : Server.StdioToolServer) : Prop :=
  forall k handler,
    In (k, handler) (Server._handlers self) ->
    plain_floats (JDict (Server.parameters handler)) = true
    /\ forall arguments v,
         plain_floats arguments = true ->
         Server.handle handler arguments = Return (Server.Encodable v) ->
         plain_floats v = true.

End Wire.

(* ===================================================================== *)
(** * Invariants *)
(* ===================================================================== *)

Module Invariant.

(** The handlers of a worker are stored under their own names, which are
    distinct and not empty. *)
Definition named_handlers (self : Server.StdioToolServer) : Prop :=
  NoDup (Dict.keys (Server._handlers self))
  /\ Forall (fun kv => fst kv = Server.name (snd kv) /\ fst kv <> [])
            (Server._handlers self).

(** A registration without its transport, when [b] holds. *)
Definition detach_if (b : bool) (kv : Py.str * Manager.server)
  : Py.str * Manager.server :=
  if b then (fst kv, Manager.set_transport (snd kv) None) else kv.

(** A transport and the processes around it: the transport holds a process
    created since there were [base] of them, every other process created
    since is not running, and the processes that were there before run as
    [running0] tells. *)
Definition tidy (base : nat) (running0 : nat -> bool)
                (t : Transport.StdioTransport) (w : OS.world) : Prop :=
  base <= length (OS.procs w)
  /\ (forall pid, Transport._process t = Some pid ->
                  base <= pid < length (OS.procs w))
  /\ (forall pid, base <= pid -> OS.running w pid = true ->
                  Transport._process t = Some pid)
  /\ (forall pid, pid < base -> OS.running w pid = running0 pid).

End Invariant.

(* ===================================================================== *)
(** * A careful client *)
(* ===================================================================== *)

Module Discipline.

Section Steps.

Variable isprintable : N -> bool.

(** The check a careful client makes before a call: it neither starts nor
    registers again a server for which [is_running] is [True]. *)
Definition allowed (st : Session.manager_state) (o : Session.manager_op)
  : bool :=
  let (m, w) := st in
  match o with
  | Session.Register server_id _ _ | Session.Start server_id =>
      negb (Manager.is_running m server_id w)
  | Session.StartAll =>
      forallb (fun server_id => negb (Manager.is_running m server_id w))
              (Dict.keys (Manager._servers m))
  | _ => true
  end.

(** Every call of the sequence is allowed in the state it is made in. *)
Fixpoint followed (ops : list Session.manager_op)
                  (st : Session.manager_state) : bool :=
  match ops with
  | [] => true
  | o :: rest =>
      allowed st o && followed rest (Session.manager_step isprintable st o)
  end.

End Steps.

(** The registrations have distinct ids, the processes they hold exist,
    and every process created since there were [base] of them that is
    still running is held by a registration. *)
Definition all_held (base : nat) (m : Manager.ToolServerManager)
                    (w : OS.world) : Prop :=
  NoDup (Dict.keys (Manager._servers m))
  /\ (forall pid, In pid (Session.held_pids m) -> pid < length (OS.procs w))
  /\ (forall pid, base <= pid -> OS.running w pid = true ->
                  In pid (Session.held_pids m)).

End Discipline.

(* ===================================================================== *)
(** * The limits of the interpreter *)
(* ===================================================================== *)

Module Limits.

Local Open Scope N_scope.

(** What an interpreter allows where the program calls [json]: how many
    lists and dicts [json.loads] enters, one inside the other, before it
    raises [RecursionError], how many [json.dumps] does, and
    [sys.get_int_max_str_digits()], the longest integer [int] and [str]
    convert (4300 unless it is changed, 0 for no limit).  The two depths
    are what is left of [sys.getrecursionlimit()] at the call; an
    interpreter that runs the program at all has room for a dict in a
    dict. *)
Record t := {
  decode_depth : nat;
  encode_depth : nat;
  max_str_digits : nat;
  encode_room : (2 <= encode_depth)%nat
}.

(** The conversion between [int] and [str] refuses [digits] digits. *)
Definition too_many_digits (lim : t) (digits : nat) : bool :=
  (640 <? digits)%nat && (0 <? max_str_digits lim)%nat
  && (max_str_digits lim <? digits)%nat.

Definition limit_text (lim : t) : Py.str :=
  `"Exceeds the limit (" ++ Py.str_of_nat (max_str_digits lim)
    ++ `" digits) for integer string conversion".

Definition how_to_increase : Py.str :=
  `"; use sys.set_int_max_str_digits() to increase the limit".

(** The [ValueError] of [int(text)] *)
Definition str_to_int_error (lim : t) (digits : nat) : exn :=
  Exn ValueError
      (limit_text lim ++ `": value has " ++ Py.str_of_nat digits
         ++ `" digits" ++ how_to_increase).

(** The [ValueError] of [str(n)] *)
Definition int_to_str_error (lim : t) : exn :=
  Exn ValueError (limit_text lim ++ how_to_increase).

(** The digits of the first group of [NUMBER_RE], without its sign. *)
Definition literal_digits (integer : Py.str) : nat :=
  match integer with
  | c :: ds => if c =? c_minus then length ds else length integer
  | [] => O
  end.

(** The decimal digits of an integer. *)
Definition int_digits (n : Z) : nat := length (Py.str_of_N (Z.abs_N n)).

(** How deep a value nests: 0 for a scalar, 1 for a list or a dict of
    scalars. *)
Fixpoint depth (v : json) : nat :=
  match v with
  | JList items => S (fold_right (fun x d => Nat.max (depth x) d) O items)
  | JDict d => S (fold_right (fun kv n => Nat.max (depth (snd kv)) n) O d)
  | _ => O
  end.

Section Interpreter.

Variable lim : t.

(** Every integer of the value can be converted. *)
Fixpoint ints_fit (v : json) : bool :=
  match v with
  | JInt n => negb (too_many_digits lim (int_digits n))
  | JList items => forallb ints_fit items
  | JDict d => forallb (fun kv => ints_fit (snd kv)) d
  | _ => true
  end.

(** The value nests no deeper than [budget] and its integers can be
    converted. *)
Definition within (budget : nat) (v : json) : bool :=
  (depth v <=? budget)%nat && ints_fit v.

(** [json.dumps] has the depth for the value, and [json.loads] for its
    text. *)
Definition encodes (v : json) : bool := within (encode_depth lim) v.
Definition decodes (v : json) : bool := within (decode_depth lim) v.

(** ** Encoder *)

Definition encoder_recursion : exn :=
  Exn RecursionError
      `"maximum recursion depth exceeded while encoding a JSON object".

(** What stops the encoder, if anything does: it writes the items in order,
    enters a list or a dict when there is depth left and converts an
    integer with [int.__repr__]. *)
Fixpoint encode_error (budget : nat) (v : json) {struct v}
  : option exn :=
  match v with
  | JInt n =>
      if too_many_digits lim (int_digits n) then Some (int_to_str_error lim)
      else None
  | JList items =>
      match budget with
      | O => Some encoder_recursion
      | S budget' =>
          (fix first (l : list json) : option exn :=
             match l with
             | [] => None
             | x :: rest =>
                 match encode_error budget' x with
                 | Some e => Some e
                 | None => first rest
                 end
             end) items
      end
  | JDict d =>
      match budget with
      | O => Some encoder_recursion
      | S budget' =>
          (fix first (l : list (Py.str * json)) : option exn :=
             match l with
             | [] => None
             | kv :: rest =>
                 match encode_error budget' (snd kv) with
                 | Some e => Some e
                 | None => first rest
                 end
             end) d
      end
  | _ => None
  end.

(** [json.dumps(v)] *)
Definition dumps (v : json) : outcome Py.str :=
  match encode_error (encode_depth lim) v with
  | Some e => Raise e
  | None => Return (Json.dumps v)
  end.

(** ** Decoder *)

(** What a scanning function does at a position: as [Json.scan], or it
    raises an exception that is not a [JSONDecodeError]. *)
Inductive scan :=
| Scanned (v : json) (rest : Py.str)
| Stop (remaining : nat)
| DecodeError (msg : Py.str) (remaining : nat)
| Limit (e : exn)
| OutOfFuel.

Definition decoder_recursion (what : Py.str) : exn :=
  Exn RecursionError
      (`"maximum recursion depth exceeded while decoding a JSON " ++ what
         ++ `" from a unicode string").

(** [scan_once], [_parse_array] and [_parse_object] of the scanner: it
    enters a list or a dict when there is depth left, and converts the
    text of an integer with [int].  [fuel] bounds the number of items, as
    in [Json.scan_once]. *)
Fixpoint scan_once (budget fuel : nat) (s : Py.str) {struct fuel} : scan :=
  match fuel with
  | O => OutOfFuel
  | S fuel' =>
      match s with
      | [] => Stop 0
      | c :: r =>
          if c =? c_quote then
            match Json.scanstring (length s) r with
            | Json.Scanned k rest => Scanned (JStr k) rest
            | Json.Stop n => Stop n
            | Json.DecodeError m n => DecodeError m n
            | Json.OutOfFuel => OutOfFuel
            end
          else if c =? c_lbrace then
            match budget with
            | O => Limit (decoder_recursion `"object")
            | S budget' =>
                match Json.skip_ws r with
                | [] =>
                    DecodeError
                      `"Expecting property name enclosed in double quotes" 0
                | c1 :: r1 =>
                    if c1 =? c_rbrace then Scanned (JDict []) r1
                    else if c1 =? c_quote then
                      object_items budget' fuel' r1 (length r1 + 1) []
                    else
                      DecodeError
                        `"Expecting property name enclosed in double quotes"
                        (length r1 + 1)
                end
            end
          else if c =? c_lbracket then
            match budget with
            | O => Limit (decoder_recursion `"array")
            | S budget' =>
                match Json.skip_ws r with
                | [] => DecodeError `"Expecting value" 0
                | c1 :: r1 =>
                    if c1 =? c_rbracket then Scanned (JList []) r1
                    else array_items budget' fuel' (c1 :: r1) []
                end
            end
          else if Py.startswith s `"null" then Scanned JNull (skipn 4 s)
          else if Py.startswith s `"true" then Scanned (JBool true) (skipn 4 s)
          else if Py.startswith s `"false" then
            Scanned (JBool false) (skipn 5 s)
          else
            match Json.match_number s with
            | Some (integer, frac, exp, rest) =>
                if Json.is_empty frac && Json.is_empty exp then
                  if too_many_digits lim (literal_digits integer)
                  then Limit (str_to_int_error lim (literal_digits integer))
                  else Scanned (JInt (Json.parse_int integer)) rest
                else Scanned (JFloat (integer ++ frac ++ exp)) rest
            | None =>
                if Py.startswith s `"NaN" then
                  Scanned (JFloat `"NaN") (skipn 3 s)
                else if Py.startswith s `"Infinity" then
                  Scanned (JFloat `"Infinity") (skipn 8 s)
                else if Py.startswith s `"-Infinity" then
                  Scanned (JFloat `"-Infinity") (skipn 9 s)
                else Stop (length s)
            end
      end
  end

with array_items (budget fuel : nat) (s : Py.str) (acc : list json)
                 {struct fuel} : scan :=
  match fuel with
  | O => OutOfFuel
  | S fuel' =>
      match scan_once budget fuel' s with
      | Scanned v r =>
          match Json.skip_ws r with
          | [] => DecodeError `"Expecting ',' delimiter" 0
          | c :: r1 =>
              if c =? c_rbracket then Scanned (JList (rev (v :: acc))) r1
              else if c =? c_comma then
                array_items budget fuel' (Json.skip_ws r1) (v :: acc)
              else DecodeError `"Expecting ',' delimiter" (length r1 + 1)
          end
      | Stop n => DecodeError `"Expecting value" n
      | DecodeError m n => DecodeError m n
      | Limit e => Limit e
      | OutOfFuel => OutOfFuel
      end
  end

with object_items (budget fuel : nat) (s : Py.str) (start : nat)
                  (acc : list (Py.str * json)) {struct fuel} : scan :=
  match fuel with
  | O => OutOfFuel
  | S fuel' =>
      match Json.scanstring start s with
      | Json.Scanned key r =>
          match Json.skip_ws r with
          | [] => DecodeError `"Expecting ':' delimiter" 0
          | c :: r1 =>
              if c =? c_colon then
                match scan_once budget fuel' (Json.skip_ws r1) with
                | Scanned v r2 =>
                    match Json.skip_ws r2 with
                    | [] => DecodeError `"Expecting ',' delimiter" 0
                    | c2 :: r3 =>
                        if c2 =? c_rbrace then
                          Scanned
                            (JDict (Dict.of_pairs (rev ((key, v) :: acc)))) r3
                        else if c2 =? c_comma then
                          match Json.skip_ws r3 with
                          | [] =>
                              DecodeError
                                `"Expecting property name enclosed in double quotes"
                                0
                          | c3 :: r4 =>
                              if c3 =? c_quote then
                                object_items budget fuel' r4 (length r4 + 1)
                                             ((key, v) :: acc)
                              else
                                DecodeError
                                  `"Expecting property name enclosed in double quotes"
                                  (length r4 + 1)
                          end
                        else
                          DecodeError `"Expecting ',' delimiter"
                                      (length r3 + 1)
                    end
                | Stop n => DecodeError `"Expecting value" n
                | DecodeError m n => DecodeError m n
                | Limit e => Limit e
                | OutOfFuel => OutOfFuel
                end
              else DecodeError `"Expecting ':' delimiter" (length r1 + 1)
          end
      | Json.Stop n => Stop n
      | Json.DecodeError m n => DecodeError m n
      | Json.OutOfFuel => OutOfFuel
      end
  end.

(** [json.loads(s)]: the fuel is more than any text can use, as in
    [Json.loads]. *)
Definition loads (s : Py.str) : outcome json :=
  let error msg remaining :=
    Raise (Exn JSONDecodeError
               (Json.decode_error_str msg s (length s - remaining))) in
  if Py.startswith s [c_bom] then
    error `"Unexpected UTF-8 BOM (decode using utf-8-sig)" (length s)
  else
    let s0 := Json.skip_ws s in
    match scan_once (decode_depth lim) (2 * length s0 + 1) s0 with
    | Scanned v r =>
        match Json.skip_ws r with
        | [] => Return v
        | r' => error `"Extra data" (length r')
        end
    | Stop n => error `"Expecting value" n
    | DecodeError m n => error m n
    | Limit e => Raise e
    | OutOfFuel =>
        Raise (Exn RecursionError `"maximum recursion depth exceeded")
    end.

End Interpreter.

(** CPython 3.11 as it is installed: [sys.getrecursionlimit()] is 1000, of
    which the calls of [json] in a function of a script leave some 990 (one
    less where the call is one frame deeper), and
    [sys.get_int_max_str_digits()] is 4300. *)
Definition cpython : t :=
  {| decode_depth := 990; encode_depth := 989; max_str_digits := 4300;
     encode_room := ltac:(lia) |}.

End Limits.

(* ===================================================================== *)
(** * The program on an interpreter with limits *)
(* ===================================================================== *)

(** The functions of [mcp_tools/server.py], [mcp_tools/transport.py],
    [mcp_tools/manager.py] and [mcp_tools/bridge.py] that call [json], as
    they run on an interpreter with the limits [lim]; [Server], [Transport]
    and [Manager] above are the same functions where no limit is met. *)
Module Bounded.

Section Worker.

Variable lim : Limits.t.
Variable isprintable : N -> bool.

(** [StdioToolServer._write_error]: nothing is written when [json.dumps]
    raises. *)
Definition _write_error (request_id : json) (code : Z) (message : Py.str)
                        (out : Server.stdout)
  : outcome unit * Server.stdout :=
  match Limits.dumps lim (Server.error_response request_id code message) with
  | Return text => (Return tt, out ++ [text ++ Py.newline])
  | Raise e => (Raise e, out)
  end.

(** [StdioToolServer._write_result]: the encoder writes the id before it
    reaches the result, so a limit met in the id comes before the
    [TypeError] of a result that cannot be encoded. *)
Definition _write_result (request_id : json) (result : Server.py_value)
                         (out : Server.stdout)
  : outcome unit * Server.stdout :=
  match result with
  | Server.Encodable v =>
      match Limits.dumps lim (Server.success_response request_id v) with
      | Return text => (Return tt, out ++ [text ++ Py.newline])
      | Raise e => (Raise e, out)
      end
  | Server.Unencodable ty =>
      match Limits.dumps lim (Server.success_response request_id JNull) with
      | Return _ =>
          (Raise (Exn TypeError
                      (`"Object of type " ++ ty
                        ++ `" is not JSON serializable")),
           out)
      | Raise e => (Raise e, out)
      end
  end.

(** One iteration of the loop of [StdioToolServer.run].  Only
    [JSONDecodeError] is caught around [json.loads]; every exception of
    [_dispatch] and of [_write_result] is caught, and one of the
    [_write_error] in the handler leaves the loop. *)
Definition run_line (self : Server.StdioToolServer) (line : Py.str)
                    (out : Server.stdout)
  : outcome unit * Server.stdout :=
  let line := Py.strip line in
  if Json.is_empty line then (Return tt, out)
  else
    match Limits.loads lim line with
    | Raise e =>
        if is_JSONDecodeError e
        then _write_error JNull (-32700) (`"Parse error: " ++ exn_str e) out
        else (Raise e, out)
    | Return request =>
        match Server.request_fields request with
        | Raise e => (Raise e, out)
        | Return (request_id, method, params) =>
            match Server._dispatch isprintable self method params with
            | Return result =>
                match _write_result request_id result out with
                | (Return tt, out') => (Return tt, out')
                | (Raise e, out') =>
                    _write_error request_id (-32603) (exn_str e) out'
                end
            | Raise e => _write_error request_id (-32603) (exn_str e) out
            end
        end
    end.

(** [StdioToolServer.run] *)
Fixpoint run_from (self : Server.StdioToolServer) (stdin : list Py.str)
                  (out : Server.stdout)
  : outcome unit * Server.stdout :=
  match stdin with
  | [] => (Return tt, out)
  | line :: rest =>
      match run_line self line out with
      | (Return _, out') => run_from self rest out'
      | (Raise e, out') => (Raise e, out')
      end
  end.

Definition run (self : Server.StdioToolServer) (stdin : list Py.str)
  : outcome unit * Server.stdout :=
  run_from self stdin [].

(** A request line: once stripped, [json.loads] decodes it to an object. *)
Definition is_request_line (line : Py.str) : bool :=
  match Limits.loads lim (Py.strip line) with
  | Return (JDict _) => true
  | _ => false
  end.

Definition line_id (line : Py.str) : json :=
  match Limits.loads lim (Py.strip line) with
  | Return (JDict r) => Dict.get_default r `"id" JNull
  | _ => JNull
  end.

(** [json.dumps] can encode a response that carries the id. *)
Definition id_fits (request_id : json) : bool :=
  Limits.within lim (pred (Limits.encode_depth lim)) request_id.

(** What the interpreter writes to the standard error stream when an
    exception leaves the script: the traceback. *)
Variable traceback : exn -> Py.str.

(** A worker script that has reached [server.run()], as the controller sees
    it through the pipes: it answers the latest line with what [run] writes
    for it, and its output ends when an exception has left [run]. *)
Definition worker (self : Server.StdioToolServer) : OS.program :=
  {| OS.respond := fun lines =>
       let before := snd (run self (removelast lines)) in
       match run self lines with
       | (Return _, out) =>
           {| OS.stdout_line := concat (skipn (length before) out);
              OS.stderr_text := [] |}
       | (Raise e, _) =>
           {| OS.stdout_line := []; OS.stderr_text := traceback e |}
       end;
     OS.ignores_sigterm := false |}.

End Worker.

Section Controller.

Variable lim : Limits.t.
Variable isprintable : N -> bool.

(** The dict [JsonRpcRequest.to_json] encodes. *)
Definition request_object (self : Transport.JsonRpcRequest) : json :=
  JDict [ (`"jsonrpc", JStr `"2.0");
          (`"method", JStr (Transport.method self));
          (`"params", JDict (Transport.params self));
          (`"id", Transport.json_of_id (Transport.id self)) ].

(** [JsonRpcRequest.to_json] *)
Definition to_json (self : Transport.JsonRpcRequest) : outcome Py.str :=
  Limits.dumps lim (request_object self).

(** [JsonRpcResponse.from_json] *)
Definition from_json (data : Py.str) : outcome Transport.JsonRpcResponse :=
  match Limits.loads lim data with
  | Raise e => Raise e
  | Return (JDict parsed) =>
      Return {| Transport.response_id :=
                  Transport.dict_get_or_None parsed `"id";
                Transport.result :=
                  Transport.dict_get_or_None parsed `"result";
                Transport.error :=
                  Transport.dict_get_or_None parsed `"error" |}
  | Return other =>
      Raise (Exn AttributeError
                 (`"'" ++ Repr.type_name other
                       ++ `"' object has no attribute 'get'"))
  end.

(** [StdioTransport.send]: an exception of [to_json] comes before anything
    is written. *)
Definition send (self : Transport.StdioTransport)
                (request : Transport.JsonRpcRequest) (w : OS.world)
  : outcome Transport.JsonRpcResponse * OS.world :=
  match Transport._process self with
  | Some pid =>
      if OS.running w pid then
        match to_json request with
        | Raise e => (Raise e, w)
        | Return text =>
            let line := text ++ Py.newline in
            let w1 := OS.write pid line w in
            let (a, w2) := OS.readline pid w1 in
            let response_line := OS.stdout_line a in
            if Json.is_empty response_line then
              (Raise (Exn RuntimeError
                          (`"Tool server process died. stderr: "
                            ++ firstn 500 (OS.stderr_text a))), w2)
            else (from_json (Py.strip response_line), w2)
        end
      else
        (Raise (Exn RuntimeError
                    `"Transport not running. Call start() first."), w)
  | None =>
      (Raise (Exn RuntimeError
                  `"Transport not running. Call start() first."), w)
  end.

(** [ToolServerManager.call] *)
Definition call (self : Manager.ToolServerManager)
                (server_id tool_name : Py.str) (arguments : Dict.t json)
                (w : OS.world)
  : outcome json * Manager.ToolServerManager * OS.world :=
  match Dict.get (Manager._servers self) server_id with
  | None => (Raise (Exn ValueError (`"Unknown server: " ++ server_id)), self, w)
  | Some server =>
      match Manager.transport server with
      | Some t =>
          if Transport.is_alive t w then
            let (request_id, t1) := Transport.next_id t in
            let self1 :=
              Manager.put self server_id
                          (Manager.set_transport server (Some t1)) in
            let request :=
              {| Transport.method := `"tools/call";
                 Transport.params :=
                   [ (`"name", JStr tool_name);
                     (`"arguments", JDict arguments) ];
                 Transport.id := Transport.IdInt request_id |} in
            match send t1 request w with
            | (Raise e, w1) => (Raise e, self1, w1)
            | (Return response, w1) =>
                if Transport.is_error response then
                  (Raise (Exn RuntimeError
                              (`"Tool call failed (" ++ server_id ++ `"/"
                                ++ tool_name ++ `"): "
                                ++ Repr.str_ isprintable
                                     (Transport.error response))),
                   self1, w1)
                else (Return (Transport.result response), self1, w1)
            end
          else
            (Raise (Exn RuntimeError
                        (`"Server " ++ server_id
                          ++ `" is not running. Call start() first.")),
             self, w)
      | None =>
          (Raise (Exn RuntimeError
                      (`"Server " ++ server_id
                        ++ `" is not running. Call start() first.")),
           self, w)
      end
  end.

End Controller.

End Bounded.

(* ===================================================================== *)
(** * Inputs at the limits *)
(* ===================================================================== *)

Module Edge.

(** The least integer of 4301 digits. *)
Definition long_integer : Z := 10 ^ 4300.

(** A health check with an integer of 4301 digits among its parameters, as
    a client writes it on one line. *)
Definition long_line : Py.str :=
  `"{" ++ Json.encode_str `"jsonrpc" ++ `": " ++ Json.encode_str `"2.0"
    ++ `", " ++ Json.encode_str `"method" ++ `": " ++ Json.encode_str `"ping"
    ++ `", " ++ Json.encode_str `"params" ++ `": {" ++ Json.encode_str `"n"
    ++ `": 1" ++ repeat 48%N 4300 ++ `"}, " ++ Json.encode_str `"id"
    ++ `": 1}" ++ Py.newline.

(** A health check with that integer as its id. *)
Definition long_id_ping : Transport.JsonRpcRequest :=
  {| Transport.method := `"ping";
     Transport.params := [];
     Transport.id := Transport.IdInt long_integer |}.

(** A list that is not closed, with an integer of 4301 digits. *)
Definition unclosed_long_line : Py.str :=
  `"[" ++ repeat 49%N 4301 ++ Py.newline.

(** A health check whose method is the two halves of a surrogate pair, as
    two code points. *)
Definition surrogate_ping : Transport.JsonRpcRequest :=
  {| Transport.method := [ 55357%N; 56832%N ];
     Transport.params := [];
     Transport.id := Transport.IdInt 1 |}.

(** A call whose tool name is a list, one whose parameters are a list, and
    the lines a client writes for them. *)
Definition call_list : Transport.JsonRpcRequest :=
  {| Transport.method := `"tools/call";
     Transport.params :=
       [ (`"name", JList [ JStr `"x" ]); (`"arguments", JDict []) ];
     Transport.id := Transport.IdInt 4 |}.

Definition call_list_line : Py.str :=
  Transport.to_json call_list ++ Py.newline.

Definition call_params_list_line : Py.str :=
  Json.dumps (JDict [ (`"jsonrpc", JStr `"2.0");
                      (`"method", JStr `"tools/call");
                      (`"params", JList [ JStr `"x" ]);
                      (`"id", JInt 5) ])
    ++ Py.newline.

(** A call of a tool the echo server does not have, with an integer of
    4301 digits among its arguments. *)
Definition long_call_line : Py.str :=
  `"{" ++ Json.encode_str `"jsonrpc" ++ `": " ++ Json.encode_str `"2.0"
    ++ `", " ++ Json.encode_str `"method" ++ `": "
    ++ Json.encode_str `"tools/call"
    ++ `", " ++ Json.encode_str `"params" ++ `": {" ++ Json.encode_str `"name"
    ++ `": " ++ Json.encode_str `"nope" ++ `", "
    ++ Json.encode_str `"arguments" ++ `": {" ++ Json.encode_str `"n"
    ++ `": 1" ++ repeat 48%N 4300 ++ `"}}, " ++ Json.encode_str `"id"
    ++ `": 6}" ++ Py.newline.

End Edge.

(* ===================================================================== *)
(** * Facts about strings and dictionaries *)
(* ===================================================================== *)

Lemma str_eqb_spec (a b : Py.str) : reflect (a = b) (Py.str_eqb a b).
Proof.
  revert b; induction a as [|x a IH]; intros [|y b]; simpl;
    try (constructor; congruence).
  destruct (N.eqb_spec x y) as [->|Hxy]; simpl.
  - destruct (IH b) as [->|Hab]; constructor; congruence.
  - constructor; congruence.
Qed.

Lemma str_eqb_refl (a : Py.str) : Py.str_eqb a a = true.
Proof. destruct (str_eqb_spec a a); congruence. Qed.

Lemma str_eqb_neq (a b : Py.str) : a <> b -> Py.str_eqb a b = false.
Proof. destruct (str_eqb_spec a b); congruence. Qed.

Lemma str_eqb_sym (a b : Py.str) : Py.str_eqb a b = Py.str_eqb b a.
Proof.
  destruct (str_eqb_spec a b), (str_eqb_spec b a); congruence.
Qed.

Section DictFacts.

Context {V : Type}.
Implicit Types (d : Dict.t V) (k : Py.str) (v : V).

Lemma get_set_same d k v : Dict.get (Dict.set d k v) k = Some v.
Proof.
  induction d as [|[k' v'] d IH]; simpl.
  - now rewrite str_eqb_refl.
  - destruct (Py.str_eqb k' k) eqn:E; simpl; rewrite E; auto.
Qed.

Lemma get_set_other d k k' v :
  k <> k' -> Dict.get (Dict.set d k v) k' = Dict.get d k'.
Proof.
  intros Hne; induction d as [|[k0 v0] d IH]; simpl.
  - now rewrite str_eqb_neq.
  - destruct (str_eqb_spec k0 k) as [->|Hk]; simpl.
    + now rewrite (str_eqb_neq _ _ Hne).
    + now rewrite IH.
Qed.

Lemma keys_set_present d k v v0 :
  Dict.get d k = Some v0 -> Dict.keys (Dict.set d k v) = Dict.keys d.
Proof.
  unfold Dict.keys; induction d as [|[k' v'] d IH]; simpl; [discriminate|].
  destruct (Py.str_eqb k' k); simpl; intros H; [reflexivity|].
  now rewrite IH.
Qed.

Lemma keys_set_absent d k v :
  Dict.get d k = None -> Dict.keys (Dict.set d k v) = Dict.keys d ++ [k].
Proof.
  unfold Dict.keys; induction d as [|[k' v'] d IH]; simpl; [reflexivity|].
  destruct (Py.str_eqb k' k); simpl; intros H; [discriminate|].
  now rewrite IH.
Qed.

Lemma get_None_not_key d k : Dict.get d k = None <-> ~ In k (Dict.keys d).
Proof.
  unfold Dict.keys; induction d as [|[k' v'] d IH]; simpl.
  - tauto.
  - destruct (str_eqb_spec k' k) as [->|Hk].
    + split; [discriminate|tauto].
    + rewrite IH; tauto.
Qed.

Lemma get_Some_key d k v : Dict.get d k = Some v -> In k (Dict.keys d).
Proof.
  intros H. destruct (in_dec (list_eq_dec N.eq_dec) k (Dict.keys d)) as [|Hn];
    [assumption|].
  apply get_None_not_key in Hn; congruence.
Qed.

End DictFacts.

Lemma distinct_NoDup (ks : list Py.str) : Valid.distinct ks = true -> NoDup ks.
Proof.
  induction ks as [|k ks IH]; simpl; intros H; constructor.
  - apply andb_true_iff in H as [H _]. apply negb_true_iff in H.
    intros Hin. assert (existsb (Py.str_eqb k) ks = true); [|congruence].
    apply existsb_exists. exists k. split; [assumption|apply str_eqb_refl].
  - apply IH. now apply andb_true_iff in H as [_ H].
Qed.

(* ===================================================================== *)
(** * Encoding and decoding strings *)
(* ===================================================================== *)

Section StringCodec.

Local Open Scope N_scope.

Lemma hex_value_digit d : d < 16 -> Json.hex_value (Json.hex_digit d) = Some d.
Proof.
  intros H.
  assert (d = 0 \/ d = 1 \/ d = 2 \/ d = 3 \/ d = 4 \/ d = 5 \/ d = 6 \/ d = 7
          \/ d = 8 \/ d = 9 \/ d = 10 \/ d = 11 \/ d = 12 \/ d = 13 \/ d = 14
          \/ d = 15) as Hd by lia.
  repeat (destruct Hd as [->|Hd]; [reflexivity|]). now subst.
Qed.

Lemma decode_hex4 n r :
  n < 65536 -> Json.decode_uXXXX (Json.hex4 n ++ r) = Some (n, r).
Proof.
  intros Hn. unfold Json.hex4, Json.decode_uXXXX. cbn [app].
  rewrite !hex_value_digit by (apply N.mod_lt; lia).
  do 2 f_equal.
  pose proof (N.div_mod n 16 ltac:(lia)).
  pose proof (N.div_mod (n / 16) 16 ltac:(lia)).
  pose proof (N.div_mod (n / 256) 16 ltac:(lia)).
  pose proof (N.mod_lt n 16 ltac:(lia)).
  pose proof (N.mod_lt (n / 16) 16 ltac:(lia)).
  pose proof (N.mod_lt (n / 256) 16 ltac:(lia)).
  assert (n / 256 = n / 16 / 16) by (rewrite N.Div0.div_div; reflexivity).
  assert (n / 4096 = n / 256 / 16) by (rewrite N.Div0.div_div; reflexivity).
  assert (n / 4096 < 16) by (apply N.Div0.div_lt_upper_bound; lia).
  rewrite (N.mod_small (n / 4096) 16) by assumption.
  lia.
Qed.

Lemma lor_disjoint a b : b < 2 ^ 10 -> N.lor (a * 2 ^ 10) b = a * 2 ^ 10 + b.
Proof.
  intros Hb. rewrite <- N.lxor_lor, <- N.add_nocarry_lxor; try reflexivity.
  all: apply N.bits_inj; intros i; rewrite N.land_spec, N.bits_0.
  all: destruct (N.lt_ge_cases i 10) as [Hi|Hi].
  all: try (rewrite N.mul_pow2_bits_low by assumption; reflexivity).
  all: rewrite <- (N.mod_small b (2 ^ 10)) by assumption.
  all: rewrite N.mod_pow2_bits_high by assumption.
  all: apply andb_false_r.
Qed.

(** The two halves of a surrogate pair, and the code point they make. *)
Lemma surrogates n :
  n < 1048576 ->
  let hi := N.lor 55296 (N.land (N.shiftr n 10) 1023) in
  let lo := N.lor 56320 (N.land n 1023) in
  hi = 55296 + n / 1024 /\ lo = 56320 + n mod 1024
  /\ 65536 + N.lor (N.shiftl (hi - 55296) 10) (lo - 56320) = 65536 + n.
Proof.
  intros Hn hi lo.
  assert (Hq : n / 1024 < 1024) by (apply N.Div0.div_lt_upper_bound; lia).
  assert (Hr : n mod 1024 < 1024) by (apply N.mod_lt; lia).
  assert (Hhi : hi = 55296 + n / 1024).
  { unfold hi. change 1023 with (N.ones 10).
    rewrite N.land_ones, N.shiftr_div_pow2. change (2 ^ 10) with 1024.
    rewrite N.mod_small by assumption.
    change 55296 with (54 * 2 ^ 10). apply lor_disjoint. assumption. }
  assert (Hlo : lo = 56320 + n mod 1024).
  { unfold lo. change 1023 with (N.ones 10). rewrite N.land_ones.
    change (2 ^ 10) with 1024.
    change 56320 with (55 * 2 ^ 10). apply lor_disjoint. assumption. }
  split; [assumption|]. split; [assumption|].
  rewrite Hhi, Hlo. f_equal.
  pose proof (N.div_mod n 1024 ltac:(lia)) as Hdm.
  generalize dependent (n / 1024). generalize dependent (n mod 1024).
  intros m Hm _ q Hq _ Hdm.
  replace (55296 + q - 55296) with q by lia.
  replace (56320 + m - 56320) with m by lia.
  rewrite N.shiftl_mul_pow2, lor_disjoint by assumption.
  change (2 ^ 10) with 1024. lia.
Qed.

End StringCodec.

Section ScanString.

Local Open Scope N_scope.

Lemma scanstring_plain fuel start c tail acc :
  (c =? 34) = false -> (c =? 92) = false -> (c <? 32) = false ->
  Json.scanstring_loop (S fuel) start (c :: tail) acc
  = Json.scanstring_loop fuel start tail (c :: acc).
Proof.
  intros H1 H2 H3. cbn [Json.scanstring_loop]. now rewrite H1, H2, H3.
Qed.

Lemma scanstring_u fuel start r acc :
  (4 < length r)%nat ->
  Json.scanstring_loop (S fuel) start (92 :: 117 :: r) acc
  = match Json.decode_uXXXX r with
    | None => Json.DecodeError `"Invalid \uXXXX escape" (length (117 :: r))
    | Some (uni, r2) =>
        if (55296 <=? uni) && (uni <=? 56319) && (6 <? length r2)%nat
           && Py.startswith r2 [92; 117]
        then
          match Json.decode_uXXXX (skipn 2 r2) with
          | None =>
              Json.DecodeError `"Invalid \uXXXX escape" (length r2 - 1)%nat
          | Some (uni2, r3) =>
              if (56320 <=? uni2) && (uni2 <=? 57343) then
                Json.scanstring_loop fuel start r3
                  (65536 + N.lor (N.shiftl (uni - 55296) 10) (uni2 - 56320)
                   :: acc)
              else Json.scanstring_loop fuel start r2 (uni :: acc)
          end
        else Json.scanstring_loop fuel start r2 (uni :: acc)
    end.
Proof.
  intros Hr. cbn [Json.scanstring_loop].
  change (92 =? c_quote) with false. change (92 =? c_backslash) with true.
  change (117 =? c_u) with true. cbv iota.
  apply Nat.leb_gt in Hr. now rewrite Hr.
Qed.

(** One character of a string, as the encoder writes it, is read back by
    one turn of the decoder's loop, when something follows it. *)
Lemma scanstring_char c fuel start tail acc :
  Valid.is_scalar c = true ->
  tail <> [] ->
  Json.scanstring_loop (S fuel) start (Json.escape_char c ++ tail) acc
  = Json.scanstring_loop fuel start tail (c :: acc).
Proof.
  intros Hc Htail. unfold Valid.is_scalar in Hc. unfold Json.escape_char.
  assert (Hlen : (0 < length tail)%nat)
    by (destruct tail; [contradiction|simpl; lia]).
  destruct (N.eqb_spec c 34) as [->|H34]; [reflexivity|].
  destruct (N.eqb_spec c 92) as [->|H92]; [reflexivity|].
  destruct (N.eqb_spec c 10) as [->|H10]; [reflexivity|].
  destruct (N.eqb_spec c 13) as [->|H13]; [reflexivity|].
  destruct (N.eqb_spec c 9) as [->|H9]; [reflexivity|].
  destruct (N.eqb_spec c 8) as [->|H8]; [reflexivity|].
  destruct (N.eqb_spec c 12) as [->|H12]; [reflexivity|].
  destruct ((32 <=? c) && (c <=? 126)) eqn:Hprint.
  - apply andb_true_iff in Hprint as [Hlo Hhi].
    apply N.leb_le in Hlo. cbn [app].
    apply scanstring_plain;
      [now apply N.eqb_neq|now apply N.eqb_neq|apply N.ltb_ge; lia].
  - destruct (N.ltb_spec c 65536) as [Hlt|Hge].
    + unfold Json.u_escape. cbn [app].
      rewrite scanstring_u by (rewrite length_app; simpl; lia).
      rewrite decode_hex4 by assumption.
      replace ((55296 <=? c) && (c <=? 56319)) with false; [reflexivity|].
      symmetry. apply andb_false_iff.
      destruct (N.ltb_spec c 55296); [left; apply N.leb_gt; lia|].
      right. apply N.leb_gt.
      rewrite orb_true_iff, andb_true_iff, N.ltb_lt, N.leb_le in Hc. lia.
    + assert (Hn : c - 65536 < 1048576).
      { rewrite orb_true_iff, andb_true_iff, !N.ltb_lt in Hc. lia. }
      pose proof (surrogates _ Hn) as (Hhi & Hlo & Hjoin).
      cbv zeta.
      set (hi := N.lor 55296 (N.land (N.shiftr (c - 65536) 10) 1023)) in *.
      set (lo := N.lor 56320 (N.land (c - 65536) 1023)) in *.
      pose proof (N.mod_lt (c - 65536) 1024 ltac:(lia)) as Hm.
      assert (Hq : (c - 65536) / 1024 < 1024)
        by (apply N.Div0.div_lt_upper_bound; lia).
      set (q := (c - 65536) / 1024) in *.
      set (m := (c - 65536) mod 1024) in *.
      clearbody q m hi lo.
      unfold Json.u_escape. rewrite <- app_assoc. cbn [app].
      rewrite scanstring_u by (rewrite !length_app; simpl; lia).
      rewrite decode_hex4 by lia.
      replace ((55296 <=? hi) && (hi <=? 56319)) with true
        by (symmetry; apply andb_true_iff; split; apply N.leb_le; lia).
      match goal with
      | |- context [Nat.ltb 6 ?n] =>
          replace (Nat.ltb 6 n) with true
            by (symmetry; apply Nat.ltb_lt; simpl; lia)
      end.
      cbn [Py.startswith andb N.eqb Pos.eqb skipn].
      rewrite decode_hex4 by lia.
      replace ((56320 <=? lo) && (lo <=? 57343)) with true
        by (symmetry; apply andb_true_iff; split; apply N.leb_le; lia).
      rewrite Hjoin. do 2 f_equal. lia.
Qed.

Lemma scanstring_loop_encoded s :
  forall fuel start rest acc,
    Valid.str s = true ->
    (length s < fuel)%nat ->
    Json.scanstring_loop fuel start
                         (flat_map Json.escape_char s ++ 34 :: rest) acc
    = Json.Scanned (rev acc ++ s) rest.
Proof.
  induction s as [|c s IH]; intros fuel start rest acc Hs Hfuel.
  - destruct fuel as [|fuel]; [inversion Hfuel|].
    simpl. now rewrite app_nil_r.
  - destruct fuel as [|fuel]; [inversion Hfuel|].
    simpl in Hs. apply andb_true_iff in Hs as [Hc Hs].
    cbn [flat_map]. rewrite <- app_assoc.
    rewrite scanstring_char by (assumption || now destruct (flat_map _ s)).
    rewrite IH by (simpl in *; auto; lia).
    cbn [rev]. now rewrite <- app_assoc.
Qed.

Lemma length_escape_char c : (1 <= length (Json.escape_char c))%nat.
Proof.
  unfold Json.escape_char.
  repeat (match goal with |- context [if ?b then _ else _] => destruct b end;
          [simpl; lia|]).
  rewrite length_app. simpl. lia.
Qed.

Lemma length_escaped s :
  (length s <= length (flat_map Json.escape_char s))%nat.
Proof.
  induction s as [|c s IH]; simpl; [lia|].
  rewrite length_app. pose proof (length_escape_char c). lia.
Qed.

(** A string written by the encoder is read back by [scanstring]. *)
Lemma scanstring_encoded s start rest :
  Valid.str s = true ->
  Json.scanstring start (flat_map Json.escape_char s ++ 34 :: rest)
  = Json.Scanned s rest.
Proof.
  intros Hs. unfold Json.scanstring.
  rewrite scanstring_loop_encoded; [reflexivity|assumption|].
  rewrite length_app. pose proof (length_escaped s). simpl. lia.
Qed.

End ScanString.

(* ===================================================================== *)
(** * Encoding and decoding numbers *)
(* ===================================================================== *)

Ltac forget_divmod :=
  repeat match goal with
         | |- context [N.modulo ?a ?b] =>
             let x := fresh "m" in set (x := N.modulo a b) in *; clearbody x
         | H : context [N.modulo ?a ?b] |- _ =>
             let x := fresh "m" in set (x := N.modulo a b) in *; clearbody x
         | |- context [N.div ?a ?b] =>
             let x := fresh "q" in set (x := N.div a b) in *; clearbody x
         | H : context [N.div ?a ?b] |- _ =>
             let x := fresh "q" in set (x := N.div a b) in *; clearbody x
         end.

Ltac nlia := forget_divmod; lia.

Section Numbers.

Local Open Scope N_scope.

Lemma digits_aux_digits fuel :
  forall n acc,
    Forall (fun c => Json.is_digit c = true) acc ->
    Forall (fun c => Json.is_digit c = true) (Py.digits_aux fuel n acc).
Proof.
  induction fuel as [|fuel IH]; intros n acc Hacc; simpl; [assumption|].
  assert (Hd : Json.is_digit (48 + n mod 10) = true).
  { pose proof (N.mod_lt n 10 ltac:(lia)). unfold Json.is_digit.
    apply andb_true_iff; split; apply N.leb_le; nlia. }
  destruct (n / 10 =? 0); [|apply IH]; now constructor.
Qed.

Lemma div10_bound n fuel :
  n < 2 ^ N.of_nat (S fuel) -> n / 10 <> 0 ->
  n / 10 < 2 ^ N.of_nat fuel /\ (1 <= fuel)%nat.
Proof.
  intros Hn Hq. rewrite Nat2N.inj_succ, N.pow_succ_r' in Hn.
  assert (Hlt : n / 10 < 2 ^ N.of_nat fuel).
  { apply N.Div0.div_lt_upper_bound.
    generalize dependent (2 ^ N.of_nat fuel). intros; lia. }
  split; [assumption|].
  destruct fuel; [simpl in Hlt; nlia|lia].
Qed.

Lemma digits_aux_value fuel :
  forall n acc,
    (1 <= fuel)%nat -> n < 2 ^ N.of_nat fuel ->
    fold_left (fun a d => 10 * a + (d - 48)) (Py.digits_aux fuel n acc) 0
    = fold_left (fun a d => 10 * a + (d - 48)) acc n.
Proof.
  induction fuel as [|fuel IH]; intros n acc Hfuel Hn; [lia|].
  cbn [Py.digits_aux]. cbv zeta.
  pose proof (N.div_mod n 10 ltac:(lia)) as Hdm.
  pose proof (N.mod_lt n 10 ltac:(lia)) as Hm.
  destruct (N.eqb_spec (n / 10) 0) as [Hq|Hq].
  - cbn [fold_left]. f_equal. nlia.
  - destruct (div10_bound _ _ Hn Hq) as [Hn' Hfuel'].
    rewrite IH by assumption. cbn [fold_left]. f_equal. nlia.
Qed.

Lemma digits_aux_head fuel :
  forall n acc,
    (1 <= fuel)%nat -> n < 2 ^ N.of_nat fuel -> n <> 0 ->
    exists d tl,
      Py.digits_aux fuel n acc = d :: tl
      /\ Json.is_digit d = true /\ d <> 48.
Proof.
  induction fuel as [|fuel IH]; intros n acc Hfuel Hn Hn0; [lia|].
  cbn [Py.digits_aux]. cbv zeta.
  pose proof (N.div_mod n 10 ltac:(lia)) as Hdm.
  pose proof (N.mod_lt n 10 ltac:(lia)) as Hm.
  destruct (N.eqb_spec (n / 10) 0) as [Hq|Hq].
  - exists (48 + n mod 10), acc. split; [reflexivity|]. split.
    + unfold Json.is_digit. apply andb_true_iff; split; apply N.leb_le; nlia.
    + nlia.
  - destruct (div10_bound _ _ Hn Hq) as [Hn' Hfuel'].
    now apply IH.
Qed.

Lemma str_of_N_fuel n : n < 2 ^ N.of_nat (S (N.to_nat (N.log2 n))).
Proof.
  rewrite Nat2N.inj_succ, N2Nat.id.
  destruct (N.eq_dec n 0) as [->|Hn]; [reflexivity|].
  apply N.log2_spec. lia.
Qed.

Lemma str_of_N_digits n :
  Forall (fun c => Json.is_digit c = true) (Py.str_of_N n).
Proof. apply digits_aux_digits. constructor. Qed.

Lemma str_of_N_value n : Json.digits_value (Py.str_of_N n) = n.
Proof.
  unfold Json.digits_value, Py.str_of_N.
  rewrite digits_aux_value; [reflexivity|lia|apply str_of_N_fuel].
Qed.

Lemma str_of_N_head n :
  n <> 0 ->
  exists d tl,
    Py.str_of_N n = d :: tl /\ Json.is_digit d = true /\ d <> 48.
Proof.
  intros Hn. apply digits_aux_head; [lia|apply str_of_N_fuel|assumption].
Qed.

Lemma span_digits_app ds rest :
  Forall (fun c => Json.is_digit c = true) ds ->
  match rest with [] => True | c :: _ => Json.is_digit c = false end ->
  Json.span_digits (ds ++ rest) = (ds, rest).
Proof.
  intros Hds Hrest.
  induction Hds as [|d ds Hd _ IH]; cbn [Json.span_digits app].
  - destruct rest as [|c r]; [reflexivity|].
    cbn [Json.span_digits]. now rewrite Hrest.
  - now rewrite Hd, IH.
Qed.

Lemma ends_value_head rest :
  Valid.ends_value rest = true ->
  match rest with
  | [] => True
  | c :: _ =>
      Json.is_digit c = false /\ (c =? 46) = false
      /\ (c =? 101) = false /\ (c =? 69) = false
  end.
Proof.
  destruct rest as [|c r]; [trivial|]. simpl. intros H.
  assert (Hc : c = 44 \/ c = 93 \/ c = 125)
    by (rewrite !orb_true_iff, !N.eqb_eq in H; tauto).
  destruct Hc as [Hc | [Hc | Hc]]; subst c; repeat split; reflexivity.
Qed.

Lemma no_digit_head rest :
  Valid.ends_value rest = true ->
  match rest with [] => True | c :: _ => Json.is_digit c = false end.
Proof.
  intros H. apply ends_value_head in H. destruct rest; tauto.
Qed.

Lemma match_frac_end rest :
  Valid.ends_value rest = true -> Json.match_frac rest = ([], rest).
Proof.
  intros H. apply ends_value_head in H. destruct rest as [|c r];
    [reflexivity|].
  unfold Json.match_frac. destruct H as (_ & -> & _). reflexivity.
Qed.

Lemma match_exp_end rest :
  Valid.ends_value rest = true -> Json.match_exp rest = ([], rest).
Proof.
  intros H. apply ends_value_head in H. destruct rest as [|c r];
    [reflexivity|].
  unfold Json.match_exp. destruct H as (_ & _ & -> & ->). reflexivity.
Qed.

(** The text of an integer, and what [NUMBER_RE] and [int] make of it. *)
Lemma match_integer_int z rest :
  Valid.ends_value rest = true ->
  Json.match_integer (Py.str_of_Z z ++ rest) = Some (Py.str_of_Z z, rest).
Proof.
  intros Hrest. apply no_digit_head in Hrest.
  assert (Hpos : forall n,
             Json.match_integer (Py.str_of_N n ++ rest)
             = Some (Py.str_of_N n, rest)
             /\ (n <> 0 ->
                 Json.match_integer ((45 :: Py.str_of_N n) ++ rest)
                 = Some (45 :: Py.str_of_N n, rest))).
  { intros n. destruct (N.eq_dec n 0) as [->|Hn].
    - split; [reflexivity|]. intros H. now elim H.
    - destruct (str_of_N_head _ Hn) as (d & tl & Hd & Hdig & H48).
      pose proof (str_of_N_digits n) as Hall. rewrite Hd in *.
      inversion Hall as [|? ? _ Htl]; subst.
      assert (H45 : (d =? 45) = false).
      { apply N.eqb_neq. intros ->. discriminate Hdig. }
      assert (H48' : (d =? 48) = false) by now apply N.eqb_neq.
      split; [|intros _]; unfold Json.match_integer; cbn [app];
        rewrite ?H45, ?N.eqb_refl, H48', Hdig, span_digits_app by assumption;
        reflexivity. }
  destruct z as [|p|p]; cbn [Py.str_of_Z].
  - apply Hpos.
  - apply Hpos.
  - apply Hpos. discriminate.
Qed.

Lemma parse_int_str z : Json.parse_int (Py.str_of_Z z) = z.
Proof.
  assert (Hpos : forall n, Json.parse_int (Py.str_of_N n) = Z.of_N n).
  { intros n. unfold Json.parse_int.
    pose proof (str_of_N_value n) as Hv.
    pose proof (str_of_N_digits n) as Hall.
    destruct (Py.str_of_N n) as [|c ds] eqn:E; [now rewrite <- Hv|].
    apply Forall_inv in Hall.
    destruct (N.eqb_spec c 45) as [->|_]; [discriminate Hall|].
    now rewrite Hv. }
  destruct z as [|p|p]; cbn [Py.str_of_Z].
  - apply Hpos.
  - rewrite Hpos. reflexivity.
  - unfold Json.parse_int. cbn [N.eqb Pos.eqb].
    rewrite str_of_N_value. reflexivity.
Qed.

Lemma match_number_int z rest :
  Valid.ends_value rest = true ->
  Json.match_number (Py.str_of_Z z ++ rest)
  = Some (Py.str_of_Z z, [], [], rest).
Proof.
  intros Hrest. unfold Json.match_number.
  now rewrite match_integer_int, match_frac_end, match_exp_end.
Qed.

Lemma str_of_Z_head z :
  exists c tl,
    Py.str_of_Z z = c :: tl /\ (Json.is_digit c = true \/ c = 45).
Proof.
  assert (Hpos : forall n, exists c tl,
               Py.str_of_N n = c :: tl /\ Json.is_digit c = true).
  { intros n. destruct (N.eq_dec n 0) as [->|Hn].
    - now exists 48, [].
    - destruct (str_of_N_head _ Hn) as (d & tl & Hd & Hdig & _).
      now exists d, tl. }
  destruct z as [|p|p]; cbn [Py.str_of_Z].
  - destruct (Hpos (Z.to_N 0)) as (c & tl & -> & H). eauto.
  - destruct (Hpos (Z.to_N (Z.pos p))) as (c & tl & -> & H). eauto.
  - eauto.
Qed.

End Numbers.

Section Floats.

Local Open Scope N_scope.

Lemma span_digits_split s :
  s = fst (Json.span_digits s) ++ snd (Json.span_digits s).
Proof.
  induction s as [|c s IH]; cbn [Json.span_digits]; [reflexivity|].
  destruct (Json.is_digit c); [|reflexivity].
  destruct (Json.span_digits s) as [ds r]. simpl in *. now f_equal.
Qed.

Lemma span_digits_append s rest :
  match rest with [] => True | c :: _ => Json.is_digit c = false end ->
  Json.span_digits (s ++ rest)
  = (fst (Json.span_digits s), snd (Json.span_digits s) ++ rest).
Proof.
  intros Hrest.
  induction s as [|c s IH]; cbn [Json.span_digits app].
  - destruct rest as [|c r]; [reflexivity|].
    cbn [Json.span_digits]. now rewrite Hrest.
  - destruct (Json.is_digit c); [|reflexivity].
    rewrite IH. now destruct (Json.span_digits s).
Qed.

Lemma match_integer_split s i r :
  Json.match_integer s = Some (i, r) ->
  s = i ++ r
  /\ exists c tl, s = c :: tl /\ (Json.is_digit c = true \/ c = 45).
Proof.
  unfold Json.match_integer. destruct s as [|c s]; [discriminate|].
  destruct (N.eqb_spec c 45) as [->|Hc].
  - destruct s as [|d s]; [discriminate|].
    destruct (N.eqb_spec d 48) as [->|Hd].
    + intros [= <- <-]. split; [reflexivity|]. eauto.
    + destruct (Json.is_digit d); [|discriminate].
      pose proof (span_digits_split s) as Hs.
      destruct (Json.span_digits s) as [ds r']. intros [= <- <-].
      simpl in *. split; [now rewrite Hs at 1|]. eauto.
  - destruct (N.eqb_spec c 48) as [->|Hd].
    + intros [= <- <-]. split; [reflexivity|]. eauto.
    + destruct (Json.is_digit c) eqn:Hdig; [|discriminate].
      pose proof (span_digits_split s) as Hs.
      destruct (Json.span_digits s) as [ds r']. intros [= <- <-].
      simpl in *. split; [now rewrite Hs at 1|]. eauto.
Qed.

Lemma match_integer_append s i r rest :
  match rest with [] => True | c :: _ => Json.is_digit c = false end ->
  Json.match_integer s = Some (i, r) ->
  Json.match_integer (s ++ rest) = Some (i, r ++ rest).
Proof.
  intros Hrest. unfold Json.match_integer.
  destruct s as [|c s]; [discriminate|]. cbn [app].
  destruct (c =? 45).
  - destruct s as [|d s]; [discriminate|]. cbn [app].
    destruct (d =? 48); [now intros [= <- <-]|].
    destruct (Json.is_digit d); [|discriminate].
    rewrite span_digits_append by assumption.
    destruct (Json.span_digits s) as [ds r']. now intros [= <- <-].
  - destruct (c =? 48); [now intros [= <- <-]|].
    destruct (Json.is_digit c); [|discriminate].
    rewrite span_digits_append by assumption.
    destruct (Json.span_digits s) as [ds r']. now intros [= <- <-].
Qed.

Lemma match_frac_split s : s = fst (Json.match_frac s) ++ snd (Json.match_frac s).
Proof.
  unfold Json.match_frac. destruct s as [|c s]; [reflexivity|].
  destruct (N.eqb_spec c 46) as [->|Hc]; [|reflexivity].
  pose proof (span_digits_split s) as Hs.
  destruct (Json.span_digits s) as [[|d ds] r]; [reflexivity|].
  simpl in *. now f_equal.
Qed.

Lemma match_frac_append s rest :
  Valid.ends_value rest = true ->
  Json.match_frac (s ++ rest)
  = (fst (Json.match_frac s), snd (Json.match_frac s) ++ rest).
Proof.
  intros Hrest. destruct s as [|c s].
  - now rewrite match_frac_end.
  - unfold Json.match_frac. cbn [app].
    destruct (c =? 46); [|reflexivity].
    rewrite span_digits_append by now apply no_digit_head.
    now destruct (Json.span_digits s) as [[|d ds] r].
Qed.

Lemma match_exp_split s : s = fst (Json.match_exp s) ++ snd (Json.match_exp s).
Proof.
  unfold Json.match_exp. destruct s as [|c s]; [reflexivity|].
  destruct ((c =? 101) || (c =? 69)); [|reflexivity].
  destruct s as [|g s].
  - reflexivity.
  - destruct ((g =? 45) || (g =? 43)).
    + pose proof (span_digits_split s) as Hs.
      destruct (Json.span_digits s) as [[|d ds] r]; [reflexivity|].
      simpl in *. now do 2 f_equal.
    + pose proof (span_digits_split (g :: s)) as Hs.
      destruct (Json.span_digits (g :: s)) as [[|d ds] r]; [reflexivity|].
      simpl in *. now f_equal.
Qed.

Lemma match_exp_append s rest :
  Valid.ends_value rest = true ->
  Json.match_exp (s ++ rest)
  = (fst (Json.match_exp s), snd (Json.match_exp s) ++ rest).
Proof.
  intros Hrest. pose proof (no_digit_head _ Hrest) as Hnd.
  destruct s as [|c s].
  - now rewrite match_exp_end.
  - unfold Json.match_exp. cbn [app].
    destruct ((c =? 101) || (c =? 69)); [|reflexivity].
    destruct s as [|g s]; cbn [app].
    + assert (Hsign : match rest with
                      | [] => True
                      | h :: _ => (h =? 45) || (h =? 43) = false
                      end).
      { destruct rest as [|h t]; [trivial|]. simpl in Hrest.
        rewrite !orb_true_iff, !N.eqb_eq in Hrest.
        destruct Hrest as [[->| ->]| ->]; reflexivity. }
      destruct rest as [|h t]; [reflexivity|]. rewrite Hsign.
      cbn [Json.span_digits]. now rewrite Hnd.
    + destruct ((g =? 45) || (g =? 43)).
      * rewrite span_digits_append by assumption.
        now destruct (Json.span_digits s) as [[|d ds] r].
      * change (g :: s ++ rest) with ((g :: s) ++ rest).
        rewrite span_digits_append by assumption.
        now destruct (Json.span_digits (g :: s)) as [[|d ds] r].
Qed.

Lemma match_number_append s i f e rest :
  Valid.ends_value rest = true ->
  Json.match_number s = Some (i, f, e, []) ->
  Json.match_number (s ++ rest) = Some (i, f, e, rest)
  /\ s = i ++ f ++ e
  /\ exists c tl, s = c :: tl /\ (Json.is_digit c = true \/ c = 45).
Proof.
  intros Hrest. unfold Json.match_number.
  destruct (Json.match_integer s) as [[i' s1]|] eqn:Hi; [|discriminate].
  pose proof (match_integer_split _ _ _ Hi) as (Hs & Hhead).
  rewrite (match_integer_append _ _ _ _ (no_digit_head _ Hrest) Hi).
  rewrite match_frac_append by assumption.
  pose proof (match_frac_split s1) as Hf.
  destruct (Json.match_frac s1) as [f' s2]. cbn [fst snd] in *.
  rewrite match_exp_append by assumption.
  pose proof (match_exp_split s2) as He.
  destruct (Json.match_exp s2) as [e' s3]. cbn [fst snd] in *.
  intros [= <- <- <- ->]. rewrite app_nil_r in He. subst s2 s1.
  repeat split; [assumption|exact Hhead].
Qed.

(** A float text is read back as it is. *)
Lemma scan_once_float text rest fuel :
  Valid.float_text text = true ->
  Valid.ends_value rest = true ->
  Json.scan_once (S fuel) (text ++ rest) = Json.Scanned (JFloat text) rest.
Proof.
  intros Htext Hrest. unfold Valid.float_text in Htext.
  rewrite !orb_true_iff in Htext.
  destruct Htext as [[[Hnum|Hnan]|Hinf]|Hninf].
  - destruct (Json.match_number text) as [[[[i f] e] [|? ?]]|] eqn:Hm;
      try discriminate.
    destruct (match_number_append _ _ _ _ _ Hrest Hm)
      as (Happ & -> & c & tl & Hc & Hhead).
    rewrite Hc in *. cbn [Json.scan_once app].
    assert (Hne : forall k, Json.is_digit k = false -> k <> 45 ->
                            (c =? k) = false).
    { intros k Hk H45. apply N.eqb_neq. intros ->.
      destruct Hhead; congruence. }
    rewrite (Hne 34), (Hne 123), (Hne 91) by (reflexivity || discriminate).
    assert (Hsw : forall k w,
               Json.is_digit k = false -> k <> 45 ->
               Py.startswith (c :: tl ++ rest) (k :: w) = false).
    { intros k w Hk H45. cbn [Py.startswith].
      rewrite N.eqb_sym, Hne by assumption. reflexivity. }
    change `"null" with (110 :: `"ull").
    change `"true" with (116 :: `"rue").
    change `"false" with (102 :: `"alse").
    rewrite !Hsw by (reflexivity || discriminate).
    change (c :: tl ++ rest) with ((c :: tl) ++ rest).
    apply negb_true_iff in Hnum. rewrite Happ, Hnum, Hc. reflexivity.
  - apply (reflect_iff _ _ (str_eqb_spec _ _)) in Hnan. subst text.
    reflexivity.
  - apply (reflect_iff _ _ (str_eqb_spec _ _)) in Hinf. subst text.
    reflexivity.
  - apply (reflect_iff _ _ (str_eqb_spec _ _)) in Hninf. subst text.
    reflexivity.
Qed.

Lemma float_text_head text :
  Valid.float_text text = true ->
  exists c tl, text = c :: tl
               /\ (Json.is_digit c = true \/ c = 45 \/ c = 78 \/ c = 73).
Proof.
  intros Htext. unfold Valid.float_text in Htext.
  rewrite !orb_true_iff in Htext.
  destruct Htext as [[[Hnum|Hnan]|Hinf]|Hninf].
  - destruct (Json.match_number text) as [[[[i f] e] [|? ?]]|] eqn:Hm;
      try discriminate.
    destruct (match_number_append text i f e [] eq_refl Hm)
      as (_ & _ & c & tl & Hc & Hhead).
    exists c, tl. tauto.
  - apply (reflect_iff _ _ (str_eqb_spec _ _)) in Hnan. subst text.
    eexists _, _. split; [reflexivity|tauto].
  - apply (reflect_iff _ _ (str_eqb_spec _ _)) in Hinf. subst text.
    eexists _, _. split; [reflexivity|tauto].
  - apply (reflect_iff _ _ (str_eqb_spec _ _)) in Hninf. subst text.
    eexists _, _. split; [reflexivity|tauto].
Qed.

End Floats.

(* ===================================================================== *)
(** * Encoding and decoding values *)
(* ===================================================================== *)

Lemma json_nested_ind (P : json -> Prop) :
  P JNull ->
  (forall b, P (JBool b)) ->
  (forall n, P (JInt n)) ->
  (forall text, P (JFloat text)) ->
  (forall s, P (JStr s)) ->
  (forall items, Forall P items -> P (JList items)) ->
  (forall d, Forall (fun kv => P (snd kv)) d -> P (JDict d)) ->
  forall v, P v.
Proof.
  intros Hnull Hbool Hint Hfloat Hstr Hlist Hdict.
  fix IH 1.
  intros [|b|n|text|s|items|d];
    [apply Hnull|apply Hbool|apply Hint|apply Hfloat|apply Hstr| |].
  - apply Hlist. revert items. fix IHitems 1.
    intros [|x items]; constructor; [apply IH|apply IHitems].
  - apply Hdict. revert d. fix IHd 1.
    intros [|[k x] d]; constructor; [apply IH|apply IHd].
Qed.

Section Values.

Local Open Scope N_scope.

Lemma starts_value_number c :
  Json.is_digit c = true \/ c = 45 \/ c = 78 \/ c = 73 -> Valid.starts_value c.
Proof.
  unfold Valid.starts_value, Json.is_digit, Json.is_ws.
  intros [H | [-> | [-> | ->]]]; [|repeat split; reflexivity..].
  apply andb_true_iff in H as [H1 H2]. apply N.leb_le in H1, H2.
  repeat split; repeat (apply orb_false_iff; split); apply N.eqb_neq; lia.
Qed.

Lemma dumps_head v :
  Valid.value v = true ->
  exists c tl, Json.dumps v = c :: tl /\ Valid.starts_value c.
Proof.
  destruct v as [|[|]|n|text|s|items|d]; cbn [Valid.value Json.dumps];
    intros Hv; try (eexists _, _; split; [reflexivity|];
                    repeat split; reflexivity).
  - destruct (str_of_Z_head n) as (c & tl & -> & Hc).
    exists c, tl. split; [reflexivity|]. apply starts_value_number. tauto.
  - destruct (float_text_head text Hv) as (c & tl & -> & Hc).
    exists c, tl. split; [reflexivity|]. now apply starts_value_number.
Qed.

Lemma skip_ws_value v rest :
  Valid.value v = true ->
  Json.skip_ws (Json.dumps v ++ rest) = Json.dumps v ++ rest.
Proof.
  intros Hv. destruct (dumps_head v Hv) as (c & tl & -> & Hws & _).
  cbn [app Json.skip_ws]. now rewrite Hws.
Qed.

Lemma set_absent {V} (acc : Dict.t V) k v :
  ~ In k (Dict.keys acc) -> Dict.set acc k v = acc ++ [(k, v)].
Proof.
  unfold Dict.keys. induction acc as [|[k0 v0] acc IH]; simpl; intros Hk.
  - reflexivity.
  - rewrite str_eqb_neq by tauto. f_equal. apply IH. tauto.
Qed.

Lemma of_pairs_distinct {V} (d : Dict.t V) :
  Valid.distinct (map fst d) = true -> Dict.of_pairs d = d.
Proof.
  unfold Dict.of_pairs.
  assert (H : forall acc,
             NoDup (Dict.keys acc ++ map fst d) ->
             fold_left (fun a kv => Dict.set a (fst kv) (snd kv)) d acc
             = acc ++ d).
  { induction d as [|[k v] d IH]; intros acc Hnd; simpl.
    - now rewrite app_nil_r.
    - simpl in Hnd. rewrite set_absent.
      + rewrite IH.
        * now rewrite <- app_assoc.
        * unfold Dict.keys in *. rewrite map_app, <- app_assoc. exact Hnd.
      + apply NoDup_remove_2 in Hnd. intros Hin. apply Hnd.
        apply in_or_app. now left. }
  intros Hd. apply distinct_NoDup in Hd. now apply (H []).
Qed.

End Values.

Section RoundTrip.

Local Open Scope N_scope.

Lemma join_head sep p ps :
  Py.join sep (p :: ps)
  = p ++ match ps with [] => [] | _ :: _ => sep ++ Py.join sep ps end.
Proof. destruct ps; cbn [Py.join]; [now rewrite app_nil_r|reflexivity]. Qed.

Lemma scan_once_number c tl rest fuel i f e r :
  Json.is_digit c = true \/ c = 45 ->
  Json.match_number (c :: tl ++ rest) = Some (i, f, e, r) ->
  Json.scan_once (S fuel) (c :: tl ++ rest)
  = if Json.is_empty f && Json.is_empty e
    then Json.Scanned (JInt (Json.parse_int i)) r
    else Json.Scanned (JFloat (i ++ f ++ e)) r.
Proof.
  intros Hhead Hm. cbn [Json.scan_once].
  assert (Hne : forall k, Json.is_digit k = false -> k <> 45 ->
                          (c =? k) = false).
  { intros k Hk H45. apply N.eqb_neq. intros ->.
    destruct Hhead; congruence. }
  rewrite (Hne 34), (Hne 123), (Hne 91) by (reflexivity || discriminate).
  assert (Hsw : forall k w,
             Json.is_digit k = false -> k <> 45 ->
             Py.startswith (c :: tl ++ rest) (k :: w) = false).
  { intros k w Hk H45. cbn [Py.startswith].
    rewrite N.eqb_sym, Hne by assumption. reflexivity. }
  change `"null" with (110 :: `"ull").
  change `"true" with (116 :: `"rue").
  change `"false" with (102 :: `"alse").
  rewrite !Hsw by (reflexivity || discriminate).
  now rewrite Hm.
Qed.

Lemma int_reads_back n : Valid.reads_back (JInt n).
Proof.
  intros fuel rest Hfuel Hrest. cbn [Json.dumps] in *.
  pose proof (match_number_int n rest Hrest) as Hm.
  destruct (str_of_Z_head n) as (c & tl & Hc & Hhead).
  rewrite Hc in Hfuel, Hm |- *.
  destruct fuel as [|fuel]; [simpl in Hfuel; lia|].
  cbn [app] in *. rewrite (scan_once_number _ _ _ _ _ _ _ _ Hhead Hm).
  cbn [Json.is_empty andb]. rewrite <- Hc, parse_int_str. reflexivity.
Qed.

Lemma float_reads_back text :
  Valid.float_text text = true -> Valid.reads_back (JFloat text).
Proof.
  intros Htext fuel rest Hfuel Hrest. cbn [Json.dumps] in *.
  destruct (float_text_head text Htext) as (c & tl & Hc & _).
  destruct fuel as [|fuel]; [rewrite Hc in Hfuel; simpl in Hfuel; lia|].
  now apply scan_once_float.
Qed.

Lemma str_reads_back s : Valid.str s = true -> Valid.reads_back (JStr s).
Proof.
  intros Hs fuel rest Hfuel Hrest. cbn [Json.dumps] in *.
  unfold Json.encode_str in *.
  destruct fuel as [|fuel]; [simpl in Hfuel; lia|].
  cbn [app Json.scan_once N.eqb Pos.eqb].
  rewrite <- app_assoc. cbn [app].
  now rewrite scanstring_encoded.
Qed.

(** The items of a non-empty list, up to the closing bracket. *)
Lemma array_items_dumps items :
  Forall Valid.reads_back items ->
  forallb Valid.value items = true ->
  items <> [] ->
  forall fuel rest acc,
    (length (Py.join `", " (map Json.dumps items)) < fuel)%nat ->
    Json.array_items fuel
                     (Py.join `", " (map Json.dumps items) ++ 93 :: rest) acc
    = Json.Scanned (JList (rev acc ++ items)) rest.
Proof.
  induction items as [|v items IH]; intros Hback Hvalid Hne fuel rest acc Hfuel;
    [contradiction|].
  inversion Hback as [|? ? Hv Hitems]; subst.
  cbn [forallb] in Hvalid. apply andb_true_iff in Hvalid as [Hvv Hvitems].
  cbn [map] in *. rewrite join_head in *.
  destruct fuel as [|fuel]; [lia|].
  rewrite length_app in Hfuel. rewrite <- app_assoc.
  cbn [Json.array_items].
  destruct items as [|v2 more].
  - cbn [app map] in *.
    rewrite (Hv fuel (93 :: rest)) by (lia || reflexivity).
    reflexivity.
  - specialize (IH Hitems Hvitems ltac:(discriminate)).
    cbn [map] in *.
    set (J := Py.join `", " (Json.dumps v2 :: map Json.dumps more)) in *.
    change (`", " ++ J) with (44 :: 32 :: J) in *.
    cbn [app length] in *.
    rewrite (Hv fuel (44 :: 32 :: J ++ 93 :: rest)) by (lia || reflexivity).
    cbn [Json.skip_ws Json.is_ws N.eqb Pos.eqb orb].
    assert (Hskip : Json.skip_ws (J ++ 93 :: rest) = J ++ 93 :: rest).
    { subst J. rewrite join_head, <- app_assoc.
      apply skip_ws_value. cbn [forallb] in Hvitems.
      now apply andb_true_iff in Hvitems as [? _]. }
    rewrite Hskip, IH by lia.
    cbn [rev]. now rewrite <- app_assoc.
Qed.

Lemma item_text_quote kv :
  Valid.item_text kv
  = 34 :: flat_map Json.escape_char (fst kv)
       ++ 34 :: 58 :: 32 :: Json.dumps (snd kv).
Proof.
  unfold Valid.item_text, Json.encode_str. cbn [app].
  now rewrite <- app_assoc.
Qed.

(** The items of a non-empty dict, from after the opening quote of the
    first key up to the closing brace. *)
Lemma object_items_dumps d :
  Forall (fun kv => Valid.reads_back (snd kv)) d ->
  forallb (fun kv => Valid.str (fst kv) && Valid.value (snd kv)) d = true ->
  d <> [] ->
  forall fuel rest start acc,
    (length (Py.join `", " (map Valid.item_text d)) <= fuel)%nat ->
    Json.object_items fuel
      (tl (Py.join `", " (map Valid.item_text d)) ++ 125 :: rest) start acc
    = Json.Scanned (JDict (Dict.of_pairs (rev acc ++ d))) rest.
Proof.
  induction d as [|[k v] d IH];
    intros Hback Hvalid Hne fuel rest start acc Hfuel; [contradiction|].
  inversion Hback as [|? ? Hv Hitems]; subst. cbn [snd] in Hv.
  cbn [forallb fst snd] in Hvalid.
  apply andb_true_iff in Hvalid as [Hkv Hvitems].
  apply andb_true_iff in Hkv as [Hk Hvv].
  cbn [map] in *. rewrite join_head, item_text_quote in *.
  cbn [fst snd app tl length] in *.
  rewrite !length_app in Hfuel. cbn [length] in Hfuel.
  destruct fuel as [|fuel]; [lia|].
  rewrite <- !app_assoc. cbn [app Json.object_items].
  rewrite scanstring_encoded by assumption.
  cbn [Json.skip_ws Json.is_ws N.eqb Pos.eqb orb].
  rewrite skip_ws_value by assumption.
  destruct d as [|kv2 more].
  - cbn [app map length] in *.
    rewrite (Hv fuel (125 :: rest)) by (lia || reflexivity).
    reflexivity.
  - specialize (IH Hitems Hvitems ltac:(discriminate)).
    cbn [map] in *.
    set (J := Py.join `", " (Valid.item_text kv2 :: map Valid.item_text more))
      in *.
    assert (HJ : J = 34 :: tl J).
    { subst J. rewrite join_head, item_text_quote. reflexivity. }
    change (`", " ++ J) with (44 :: 32 :: J) in *.
    cbn [app length] in *.
    rewrite (Hv fuel (44 :: 32 :: J ++ 125 :: rest)) by (lia || reflexivity).
    cbn [Json.skip_ws Json.is_ws N.eqb Pos.eqb orb].
    rewrite HJ. cbn [app Json.skip_ws Json.is_ws N.eqb Pos.eqb orb].
    rewrite IH by lia.
    cbn [rev]. now rewrite <- app_assoc.
Qed.

(** Every value a Python program can hold is read back from its text. *)
Lemma value_reads_back v : Valid.value v = true -> Valid.reads_back v.
Proof.
  induction v as [|b|n|text|s|items IH|d IH] using json_nested_ind;
    cbn [Valid.value]; intros Hvalid.
  - intros [|fuel] rest Hfuel Hrest; [simpl in Hfuel; lia|reflexivity].
  - destruct b; intros [|fuel] rest Hfuel Hrest;
      (simpl in Hfuel; lia) || reflexivity.
  - apply int_reads_back.
  - now apply float_reads_back.
  - now apply str_reads_back.
  - assert (Hback : Forall Valid.reads_back items).
    { clear -IH Hvalid. induction IH as [|v items Hv _ IHitems];
        constructor; cbn [forallb] in Hvalid;
        apply andb_true_iff in Hvalid as [? ?]; auto. }
    intros fuel rest Hfuel Hrest. cbn [Json.dumps] in *.
    change (`"[" ++ Py.join `", " (map Json.dumps items) ++ `"]")
      with (91 :: Py.join `", " (map Json.dumps items) ++ [93]) in *.
    cbn [length] in Hfuel. rewrite length_app in Hfuel. cbn [length] in Hfuel.
    destruct fuel as [|fuel]; [lia|].
    rewrite <- app_comm_cons, <- app_assoc.
    cbn [app Json.scan_once N.eqb Pos.eqb].
    destruct items as [|v items]; [reflexivity|].
    destruct (dumps_head v) as (c & tl & Hc & Hws & H93 & _).
    { cbn [forallb] in Hvalid. now apply andb_true_iff in Hvalid as [? _]. }
    pose proof (array_items_dumps (v :: items) Hback Hvalid
                  ltac:(discriminate) fuel rest []) as Hitems.
    cbn [map] in *. rewrite join_head in *. rewrite Hc in *.
    cbn [app Json.skip_ws] in *. rewrite Hws, H93.
    apply Hitems. cbn [length] in *. lia.
  - apply andb_true_iff in Hvalid as [Hdistinct Hvalid].
    assert (Hback : Forall (fun kv => Valid.reads_back (snd kv)) d).
    { clear -IH Hvalid. induction IH as [|kv d Hv _ IHd];
        constructor; cbn [forallb] in Hvalid;
        apply andb_true_iff in Hvalid as [Hkv ?];
        apply andb_true_iff in Hkv as [? ?]; auto. }
    intros fuel rest Hfuel Hrest. cbn [Json.dumps] in *.
    fold Valid.item_text in *.
    change (`"{" ++ Py.join `", " (map Valid.item_text d) ++ `"}")
      with (123 :: Py.join `", " (map Valid.item_text d) ++ [125]) in *.
    cbn [length] in Hfuel. rewrite length_app in Hfuel. cbn [length] in Hfuel.
    destruct fuel as [|fuel]; [lia|].
    rewrite <- app_comm_cons, <- app_assoc.
    cbn [app Json.scan_once N.eqb Pos.eqb].
    destruct d as [|kv d]; [reflexivity|].
    pose proof (object_items_dumps (kv :: d) Hback Hvalid
                  ltac:(discriminate) fuel rest) as Hitems.
    cbn [map] in *. rewrite join_head, item_text_quote in *.
    cbn [app tl Json.skip_ws Json.is_ws N.eqb Pos.eqb orb] in *.
    rewrite Hitems by (cbn [length] in *; lia).
    cbn [rev app]. now rewrite of_pairs_distinct.
Qed.

(** [json.loads(json.dumps(v)) == v] *)
Lemma loads_dumps v : Valid.value v = true -> Json.loads (Json.dumps v) = Return v.
Proof.
  intros Hvalid. unfold Json.loads.
  destruct (dumps_head v Hvalid) as (c & tl & Hc & Hws & _ & Hbom).
  assert (Hskip : Json.skip_ws (Json.dumps v) = Json.dumps v).
  { rewrite <- (app_nil_r (Json.dumps v)) at 1.
    rewrite skip_ws_value by assumption. apply app_nil_r. }
  replace (Py.startswith (Json.dumps v) [65279]) with false
    by (rewrite Hc; cbn [Py.startswith]; rewrite N.eqb_sym, Hbom; reflexivity).
  rewrite Hskip.
  pose proof (value_reads_back v Hvalid
                (2 * length (Json.dumps v) + 1)%nat [] ltac:(lia) eq_refl)
    as Hscan.
  rewrite app_nil_r in Hscan. rewrite Hscan. reflexivity.
Qed.

End RoundTrip.

(* ===================================================================== *)
(** * The decoder never runs out of fuel *)
(* ===================================================================== *)

Section Fuel.

Local Open Scope N_scope.

Lemma consumes_weaken {A} (res : Json.scan A) n m :
  Json.consumes res n -> (n <= m)%nat -> Json.consumes res m.
Proof. destruct res; simpl; intros; auto; lia. Qed.

Lemma skip_ws_length s : (length (Json.skip_ws s) <= length s)%nat.
Proof.
  induction s as [|c s IH]; cbn [Json.skip_ws]; [lia|].
  destruct (Json.is_ws c); simpl; lia.
Qed.

Lemma decode_uXXXX_length s n r :
  Json.decode_uXXXX s = Some (n, r) -> (length r + 4 = length s)%nat.
Proof.
  unfold Json.decode_uXXXX.
  destruct s as [|h1 [|h2 [|h3 [|h4 s]]]]; try discriminate.
  destruct (Json.hex_value h1), (Json.hex_value h2), (Json.hex_value h3),
    (Json.hex_value h4); try discriminate.
  intros [= _ <-]. simpl. lia.
Qed.

Lemma scanstring_loop_consumes fuel :
  forall start s acc,
    (length s < fuel)%nat ->
    Json.consumes (Json.scanstring_loop fuel start s acc) (length s).
Proof.
  induction fuel as [|fuel IH]; intros start s acc Hfuel; [lia|].
  cbn [Json.scanstring_loop].
  destruct s as [|c r]; [exact I|]. cbn [length] in *.
  destruct (c =? 34); [simpl; lia|].
  destruct (c =? 92).
  - destruct r as [|esc r1]; [exact I|]. cbn [length] in *.
    destruct (esc =? 117).
    + destruct (length r1 <=? 4)%nat; [exact I|].
      destruct (Json.decode_uXXXX r1) as [[uni r2]|] eqn:Hu; [|exact I].
      apply decode_uXXXX_length in Hu.
      destruct ((55296 <=? uni) && (uni <=? 56319) && (6 <? length r2)%nat
                && Py.startswith r2 [92; 117]).
      * destruct (Json.decode_uXXXX (skipn 2 r2)) as [[uni2 r3]|] eqn:Hu2;
          [|exact I].
        apply decode_uXXXX_length in Hu2. rewrite length_skipn in Hu2.
        destruct ((56320 <=? uni2) && (uni2 <=? 57343));
          (eapply consumes_weaken; [apply IH|]; lia).
      * eapply consumes_weaken; [apply IH|]; lia.
    + destruct (Json.backslash esc); [|exact I].
      eapply consumes_weaken; [apply IH|]; lia.
  - destruct (c <? 32); [exact I|].
    eapply consumes_weaken; [apply IH|]; lia.
Qed.

Lemma scanstring_consumes start s :
  Json.consumes (Json.scanstring start s) (S (length s)).
Proof.
  unfold Json.scanstring. eapply consumes_weaken.
  - apply scanstring_loop_consumes. lia.
  - lia.
Qed.

Lemma span_digits_length s :
  (length (snd (Json.span_digits s)) <= length s)%nat.
Proof.
  rewrite (span_digits_split s) at 2. rewrite length_app. lia.
Qed.

Lemma match_number_length s i f e r :
  Json.match_number s = Some (i, f, e, r) -> (length r < length s)%nat.
Proof.
  unfold Json.match_number.
  destruct (Json.match_integer s) as [[i' s1]|] eqn:Hi; [|discriminate].
  assert (H1 : (length s1 < length s)%nat).
  { unfold Json.match_integer in Hi. destruct s as [|c s]; [discriminate|].
    destruct (c =? 45).
    - destruct s as [|d s]; [discriminate|].
      destruct (d =? 48); [injection Hi as _ <-; simpl; lia|].
      destruct (Json.is_digit d); [|discriminate].
      pose proof (span_digits_length s).
      destruct (Json.span_digits s). injection Hi as _ <-. simpl in *. lia.
    - destruct (c =? 48); [injection Hi as _ <-; simpl; lia|].
      destruct (Json.is_digit c); [|discriminate].
      pose proof (span_digits_length s).
      destruct (Json.span_digits s). injection Hi as _ <-. simpl in *. lia. }
  pose proof (match_frac_split s1) as Hf.
  destruct (Json.match_frac s1) as [f' s2].
  pose proof (match_exp_split s2) as He.
  destruct (Json.match_exp s2) as [e' s3]. cbn [fst snd] in *.
  intros [= _ _ _ <-].
  apply (f_equal (@length N)) in Hf, He. rewrite length_app in Hf, He. lia.
Qed.

Lemma skip_ws_cons s c r :
  Json.skip_ws s = c :: r -> (S (length r) <= length s)%nat.
Proof.
  intros H. pose proof (skip_ws_length s) as Hl. rewrite H in Hl. exact Hl.
Qed.

(** With fuel for twice the length of the text, none of the three
    scanning functions runs out of it, and each one that scans a value
    consumes at least one character. *)
Lemma scan_consumes fuel :
  (forall s,
      (2 * length s + 1 <= fuel)%nat ->
      Json.consumes (Json.scan_once fuel s) (length s))
  /\ (forall s acc,
         (2 * length s + 2 <= fuel)%nat ->
         Json.consumes (Json.array_items fuel s acc) (length s))
  /\ (forall s start acc,
         (2 * length s + 2 <= fuel)%nat ->
         Json.consumes (Json.object_items fuel s start acc) (length s)).
Proof.
  induction fuel as [|fuel (IHscan & IHarray & IHobject)].
  { repeat split; intros; lia. }
  split; [|split].
  - intros s Hfuel. cbn [Json.scan_once].
    destruct s as [|c r]; [exact I|]. cbn [length] in Hfuel.
    destruct (c =? 34).
    { pose proof (scanstring_consumes (length (c :: r)) r) as Hs.
      destruct (Json.scanstring _ r); simpl in *; auto. }
    destruct (c =? 123).
    { destruct (Json.skip_ws r) as [|c1 r1] eqn:Hws; [exact I|].
      apply skip_ws_cons in Hws.
      destruct (c1 =? 125); [simpl; lia|].
      destruct (c1 =? 34); [|exact I].
      eapply consumes_weaken; [apply IHobject|]; simpl; lia. }
    destruct (c =? 91).
    { destruct (Json.skip_ws r) as [|c1 r1] eqn:Hws; [exact I|].
      apply skip_ws_cons in Hws.
      destruct (c1 =? 93); [simpl; lia|].
      eapply consumes_weaken; [apply IHarray|]; simpl in *; lia. }
    destruct (Py.startswith (c :: r) `"null");
      [unfold Json.consumes; rewrite length_skipn; cbn [length]; lia|].
    destruct (Py.startswith (c :: r) `"true");
      [unfold Json.consumes; rewrite length_skipn; cbn [length]; lia|].
    destruct (Py.startswith (c :: r) `"false");
      [unfold Json.consumes; rewrite length_skipn; cbn [length]; lia|].
    destruct (Json.match_number (c :: r)) as [[[[i f] e] rest]|] eqn:Hm.
    { apply match_number_length in Hm.
      destruct (Json.is_empty f && Json.is_empty e); exact Hm. }
    destruct (Py.startswith (c :: r) `"NaN");
      [unfold Json.consumes; rewrite length_skipn; cbn [length]; lia|].
    destruct (Py.startswith (c :: r) `"Infinity");
      [unfold Json.consumes; rewrite length_skipn; cbn [length]; lia|].
    destruct (Py.startswith (c :: r) `"-Infinity");
      [unfold Json.consumes; rewrite length_skipn; cbn [length]; lia|].
    exact I.
  - intros s acc Hfuel. cbn [Json.array_items].
    pose proof (IHscan s ltac:(lia)) as Hv.
    destruct (Json.scan_once fuel s) as [v r| | |]; simpl in Hv; auto.
    destruct (Json.skip_ws r) as [|c r1] eqn:Hws; [exact I|].
    apply skip_ws_cons in Hws.
    destruct (c =? 93); [simpl; lia|].
    destruct (c =? 44); [|exact I].
    pose proof (skip_ws_length r1).
    eapply consumes_weaken; [apply IHarray|]; lia.
  - intros s start acc Hfuel. cbn [Json.object_items].
    pose proof (scanstring_consumes start s) as Hk.
    destruct (Json.scanstring start s) as [key r| | |]; simpl in Hk; auto.
    destruct (Json.skip_ws r) as [|c r1] eqn:Hws; [exact I|].
    apply skip_ws_cons in Hws.
    destruct (c =? 58); [|exact I].
    pose proof (skip_ws_length r1).
    pose proof (IHscan (Json.skip_ws r1) ltac:(lia)) as Hv.
    destruct (Json.scan_once fuel (Json.skip_ws r1)) as [v r2| | |];
      simpl in Hv; auto.
    destruct (Json.skip_ws r2) as [|c2 r3] eqn:Hws2; [exact I|].
    apply skip_ws_cons in Hws2.
    destruct (c2 =? 125); [simpl; lia|].
    destruct (c2 =? 44); [|exact I].
    destruct (Json.skip_ws r3) as [|c3 r4] eqn:Hws3; [exact I|].
    apply skip_ws_cons in Hws3.
    destruct (c3 =? 34); [|exact I].
    eapply consumes_weaken; [apply IHobject|]; lia.
Qed.

(** [json.loads] returns a value or raises [JSONDecodeError]. *)
Lemma loads_raises_JSONDecodeError s e :
  Json.loads s = Raise e -> is_JSONDecodeError e = true.
Proof.
  unfold Json.loads.
  destruct (Py.startswith s [65279]); [now intros [= <-]|].
  pose proof (proj1 (scan_consumes (2 * length (Json.skip_ws s) + 1))
                    (Json.skip_ws s) (le_n _)) as Hfuel.
  destruct (Json.scan_once _ (Json.skip_ws s)) as [v r|n|m n|];
    [|now intros [= <-]..|contradiction].
  destruct (Json.skip_ws r); [discriminate|now intros [= <-]].
Qed.

End Fuel.
(* ===================================================================== *)
(** * The dispatch loop *)
(* ===================================================================== *)

Lemma startswith_app (a b : Py.str) : Py.startswith (a ++ b) a = true.
Proof.
  induction a as [|x a IH]; simpl; [reflexivity|].
  now rewrite N.eqb_refl.
Qed.

Lemma contains_startswith (hay needle : Py.str) :
  Py.startswith hay needle = true -> Py.contains hay needle = true.
Proof. intros H. destruct hay; simpl; now rewrite H. Qed.

Lemma contains_app (a b c : Py.str) : Py.contains (a ++ b ++ c) b = true.
Proof.
  induction a as [|x a IH]; simpl.
  - apply contains_startswith. exact (@startswith_app b c).
  - rewrite IH. apply orb_true_r.
Qed.

Lemma loads_nil : exists e, Json.loads [] = Raise e.
Proof. eexists. reflexivity. Qed.

Lemma is_empty_nil {A} (l : list A) : Json.is_empty l = true -> l = [].
Proof. destruct l; [reflexivity|discriminate]. Qed.

Section Loop.

Variable isprintable : N -> bool.
Variable self : Server.StdioToolServer.

(** A line that holds a JSON object is answered by one write: a result or
    an error with code -32603, carrying the id of the line. *)
Lemma run_line_request line out :
  Server.is_request_line line = true ->
  exists response,
    Server.run_line isprintable self line out
    = (Return tt, out ++ [Server.written response])
    /\ ((exists v, response = Server.success_response (Server.line_id line) v)
        \/ (exists message,
               response
               = Server.error_response (Server.line_id line) (-32603)
                                       message)).
Proof.
  unfold Server.is_request_line, Server.line_id, Server.run_line.
  destruct (Json.is_empty (Py.strip line)) eqn:He.
  { apply is_empty_nil in He. rewrite He.
    destruct loads_nil as [e ->]. discriminate. }
  destruct (Json.loads (Py.strip line)) as [[| | | | | |r]|e]; try discriminate.
  intros _. simpl Server.request_fields. cbv iota beta.
  destruct (Server._dispatch isprintable self _ _) as [[v|ty]|e];
    unfold Server._write_result, Server._write_error; cbv iota beta;
    eexists; (split; [reflexivity|]); eauto.
Qed.

Lemma run_from_requests lines :
  forall out,
    Forall (fun line => Server.is_request_line line = true) lines ->
    exists responses,
      Server.run_from isprintable self lines out
      = (Return tt, out ++ map Server.written responses)
      /\ Forall2 (fun line response =>
                    (exists v,
                        response
                        = Server.success_response (Server.line_id line) v)
                    \/ (exists message,
                           response
                           = Server.error_response (Server.line_id line)
                                                   (-32603) message))
                 lines responses.
Proof.
  induction lines as [|line lines IH]; intros out Hall.
  - exists []. simpl. now rewrite app_nil_r.
  - inversion Hall as [|? ? Hline Hrest]; subst.
    destruct (run_line_request line out Hline) as (response & Hrun & Hshape).
    destruct (IH (out ++ [Server.written response]) Hrest)
      as (responses & Hruns & Hshapes).
    exists (response :: responses). simpl. rewrite Hrun, Hruns.
    rewrite <- app_assoc. split; [reflexivity|]. now constructor.
Qed.

End Loop.








(* ===================================================================== *)
(** * A request, from the controller to the worker *)
(* ===================================================================== *)

Lemma strip_braces body :
  Py.strip ((123%N :: body ++ [125%N]) ++ Py.newline)
  = 123%N :: body ++ [125%N].
Proof.
  unfold Py.strip, Py.rstrip, Py.newline. cbn [app Py.lstrip].
  change (Py.isspace 123) with false. cbv iota.
  replace (123%N :: (body ++ [125%N]) ++ [10%N])
    with ((123%N :: body) ++ [125%N; 10%N])
    by (cbn [app]; now rewrite <- app_assoc).
  rewrite rev_app_distr. cbn [rev app Py.lstrip].
  change (Py.isspace 10) with true. change (Py.isspace 125) with false.
  cbv iota.
  replace (125%N :: rev body ++ [123%N]) with (rev (123%N :: body ++ [125%N])).
  - apply rev_involutive.
  - cbn [rev]. rewrite rev_app_distr. reflexivity.
Qed.



(* ===================================================================== *)
(** * Request ids of a transport *)
(* ===================================================================== *)

Lemma stop_request_id t w :
  Transport._request_id (fst (Transport.stop t w)) = Transport._request_id t.
Proof.
  unfold Transport.stop. destruct (Transport._process t); reflexivity.
Qed.

Lemma start_request_id t w :
  Transport._request_id (snd (fst (Transport.start t w)))
  = Transport._request_id t.
Proof.
  unfold Transport.start.
  assert (H : forall p : Transport.StdioTransport * OS.world,
             Transport._request_id (fst p) = Transport._request_id t ->
             Transport._request_id
               (snd (fst (let (self1, w1) := p in
                          match OS.Popen (Transport.command self1)
                                         (Transport.env self1) w1 with
                          | (Raise e, w2) => (Raise e, self1, w2)
                          | (Return pid, w2) =>
                              (Return tt,
                               Transport.set_process self1 (Some pid), w2)
                          end)))
             = Transport._request_id t).
  { intros [s1 w1] Hs; simpl in Hs.
    destruct (OS.Popen _ _ w1) as [[pid|e] w2]; simpl; assumption. }
  apply H.
  destruct (Transport._process t) as [pid|]; [|reflexivity].
  destruct (OS.running w pid); [apply stop_request_id|reflexivity].
Qed.

Lemma seq_snoc (a n : nat) : seq a (S n) = seq a n ++ [(a + n)%nat].
Proof. now rewrite seq_S. Qed.

Lemma ids_sorted (a n : nat) : StronglySorted Z.lt (map Z.of_nat (seq a n)).
Proof.
  revert a; induction n as [|n IH]; intros a; simpl; constructor.
  - apply IH.
  - apply Forall_forall. intros z Hz.
    apply in_map_iff in Hz as (m & <- & Hm).
    apply in_seq in Hm. lia.
Qed.

Lemma ids_nodup (a n : nat) : NoDup (map Z.of_nat (seq a n)).
Proof.
  apply Injective_map_NoDup; [|apply seq_NoDup].
  intros x y H. now apply Nat2Z.inj.
Qed.

Lemma transport_run_ids ops :
  forall t w ids,
    Transport._request_id t = Z.of_nat (length ids) ->
    ids = map Z.of_nat (seq 1 (length ids)) ->
    snd (Session.transport_run ops (t, w, ids))
    = map Z.of_nat (seq 1 (length ids + Session.count_next_id ops)).
Proof.
  unfold Session.transport_run, Session.count_next_id.
  induction ops as [|o ops IH]; intros t w ids Hn Hids; simpl fold_left.
  - simpl. now rewrite Nat.add_0_r.
  - destruct o; simpl Session.transport_step; simpl filter.
    + pose proof (start_request_id t w) as Hs.
      destruct (Transport.start t w) as [[r t'] w']; simpl in Hs.
      apply IH; [congruence|assumption].
    + pose proof (stop_request_id t w) as Hs.
      destruct (Transport.stop t w) as [t' w']; simpl in Hs.
      apply IH; [congruence|assumption].
    + now apply IH.
    + destruct (Transport.send t request w) as [r w']. now apply IH.
    + simpl length. rewrite Nat.add_succ_r, <- Nat.add_succ_l.
      replace (S (length ids)) with (length (ids ++ [(Transport._request_id t + 1)%Z]))
        by (rewrite length_app; simpl; lia).
      apply IH; simpl.
      * rewrite length_app; simpl. lia.
      * rewrite length_app; simpl length.
        rewrite Nat.add_1_r, seq_snoc, map_app, <- Hids. simpl.
        do 2 f_equal. lia.
    + destruct (Transport._process t); now apply IH.
Qed.

(** C9. On a transport followed from its construction, through any calls of
    [start], [stop], [is_alive], [send] and [next_id] and any death of its
    child, the values [next_id] returns are 1, 2, 3, ... in this order: the
    sequence starts at 1, is strictly increasing and has no repetition. *)
Theorem next_id_counts_from_one :
  forall command env w ops,
    let ids := snd (Session.transport_run ops
                      (Transport.__init__ command env, w, [])) in
    ids = map Z.of_nat (seq 1 (Session.count_next_id ops))
    /\ StronglySorted Z.lt ids
    /\ NoDup ids.
Proof.
  intros command env w ops ids.
  assert (E : ids = map Z.of_nat (seq 1 (Session.count_next_id ops))).
  { subst ids. now rewrite transport_run_ids. }
  rewrite E. split; [reflexivity|]. split; [apply ids_sorted|apply ids_nodup].
Qed.

(* ===================================================================== *)
(** * Processes *)
(* ===================================================================== *)

Ltac break_match :=
  match goal with
  | |- context [match ?x with _ => _ end] => destruct x eqn:?
  | |- context [if ?b then _ else _] => destruct b eqn:?
  end.

Ltac break_let :=
  match goal with
  | |- context [let (_, _) := ?x in _] => destruct x eqn:?
  end.

Section UpdateFacts.

Context {A : Type}.
Implicit Types (l : list A) (f : A -> A).

Lemma length_update l i f : length (OS.update l i f) = length l.
Proof.
  revert i; induction l as [|x l IH]; intros [|i]; simpl; auto.
Qed.

Lemma nth_error_update_same l i f :
  nth_error (OS.update l i f) i = option_map f (nth_error l i).
Proof.
  revert i; induction l as [|x l IH]; intros [|i]; simpl; auto.
Qed.

Lemma nth_error_update_other l i j f :
  i <> j -> nth_error (OS.update l i f) j = nth_error l j.
Proof.
  revert i j; induction l as [|x l IH]; intros [|i] [|j] H; simpl; auto;
    try congruence.
Qed.

End UpdateFacts.

Lemma running_lt w pid : OS.running w pid = true -> pid < length (OS.procs w).
Proof.
  unfold OS.running. intros H. apply nth_error_Some.
  destruct (nth_error (OS.procs w) pid); congruence.
Qed.

Lemma running_log ev w pid : OS.running (OS.log ev w) pid = OS.running w pid.
Proof. reflexivity. Qed.

Lemma running_update_other w i j f :
  i <> j ->
  OS.running (OS.with_procs w (OS.update (OS.procs w) i f)) j = OS.running w j.
Proof.
  intros H. unfold OS.running; simpl. now rewrite nth_error_update_other.
Qed.

Lemma running_set_exited w pid :
  OS.running (OS.with_procs w (OS.update (OS.procs w) pid
                                         (OS.set_state OS.Exited))) pid
  = false.
Proof.
  unfold OS.running; simpl. rewrite nth_error_update_same.
  destruct (nth_error (OS.procs w) pid); reflexivity.
Qed.

Lemma running_kill w pid : OS.running (OS.kill pid w) pid = false.
Proof. unfold OS.kill. rewrite running_log. apply running_set_exited. Qed.

Lemma running_kill_other w i j :
  i <> j -> OS.running (OS.kill i w) j = OS.running w j.
Proof.
  intros H. unfold OS.kill. rewrite running_log. now apply running_update_other.
Qed.

Lemma running_terminate_other w i j :
  i <> j -> OS.running (OS.terminate i w) j = OS.running w j.
Proof.
  intros H. unfold OS.terminate. rewrite running_log.
  now apply running_update_other.
Qed.

Lemma running_write w i j line :
  OS.running (OS.write i line w) j = OS.running w j.
Proof.
  unfold OS.write. rewrite running_log. unfold OS.running; simpl.
  destruct (Nat.eq_dec i j) as [->|H].
  - rewrite nth_error_update_same.
    destruct (nth_error (OS.procs w) j); reflexivity.
  - now rewrite nth_error_update_other.
Qed.

Lemma running_readline_other w i j :
  i <> j -> OS.running (snd (OS.readline i w)) j = OS.running w j.
Proof.
  intros H. unfold OS.readline.
  destruct (nth_error (OS.procs w) i); [|reflexivity].
  destruct (Json.is_empty _); cbn [snd]; [|reflexivity].
  now rewrite running_update_other.
Qed.

Lemma running_Popen_old command env w w' r pid :
  OS.Popen command env w = (r, w') ->
  pid < length (OS.procs w) ->
  OS.running w' pid = OS.running w pid.
Proof.
  unfold OS.Popen. destruct (OS.launch w command env); intros [= <- <-] H.
  - unfold OS.running; simpl. now rewrite nth_error_app1.
  - reflexivity.
Qed.

Lemma running_Popen_new command env w w' pid :
  OS.Popen command env w = (Return pid, w') ->
  pid = length (OS.procs w) /\ OS.running w' pid = true
  /\ OS.trace w' = OS.trace w ++ [OS.EvPopen pid]
  /\ length (OS.procs w') = S (length (OS.procs w)).
Proof.
  unfold OS.Popen. destruct (OS.launch w command env); intros [= <- <-].
  repeat split.
  - unfold OS.running; simpl.
    rewrite nth_error_app2, Nat.sub_diag by lia. reflexivity.
  - simpl. rewrite length_app; simpl; lia.
Qed.

Lemma Popen_raise command env w w' e :
  OS.Popen command env w = (Raise e, w') -> w' = w.
Proof.
  unfold OS.Popen. destruct (OS.launch w command env); now intros [= <-].
Qed.

(** After [stop] the child the transport held is not running, and the calls
    made are [terminate], [wait] and, on a timeout, [kill]. *)
Lemma stop_effect t w pid :
  Transport._process t = Some pid ->
  let (t', w') := Transport.stop t w in
  Transport._process t' = None
  /\ OS.running w' pid = false
  /\ length (OS.procs w') = length (OS.procs w)
  /\ OS.launch w' = OS.launch w
  /\ (OS.trace w' = OS.trace w ++ [OS.EvTerminate pid; OS.EvWait pid]
      \/ OS.trace w'
         = OS.trace w ++ [OS.EvTerminate pid; OS.EvWait pid; OS.EvKill pid]).
Proof.
  intros Hp. unfold Transport.stop. rewrite Hp. unfold OS.wait.
  destruct (OS.running (OS.terminate pid w) pid) eqn:Hr; simpl.
  - split; [reflexivity|]. split.
    { unfold OS.kill; simpl. unfold OS.running; simpl.
      rewrite nth_error_update_same.
      destruct (nth_error _ pid); reflexivity. }
    split; [now rewrite !length_update|]. split; [reflexivity|].
    right. now rewrite <- !app_assoc.
  - split; [reflexivity|]. split; [exact Hr|].
    split; [now rewrite !length_update|]. split; [reflexivity|].
    left. now rewrite <- !app_assoc.
Qed.

(* ===================================================================== *)
(** * Restarting a transport *)
(* ===================================================================== *)

(** C4, as the code has it.  A transport that holds a child process calls
    [stop] (terminate, wait, and kill on a timeout) before it spawns again
    exactly when that child is still running; when the child has already
    exited, nothing is called before the spawn.  In both cases the child it
    held is not running when [start] returns, and a successful [start]
    binds the transport to the process just created. *)
Theorem start_stops_a_running_child :
  forall t w pid,
    Transport._process t = Some pid ->
    pid < length (OS.procs w) ->
    let '(r, t', w') := Transport.start t w in
    let fresh := length (OS.procs w) in
    (exists stop_calls,
        (if OS.running w pid
         then stop_calls = [OS.EvTerminate pid; OS.EvWait pid]
              \/ stop_calls
                 = [OS.EvTerminate pid; OS.EvWait pid; OS.EvKill pid]
         else stop_calls = [])
        /\ match r with
           | Return _ =>
               OS.trace w' = OS.trace w ++ stop_calls ++ [OS.EvPopen fresh]
               /\ Transport._process t' = Some fresh
               /\ OS.running w' fresh = true
           | Raise _ =>
               OS.trace w' = OS.trace w ++ stop_calls
               /\ Transport._process t'
                  = (if OS.running w pid then None else Some pid)
           end)
    /\ OS.running w' pid = false.
Proof.
  intros t w pid Hp Hlt. unfold Transport.start. rewrite Hp.
  destruct (OS.running w pid) eqn:Hrun.
  - pose proof (stop_effect t w pid Hp) as Hs.
    destruct (Transport.stop t w) as [t1 w1].
    destruct Hs as (Hp1 & Hr1 & Hlen & _ & Htr).
    destruct (OS.Popen _ _ w1) as [[n|e] w2] eqn:HP.
    + pose proof (running_Popen_new _ _ _ _ _ HP) as (Hn & Hrn & Htn & _).
      rewrite Hlen in Hn. subst n. split.
      * destruct Htr as [Htr|Htr];
          [exists [OS.EvTerminate pid; OS.EvWait pid]
          |exists [OS.EvTerminate pid; OS.EvWait pid; OS.EvKill pid]];
          (split; [auto|]); rewrite Htn, Htr, <- app_assoc; auto.
      * rewrite (running_Popen_old _ _ _ _ _ _ HP); [assumption|lia].
    + apply Popen_raise in HP; subst w2. split; [|assumption].
      destruct Htr as [Htr|Htr];
        [exists [OS.EvTerminate pid; OS.EvWait pid]
        |exists [OS.EvTerminate pid; OS.EvWait pid; OS.EvKill pid]]; auto.
  - destruct (OS.Popen _ _ w) as [[n|e] w2] eqn:HP.
    + pose proof (running_Popen_new _ _ _ _ _ HP) as (Hn & Hrn & Htn & _).
      subst n. split.
      * exists []. simpl. auto.
      * rewrite (running_Popen_old _ _ _ _ _ _ HP); assumption.
    + apply Popen_raise in HP; subst w2. split; [|assumption].
      exists []. rewrite app_nil_r. auto.
Qed.

Lemma start_stops_a_running_child_witness :
  let t := Transport.set_process
             (Transport.__init__ Example.echo_command None) (Some 0) in
  let w := snd (OS.Popen Example.echo_command None Example.world0) in
  let '(r, t', w') := Transport.start t w in
  (exists stop_calls,
      (if OS.running w 0
       then stop_calls = [OS.EvTerminate 0; OS.EvWait 0]
            \/ stop_calls = [OS.EvTerminate 0; OS.EvWait 0; OS.EvKill 0]
       else stop_calls = [])
      /\ match r with
         | Return _ =>
             OS.trace w' = OS.trace w ++ stop_calls ++ [OS.EvPopen 1]
             /\ Transport._process t' = Some 1
             /\ OS.running w' 1 = true
         | Raise _ =>
             OS.trace w' = OS.trace w ++ stop_calls
             /\ Transport._process t'
                = (if OS.running w 0 then None else Some 0)
         end)
  /\ OS.running w' 0 = false.
Proof.
  exact (start_stops_a_running_child
           (Transport.set_process
              (Transport.__init__ Example.echo_command None) (Some 0))
           (snd (OS.Popen Example.echo_command None Example.world0))
           0 eq_refl (le_n 1)).
Defined.

(** C4 as stated fails: a transport whose child has exited spawns again
    without a call of [terminate]. *)
Lemma start_after_exit_skips_stop :
  ~ (forall t w pid,
        Transport._process t = Some pid ->
        pid < length (OS.procs w) ->
        exists calls,
          OS.trace (snd (Transport.start t w))
          = OS.trace w ++ OS.EvTerminate pid :: calls).
Proof.
  intros H.
  destruct (H (Transport.set_process
                 (Transport.__init__ Example.echo_command None) (Some 0))
              (Session.child_exits 0
                 (snd (OS.Popen Example.echo_command None Example.world0)))
              0 eq_refl (le_n 1)) as [calls Hc].
  vm_compute in Hc. discriminate Hc.
Qed.

(* ===================================================================== *)
(** * The manager's registry *)
(* ===================================================================== *)

(** C3, as the code has it.  [register_server] never fails: whether or not
    [server_id] is registered, and with whatever command, the registration
    of [server_id] becomes the given command and environment with no
    transport and no tools, every other registration is unchanged, and a
    key already present keeps its place. *)
Theorem register_server_replaces :
  forall self server_id command env,
    let (r, self') := Manager.register_server self server_id command env in
    r = Return tt
    /\ Dict.get (Manager._servers self') server_id
       = Some {| Manager.command := command; Manager.transport := None;
                 Manager.env := env; Manager.tools := JList [] |}
    /\ (forall other,
           other <> server_id ->
           Dict.get (Manager._servers self') other
           = Dict.get (Manager._servers self) other)
    /\ (forall old,
           Dict.get (Manager._servers self) server_id = Some old ->
           Dict.keys (Manager._servers self')
           = Dict.keys (Manager._servers self)).
Proof.
  intros self server_id command env. simpl.
  split; [reflexivity|]. split; [apply get_set_same|]. split.
  - intros other Hne. apply get_set_other. congruence.
  - intros old Hold. eapply keys_set_present; eassumption.
Qed.

(** C3 as stated fails: registering a known id with another command
    succeeds and replaces the registration. *)
Lemma register_server_accepts_another_command :
  ~ (forall self server_id command2 env2 old,
        Dict.get (Manager._servers self) server_id = Some old ->
        command2 <> Manager.command old ->
        (exists e,
            fst (Manager.register_server self server_id command2 env2)
            = Raise e)
        /\ snd (Manager.register_server self server_id command2 env2) = self).
Proof.
  intros H.
  destruct (H (snd (Manager.register_server Manager.__init__ `"echo"
                      Example.echo_command None))
              `"echo" [ `"python"; `"other.py" ] None
              {| Manager.command := Example.echo_command;
                 Manager.transport := None; Manager.env := None;
                 Manager.tools := JList [] |}
              eq_refl ltac:(discriminate)) as [[e He] _].
  discriminate He.
Qed.

Lemma put_get_same m k s :
  Dict.get (Manager._servers (Manager.put m k s)) k = Some s.
Proof. apply get_set_same. Qed.

Lemma put_get_other m k k' s :
  k <> k' ->
  Dict.get (Manager._servers (Manager.put m k s)) k'
  = Dict.get (Manager._servers m) k'.
Proof. apply get_set_other. Qed.

Lemma put_keys m k s old :
  Dict.get (Manager._servers m) k = Some old ->
  Dict.keys (Manager._servers (Manager.put m k s))
  = Dict.keys (Manager._servers m).
Proof. apply keys_set_present. Qed.

Section ManagerFacts.

Variable isprintable : N -> bool.

(** [start] touches the registration of its own id only. *)
Lemma start_get_other m w k k' :
  k <> k' ->
  Dict.get (Manager._servers (snd (fst (Manager.start isprintable m k w)))) k'
  = Dict.get (Manager._servers m) k'.
Proof.
  intros Hne. unfold Manager.start.
  repeat (break_match || break_let); simpl; unfold Manager.put; simpl;
    rewrite ?get_set_other by assumption; reflexivity.
Qed.

Lemma start_keys m w k :
  Dict.keys (Manager._servers (snd (fst (Manager.start isprintable m k w))))
  = Dict.keys (Manager._servers m).
Proof.
  unfold Manager.start.
  destruct (Dict.get (Manager._servers m) k) as [s|] eqn:Hg; [|reflexivity].
  repeat (break_match || break_let); simpl; unfold Manager.put; simpl;
    try reflexivity.
  all: repeat (erewrite keys_set_present;
               [|first [eassumption|apply get_set_same]]).
  all: reflexivity.
Qed.

Lemma call_get_other m w k k' tool arguments :
  k <> k' ->
  Dict.get (Manager._servers
              (snd (fst (Manager.call isprintable m k tool arguments w)))) k'
  = Dict.get (Manager._servers m) k'.
Proof.
  intros Hne. unfold Manager.call.
  repeat (break_match || break_let); simpl; unfold Manager.put; simpl;
    rewrite ?get_set_other by assumption; reflexivity.
Qed.

Lemma stop_get_other m w k k' :
  k <> k' ->
  Dict.get (Manager._servers (fst (Manager.stop m k w))) k'
  = Dict.get (Manager._servers m) k'.
Proof.
  intros Hne. unfold Manager.stop.
  repeat (break_match || break_let); simpl; unfold Manager.put; simpl;
    rewrite ?get_set_other by assumption; reflexivity.
Qed.

Lemma stop_detached k k' m w :
  Session.detached k m -> Session.detached k (fst (Manager.stop m k' w)).
Proof.
  intros (s & Hg & Ht). destruct (str_eqb_spec k' k) as [->|Hne].
  - unfold Manager.stop. rewrite Hg, Ht. simpl. now exists s.
  - exists s. now rewrite stop_get_other.
Qed.

Lemma stop_all_detached k m w :
  Session.detached k m -> Session.detached k (fst (Manager.stop_all m w)).
Proof.
  unfold Manager.stop_all. generalize (Dict.keys (Manager._servers m)).
  intros ids. revert m w.
  induction ids as [|i ids IH]; intros m w Hd; simpl; [assumption|].
  destruct (Manager.stop m i w) as [m' w'] eqn:Hs.
  apply IH. change m' with (fst (m', w')). rewrite <- Hs.
  now apply stop_detached.
Qed.

Lemma call_detached k m w tool arguments :
  Session.detached k m ->
  Manager.call isprintable m k tool arguments w
  = (Raise (Exn RuntimeError
                (`"Server " ++ k ++ `" is not running. Call start() first.")),
     m, w).
Proof.
  intros (s & Hg & Ht). unfold Manager.call. now rewrite Hg, Ht.
Qed.

Lemma step_detached k o st :
  Session.starts k o = false ->
  Session.detached k (fst st) ->
  Session.detached k (fst (Session.manager_step isprintable st o)).
Proof.
  destruct st as [m w]. intros Hs Hd. destruct o; simpl in *.
  - destruct (str_eqb_spec server_id k) as [->|Hne].
    + eexists. split; [apply put_get_same|reflexivity].
    + destruct Hd as (s & Hg & Ht). exists s.
      now rewrite put_get_other.
  - destruct Hd as (s & Hg & Ht).
    pose proof (@start_get_other m w server_id k) as H.
    destruct (Manager.start isprintable m server_id w) as [[r m'] w'].
    simpl in *. exists s. rewrite H; [auto|].
    intros ->. now rewrite str_eqb_refl in Hs.
  - discriminate.
  - now apply stop_detached.
  - now apply stop_all_detached.
  - destruct (str_eqb_spec server_id k) as [->|Hne].
    + now rewrite call_detached.
    + destruct Hd as (s & Hg & Ht).
      pose proof (@call_get_other m w server_id k tool_name arguments Hne) as H.
      destruct (Manager.call _ _ _ _ _ _) as [[r m'] w']. simpl in *.
      exists s. now rewrite H.
  - assumption.
Qed.

Lemma run_detached k ops :
  forall st,
    forallb (fun o => negb (Session.starts k o)) ops = true ->
    Session.detached k (fst st) ->
    Session.detached k (fst (Session.manager_run isprintable ops st)).
Proof.
  unfold Session.manager_run.
  induction ops as [|o ops IH]; intros st Hall Hd; simpl in *; [assumption|].
  apply andb_true_iff in Hall as [Ho Hall].
  apply IH; [assumption|]. apply step_detached; [|assumption].
  now apply negb_true_iff.
Qed.

End ManagerFacts.

(** C8. Stopping a server that holds a transport detaches the transport and
    leaves the cached tools as they were, so [list_tools] still returns
    them; from then on, through any calls that do not start this server,
    [call] on it fails with the not-running error and changes nothing. *)
Theorem stop_keeps_tools_and_blocks_calls :
  forall isprintable self w server_id server t,
    Dict.get (Manager._servers self) server_id = Some server ->
    Manager.transport server = Some t ->
    let (self1, w1) := Manager.stop self server_id w in
    Dict.get (Manager._servers self1) server_id
    = Some (Manager.set_transport server None)
    /\ w1 = snd (Transport.stop t w)
    /\ Manager.list_tools self1 server_id = Manager.list_tools self server_id
    /\ Manager.list_tools self1 server_id = Manager.tools server
    /\ forall ops,
         forallb (fun o => negb (Session.starts server_id o)) ops = true ->
         let (self2, w2) :=
           Session.manager_run isprintable ops (self1, w1) in
         forall tool_name arguments,
           Manager.call isprintable self2 server_id tool_name arguments w2
           = (Raise (Exn RuntimeError
                         (`"Server " ++ server_id
                           ++ `" is not running. Call start() first.")),
              self2, w2).
Proof.
  intros isprintable self w server_id server t Hg Ht.
  destruct (Manager.stop self server_id w) as [self1 w1] eqn:Hstop.
  unfold Manager.stop in Hstop. rewrite Hg, Ht in Hstop.
  destruct (Transport.stop t w) as [t' w'] eqn:Hts.
  injection Hstop as <- <-.
  assert (Hg1 : Dict.get (Manager._servers
                            (Manager.put self server_id
                               (Manager.set_transport server None))) server_id
                = Some (Manager.set_transport server None))
    by apply put_get_same.
  split; [exact Hg1|]. split; [reflexivity|].
  unfold Manager.list_tools at 1 3. rewrite Hg1. simpl.
  split; [unfold Manager.list_tools; now rewrite Hg|].
  split; [reflexivity|].
  intros ops Hops.
  destruct (Session.manager_run isprintable ops _) as [self2 w2] eqn:Hrun.
  intros tool_name arguments. apply call_detached.
  change self2 with (fst (self2, w2)). rewrite <- Hrun.
  apply run_detached; [assumption|].
  simpl. eexists. split; [exact Hg1|reflexivity].
Qed.

Lemma stop_keeps_tools_and_blocks_calls_witness :
  let (self1, w1) := Manager.stop (fst Example.started) `"A"
                                  (snd Example.started) in
  Manager.list_tools self1 `"A" = Manager.list_tools (fst Example.started) `"A"
  /\ forall tool_name arguments,
       Manager.call Example.isprintable self1 `"A" tool_name
                    arguments w1
       = (Raise (Exn RuntimeError
                     (`"Server " ++ `"A"
                       ++ `" is not running. Call start() first.")),
          self1, w1).
Proof.
  pose proof (@stop_keeps_tools_and_blocks_calls
                Example.isprintable (fst Example.started)
                (snd Example.started) `"A" Example.server_A
                Example.transport_A eq_refl eq_refl) as H.
  destruct (Manager.stop (fst Example.started) `"A" (snd Example.started))
    as [self1 w1].
  destruct H as (_ & _ & Htools & _ & Hcalls).
  split; [exact Htools|]. exact (Hcalls [] eq_refl).
Defined.

(* ===================================================================== *)
(** * Starting a server that is already running *)
(* ===================================================================== *)

Lemma set_In {V} (d : Dict.t V) k v k' v' :
  NoDup (Dict.keys d) ->
  In (k', v') (Dict.set d k v) ->
  (k' = k /\ v' = v) \/ (k' <> k /\ In (k', v') d).
Proof.
  unfold Dict.keys. induction d as [|[k0 v0] d IH]; simpl; intros Hnd Hin.
  - destruct Hin as [[= <- <-]|[]]. now left.
  - inversion Hnd as [|? ? Hnotin Hnd']; subst.
    destruct (str_eqb_spec k0 k) as [->|Hne]; simpl in Hin.
    + destruct Hin as [[= <- <-]|Hin]; [now left|].
      right. split; [|now right].
      intros ->. apply Hnotin. apply in_map_iff. now exists (k, v').
    + destruct Hin as [[= <- <-]|Hin]; [right; split; [assumption|now left]|].
      destruct (IH Hnd' Hin) as [?|[? ?]]; [now left|right; split; auto].
Qed.

Lemma held_pids_In m pid :
  In pid (Session.held_pids m) <->
  exists k s, In (k, s) (Manager._servers m) /\ In pid (Session.server_pids s).
Proof.
  unfold Session.held_pids. rewrite in_flat_map. split.
  - intros ([k s] & Hin & Hp). now exists k, s.
  - intros (k & s & Hin & Hp). now exists (k, s).
Qed.

Lemma readline_trace pid w :
  pid < length (OS.procs w) ->
  OS.trace (snd (OS.readline pid w)) = OS.trace w ++ [OS.EvReadline pid].
Proof.
  intros Hlt. unfold OS.readline.
  destruct (nth_error (OS.procs w) pid) eqn:Hn.
  - destruct (Json.is_empty _); reflexivity.
  - apply nth_error_None in Hn. lia.
Qed.

Lemma send_effect t request w pid :
  Transport._process t = Some pid ->
  OS.running w pid = true ->
  let (r, w') := Transport.send t request w in
  OS.trace w'
  = OS.trace w ++ [OS.EvWrite pid (Transport.to_json request ++ Py.newline);
                   OS.EvReadline pid]
  /\ forall other, other <> pid -> OS.running w' other = OS.running w other.
Proof.
  intros Hp Hr. unfold Transport.send. rewrite Hp, Hr.
  assert (Hlt : pid < length (OS.procs w)) by now apply running_lt.
  set (line := Transport.to_json request ++ Py.newline).
  pose proof (@readline_trace pid (OS.write pid line w)) as Htr.
  pose proof (fun other => @running_readline_other (OS.write pid line w)
                             pid other) as Hro.
  destruct (OS.readline pid (OS.write pid line w)) as [a w2].
  simpl snd in *.
  assert (Hboth : OS.trace w2
                  = OS.trace w ++ [OS.EvWrite pid line; OS.EvReadline pid]
                  /\ forall other, other <> pid ->
                                   OS.running w2 other = OS.running w other).
  { split.
    - rewrite Htr; [simpl; now rewrite <- app_assoc|].
      simpl. now rewrite length_update.
    - intros other Hne. rewrite Hro by congruence. apply running_write. }
  destruct (Json.is_empty (OS.stdout_line a)); exact Hboth.
Qed.



(* ===================================================================== *)
(** * Starting every server *)
(* ===================================================================== *)

Section StartAll.

Variable isprintable : N -> bool.

Lemma start_each_app l1 l2 results m w :
  Manager.start_each isprintable (l1 ++ l2) results m w
  = let '(results1, m1, w1) :=
      Manager.start_each isprintable l1 results m w in
    Manager.start_each isprintable l2 results1 m1 w1.
Proof.
  revert results m w; induction l1 as [|k l1 IH]; intros results m w; simpl.
  - reflexivity.
  - destruct (Manager.start isprintable m k w) as [[[found|e] m'] w'];
      apply IH.
Qed.

Lemma start_each_get_other ids :
  forall results m w k,
    ~ In k ids ->
    Dict.get (fst (fst (Manager.start_each isprintable ids results m w))) k
    = Dict.get results k.
Proof.
  induction ids as [|i ids IH]; intros results m w k Hk; simpl.
  - reflexivity.
  - assert (i <> k /\ ~ In k ids) as [Hne Hk'] by (simpl in Hk; tauto).
    destruct (Manager.start isprintable m i w) as [[[found|e] m'] w'];
      rewrite IH by assumption; now apply get_set_other.
Qed.

Lemma start_each_keys ids :
  forall results m w,
    NoDup ids ->
    (forall k, In k ids -> Dict.get results k = None) ->
    Dict.keys (fst (fst (Manager.start_each isprintable ids results m w)))
    = Dict.keys results ++ ids.
Proof.
  induction ids as [|i ids IH]; intros results m w Hnd Hfresh; simpl.
  - now rewrite app_nil_r.
  - inversion Hnd as [|? ? Hi Hnd']; subst.
    assert (Hstep : forall v m' w',
               Dict.keys (fst (fst (Manager.start_each isprintable ids
                                      (Dict.set results i v) m' w')))
               = Dict.keys results ++ i :: ids).
    { intros v m' w'. rewrite IH; [|assumption|].
      - rewrite keys_set_absent by (apply Hfresh; now left).
        now rewrite <- app_assoc.
      - intros k Hk. rewrite get_set_other; [apply Hfresh; now right|].
        intros ->. contradiction. }
    destruct (Manager.start isprintable m i w) as [[[found|e] m'] w'];
      apply Hstep.
Qed.

End StartAll.

(** C5. [start_all] does not raise and returns a dict with exactly the
    registered ids, in their order.  The entry of an id is what [start]
    returned for it in the state reached at its turn, or the empty list when
    that [start] raised; in both cases the loop goes on with the ids after
    it, from the state that [start] left. *)
Theorem start_all_is_best_effort :
  forall isprintable self w,
    NoDup (Dict.keys (Manager._servers self)) ->
    exists results self' w',
      Manager.start_all isprintable self w = (Return results, self', w')
      /\ Dict.keys results = Dict.keys (Manager._servers self)
      /\ forall before server_id after,
           Dict.keys (Manager._servers self) = before ++ server_id :: after ->
           let '(results0, self0, w0) :=
             Manager.start_each isprintable before [] self w in
           let '(r, self1, w1) :=
             Manager.start isprintable self0 server_id w0 in
           let entry := match r with
                        | Return found => found
                        | Raise _ => JList []
                        end in
           Dict.get results server_id = Some entry
           /\ Manager.start_each isprintable after
                (Dict.set results0 server_id entry) self1 w1
              = (results, self', w').
Proof.
  intros isprintable self w Hnd. unfold Manager.start_all.
  destruct (Manager.start_each isprintable (Dict.keys (Manager._servers self))
                               [] self w) as [[results self'] w'] eqn:Hall.
  exists results, self', w'. split; [reflexivity|]. split.
  - change results with (fst (fst (results, self', w'))). rewrite <- Hall.
    now rewrite start_each_keys.
  - intros before server_id after Hkeys.
    rewrite Hkeys, start_each_app in Hall.
    destruct (Manager.start_each isprintable before [] self w)
      as [[results0 self0] w0].
    simpl in Hall.
    assert (Hafter : ~ In server_id after).
    { rewrite Hkeys in Hnd. apply NoDup_remove_2 in Hnd.
      intros Hin. apply Hnd. apply in_or_app. now right. }
    destruct (Manager.start isprintable self0 server_id w0)
      as [[[found|e] self1] w1]; simpl; (split; [|exact Hall]);
      change results with (fst (fst (results, self', w')));
      rewrite <- Hall, start_each_get_other by assumption;
      apply get_set_same.
Qed.

Lemma start_all_is_best_effort_witness :
  NoDup (Dict.keys (Manager._servers Example.registered))
  /\ exists results self' w',
       Manager.start_all Example.isprintable Example.registered
                         Example.world0
       = (Return results, self', w')
       /\ Dict.keys results = Dict.keys (Manager._servers Example.registered).
Proof.
  assert (Hnd : NoDup (Dict.keys (Manager._servers Example.registered)))
    by (apply distinct_NoDup; reflexivity).
  split; [exact Hnd|].
  destruct (@start_all_is_best_effort Example.isprintable
              Example.registered Example.world0 Hnd)
    as (results & self' & w' & Hall & Hkeys & _).
  exists results, self', w'. split; [exact Hall|exact Hkeys].
Defined.

(** On a machine where the echo server can be launched and the other
    command cannot, [start_all] returns the echo tool for the first and the
    empty list for the second. *)
Example start_all_on_a_valid_and_an_invalid_server :
  fst (fst (Manager.start_all Example.isprintable Example.registered
                              Example.world0))
  = Return [ (`"A", JList [Server.get_schema Example.EchoTool]);
             (`"B", JList []) ].
Proof. vm_compute. reflexivity. Qed.
(* ===================================================================== *)
(** * The worker: registration and dispatch *)
(* ===================================================================== *)

Section LoopFacts.

Variable isprintable : N -> bool.
Variable self : Server.StdioToolServer.

(** What one iteration writes does not depend on what was written before. *)
Lemma run_line_out line out :
  Server.run_line isprintable self line out
  = (fst (Server.run_line isprintable self line []),
     out ++ snd (Server.run_line isprintable self line [])).
Proof.
  unfold Server.run_line.
  destruct (Json.is_empty (Py.strip line)); [simpl; now rewrite app_nil_r|].
  destruct (Json.loads (Py.strip line)) as [request|e].
  - destruct (Server.request_fields request)
      as [[[request_id method] params]|e];
      [|simpl; now rewrite app_nil_r].
    destruct (Server._dispatch isprintable self method params) as [[v|ty]|e];
      reflexivity.
  - destruct (is_JSONDecodeError e); [reflexivity|simpl; now rewrite app_nil_r].
Qed.

Lemma run_from_out lines :
  forall out,
    Server.run_from isprintable self lines out
    = (fst (Server.run_from isprintable self lines []),
       out ++ snd (Server.run_from isprintable self lines [])).
Proof.
  induction lines as [|line lines IH]; intros out; simpl.
  - now rewrite app_nil_r.
  - rewrite (run_line_out line out).
    destruct (Server.run_line isprintable self line []) as [[[]|e] d]; simpl.
    + rewrite (IH (out ++ d)), (IH d). simpl. now rewrite app_assoc.
    + reflexivity.
Qed.

Lemma run_from_app lines1 lines2 :
  forall out,
    Server.run_from isprintable self (lines1 ++ lines2) out
    = match Server.run_from isprintable self lines1 out with
      | (Return _, out1) => Server.run_from isprintable self lines2 out1
      | (Raise e, out1) => (Raise e, out1)
      end.
Proof.
  induction lines1 as [|line lines1 IH]; intros out; simpl.
  - reflexivity.
  - destruct (Server.run_line isprintable self line out) as [[[]|e] out'];
      [apply IH|reflexivity].
Qed.

End LoopFacts.


Section DispatchFacts.

Variable isprintable : N -> bool.
Variable self : Server.StdioToolServer.

(** A line that decodes to a value is not blank. *)
Lemma loads_not_blank line v :
  Json.loads (Py.strip line) = Return v ->
  Json.is_empty (Py.strip line) = false.
Proof.
  intros Hloads.
  destruct (Json.is_empty (Py.strip line)) eqn:He; [|reflexivity].
  apply is_empty_nil in He. rewrite He in Hloads.
  destruct loads_nil as [e Hnil]. congruence.
Qed.

(** One iteration on a line that holds an object: the response follows
    from what [_dispatch] and the encoder do. *)
Lemma run_line_object line out request :
  Json.loads (Py.strip line) = Return (JDict request) ->
  let request_id := Dict.get_default request `"id" JNull in
  Server.run_line isprintable self line out
  = (Return tt,
     out ++ [Server.written
               match Server._dispatch isprintable self
                       (Dict.get_default request `"method" (JStr []))
                       (Dict.get_default request `"params" (JDict [])) with
               | Return (Server.Encodable v) =>
                   Server.success_response request_id v
               | Return (Server.Unencodable ty) =>
                   Server.error_response request_id (-32603)
                     (`"Object of type " ++ ty
                        ++ `" is not JSON serializable")
               | Raise e =>
                   Server.error_response request_id (-32603) (exn_str e)
               end]).
Proof.
  intros Hloads request_id. unfold Server.run_line.
  rewrite (loads_not_blank _ _ Hloads), Hloads.
  unfold Server.request_fields.
  destruct (Server._dispatch isprintable self _ _) as [[v|ty]|e]; reflexivity.
Qed.

Lemma run_from_answered line rest out response :
  Server.run_line isprintable self line out
  = (Return tt, out ++ [Server.written response]) ->
  Server.run_from isprintable self (line :: rest) out
  = Server.run_from isprintable self rest (out ++ [Server.written response]).
Proof. intros H. simpl. now rewrite H. Qed.

End DispatchFacts.

Lemma eq_str_neq s lit : s <> lit -> Repr.eq_str (JStr s) lit = false.
Proof. intros H. simpl. now apply str_eqb_neq. Qed.



(** X3. A line that holds a JSON text other than an object (a list, a
    string, a number, [true], [false] or [null]) ends the loop: reading the
    id of the request raises [AttributeError] outside of any [try], nothing
    is written for the line, and the lines after it are never read. *)
Theorem non_object_line_ends_the_loop :
  forall isprintable self line rest out v,
    Json.loads (Py.strip line) = Return v ->
    (forall request, v <> JDict request) ->
    Server.run_from isprintable self (line :: rest) out
    = (Raise (Exn AttributeError
                  (`"'" ++ Repr.type_name v
                        ++ `"' object has no attribute 'get'")),
       out).
Proof.
  intros isprintable self line rest out v Hloads Hv.
  simpl. unfold Server.run_line.
  rewrite (loads_not_blank _ _ Hloads), Hloads.
  destruct v; try reflexivity. now elim (Hv d).
Qed.

Lemma non_object_line_ends_the_loop_witness :
  Server.run_from Example.isprintable Example.echo_server
                  ((`"[1, 2]" ++ Py.newline) :: Example.two_requests) []
  = (Raise (Exn AttributeError `"'list' object has no attribute 'get'"), []).
Proof.
  exact (non_object_line_ends_the_loop
           Example.isprintable Example.echo_server
           (`"[1, 2]" ++ Py.newline) Example.two_requests []
           (JList [JInt 1; JInt 2])
           ltac:(vm_compute; reflexivity) ltac:(discriminate)).
Defined.



(** X5. [register] rejects a handler without a name with [ValueError] and
    accepts every other one.  Once accepted, the handler is the one its
    name looks up, a [tools/call] of that name runs its [handle] on the
    arguments of the call, and every other name looks up what it did
    before. *)
Theorem register_makes_the_handler_callable :
  forall isprintable self handler,
    match Server.register self handler with
    | Raise e =>
        Server.name handler = []
        /\ e = Exn ValueError
                   (`"ToolHandler " ++ Server.class_name handler
                      ++ `" has no name")
    | Return self' =>
        Server.name handler <> []
        /\ Dict.get (Server._handlers self') (Server.name handler)
           = Some handler
        /\ (forall other,
               other <> Server.name handler ->
               Dict.get (Server._handlers self') other
               = Dict.get (Server._handlers self) other)
        /\ (forall p,
               Dict.get_default p `"name" (JStr [])
               = JStr (Server.name handler) ->
               Server._dispatch isprintable self' (JStr `"tools/call")
                                (JDict p)
               = Server.handle handler
                   (Dict.get_default p `"arguments" (JDict [])))
    end.
Proof.
  intros isprintable self handler. unfold Server.register.
  destruct (Server.name handler) as [|c name] eqn:Hname; simpl Json.is_empty;
    cbv iota.
  - split; reflexivity.
  - split; [discriminate|]. cbn [Server._handlers].
    split; [apply get_set_same|]. split.
    + intros other Hne. apply get_set_other. congruence.
    + intros p Hp. unfold Server._dispatch.
      change (Repr.eq_str (JStr `"tools/call") `"ping") with false.
      change (Repr.eq_str (JStr `"tools/call") `"tools/list") with false.
      change (Repr.eq_str (JStr `"tools/call") `"tools/call") with true.
      cbv iota beta. rewrite Hp. unfold Server.handlers_get.
      cbn [Server._handlers]. now rewrite get_set_same.
Qed.
Lemma keys_set_NoDup {V} (d : Dict.t V) k v :
  NoDup (Dict.keys d) -> NoDup (Dict.keys (Dict.set d k v)).
Proof.
  intros Hnd. destruct (Dict.get d k) as [v0|] eqn:Hg.
  - now rewrite (keys_set_present d k v v0 Hg).
  - rewrite (keys_set_absent d k v Hg).
    apply NoDup_app; [assumption|repeat constructor; intros []|].
    intros x Hx [<-|[]]. now apply (proj1 (get_None_not_key d k) Hg).
Qed.

Lemma Forall_set {V} (P : Py.str * V -> Prop) (d : Dict.t V) k v :
  Forall P d -> (forall k', k' = k -> P (k', v)) -> Forall P (Dict.set d k v).
Proof.
  intros Hd Hkv. induction d as [|[k0 v0] d IH]; simpl.
  - constructor; [now apply Hkv|constructor].
  - inversion Hd as [|? ? H0 Hd']; subst.
    destruct (str_eqb_spec k0 k) as [->|Hne].
    + constructor; [now apply Hkv|assumption].
    + constructor; [assumption|now apply IH].
Qed.

Lemma set_In_values {V} (d : Dict.t V) k v kv :
  In kv (Dict.set d k v) -> In kv d \/ kv = (k, v).
Proof.
  induction d as [|[k0 v0] d IH]; simpl.
  - intros [<-|[]]. now right.
  - destruct (str_eqb_spec k0 k) as [->|Hne]; simpl.
    + intros [<-|Hin]; [now right|left; now right].
    + intros [<-|Hin]; [left; now left|].
      destruct (IH Hin) as [H|H]; [left; now right|now right].
Qed.

Lemma register_each_named handlers :
  forall self self',
    Invariant.named_handlers self ->
    Startup.register_each self handlers = Return self' ->
    Invariant.named_handlers self'
    /\ (forall kv, In kv (Server._handlers self') ->
                   In kv (Server._handlers self) \/ In (snd kv) handlers)
    /\ (forall k, In k (Dict.keys (Server._handlers self)) ->
                  In k (Dict.keys (Server._handlers self')))
    /\ (forall h, In h handlers ->
                  In (Server.name h) (Dict.keys (Server._handlers self'))).
Proof.
  induction handlers as [|h handlers IH]; intros self self' Hwf Hreg;
    simpl in Hreg.
  - injection Hreg as <-. repeat split; try apply Hwf; auto.
    intros h [].
  - unfold Server.register in Hreg.
    destruct (Json.is_empty (Server.name h)) eqn:Hname; [discriminate|].
    set (self1 := {| Server._handlers :=
                       Dict.set (Server._handlers self) (Server.name h) h |})
      in Hreg.
    assert (Hwf1 : Invariant.named_handlers self1).
    { destruct Hwf as [Hnd Hall]. split; simpl.
      - now apply keys_set_NoDup.
      - apply Forall_set; [assumption|]. intros k' ->. simpl.
        split; [reflexivity|]. intros E. now rewrite E in Hname. }
    destruct (IH self1 self' Hwf1 Hreg) as (Hwf' & Hfrom & Hkeys & Hall).
    split; [assumption|]. split; [|split].
    + intros kv Hin. destruct (Hfrom kv Hin) as [H1|H1]; [|right; now right].
      simpl in H1. apply set_In_values in H1.
      destruct H1 as [H1| ->]; [now left|right; now left].
    + intros k Hk. apply Hkeys. simpl.
      destruct (Dict.get (Server._handlers self) (Server.name h))
        as [v0|] eqn:Hg.
      * now rewrite (keys_set_present _ _ _ _ Hg).
      * rewrite (keys_set_absent _ _ _ Hg). apply in_or_app. now left.
    + intros h' [<-|Hin]; [|now apply Hall].
      apply Hkeys. simpl.
      apply (get_Some_key _ _ h). apply get_set_same.
Qed.

(** X6. In a worker whose handlers were registered one after the other on
    a new server, as the scripts under [servers/] do, [ping] and
    [tools/list] never fail, whatever the parameters, and describe the same
    handlers in the same order: [ping] lists their names and [tools/list]
    their schemas.  The names are distinct and none is empty, every handler
    listed was registered, and every registered handler has its name in the
    list. *)
Theorem ping_and_tools_list_agree :
  forall isprintable handlers self params,
    Startup.register_each Server.__init__ handlers = Return self ->
    exists stored,
      Server._dispatch isprintable self (JStr `"ping") params
      = Return (Server.Encodable
                  (JDict [ (`"status", JStr `"ok");
                           (`"tools",
                             JList (map (fun h => JStr (Server.name h))
                                        stored)) ]))
      /\ Server._dispatch isprintable self (JStr `"tools/list") params
         = Return (Server.Encodable (JList (map Server.get_schema stored)))
      /\ NoDup (map Server.name stored)
      /\ (forall h, In h stored -> In h handlers /\ Server.name h <> [])
      /\ (forall h, In h handlers ->
                    In (Server.name h) (map Server.name stored)).
Proof.
  intros isprintable handlers self params Hreg.
  assert (Hinit : Invariant.named_handlers Server.__init__)
    by (split; constructor).
  destruct (register_each_named handlers _ _ Hinit Hreg)
    as ([Hnd Hall] & Hfrom & _ & Hin).
  assert (Hkeys : Dict.keys (Server._handlers self)
                  = map Server.name (Dict.values (Server._handlers self))).
  { unfold Dict.keys, Dict.values. rewrite map_map.
    apply map_ext_in. intros kv Hkv.
    now apply (proj1 (Forall_forall _ _) Hall kv Hkv). }
  exists (Dict.values (Server._handlers self)).
  split; [|split; [|split; [|split]]].
  - unfold Server._dispatch.
    change (Repr.eq_str (JStr `"ping") `"ping") with true. cbv iota.
    now rewrite Hkeys, map_map.
  - reflexivity.
  - now rewrite <- Hkeys.
  - intros h Hh. unfold Dict.values in Hh. apply in_map_iff in Hh.
    destruct Hh as (kv & <- & Hkv).
    pose proof (proj1 (Forall_forall _ _) Hall kv Hkv) as [Hname Hne].
    split; [|congruence].
    destruct (Hfrom kv Hkv) as [[]|H]; assumption.
  - intros h Hh. rewrite <- Hkeys. now apply Hin.
Qed.

Lemma ping_and_tools_list_agree_witness :
  exists stored,
    Server._dispatch Example.isprintable Example.echo_server
                     (JStr `"ping") (JDict [])
    = Return (Server.Encodable
                (JDict [ (`"status", JStr `"ok");
                         (`"tools",
                           JList (map (fun h => JStr (Server.name h))
                                      stored)) ]))
    /\ Server._dispatch Example.isprintable Example.echo_server
                        (JStr `"tools/list") (JDict [])
       = Return (Server.Encodable (JList (map Server.get_schema stored)))
    /\ NoDup (map Server.name stored).
Proof.
  destruct (ping_and_tools_list_agree
              Example.isprintable [Example.EchoTool] Example.echo_server
              (JDict []) eq_refl)
    as (stored & Hping & Hlist & Hnd & _).
  exists stored. repeat split; assumption.
Defined.

(* ===================================================================== *)
(** * Responses, from the worker to the controller *)
(* ===================================================================== *)

Lemma strip_written d :
  Py.strip (Server.written (JDict d)) = Json.dumps (JDict d).
Proof.
  unfold Server.written. cbn [Json.dumps].
  match goal with
  | |- context [Py.join ?sep ?parts] => generalize (Py.join sep parts)
  end.
  intros body. apply strip_braces.
Qed.

Lemma loads_written d :
  Valid.value (JDict d) = true ->
  Json.loads (Py.strip (Server.written (JDict d))) = Return (JDict d).
Proof. intros Hd. rewrite strip_written. now apply loads_dumps. Qed.

Lemma valid_success_response request_id result :
  Valid.value request_id = true ->
  Valid.value result = true ->
  Valid.value (Server.success_response request_id result) = true.
Proof.
  intros Hid Hresult. unfold Server.success_response.
  change (Valid.value
            (JDict [ (`"jsonrpc", JStr `"2.0"); (`"id", request_id);
                     (`"result", result) ]))
    with (Valid.distinct [ `"jsonrpc"; `"id"; `"result" ]
          && (Valid.str `"jsonrpc" && Valid.str `"2.0"
              && (Valid.str `"id" && Valid.value request_id
                  && (Valid.str `"result" && Valid.value result && true)))).
  now rewrite Hid, Hresult.
Qed.

Lemma valid_error_response request_id code message :
  Valid.value request_id = true ->
  Valid.str message = true ->
  Valid.value (Server.error_response request_id code message) = true.
Proof.
  intros Hid Hmessage. unfold Server.error_response.
  change (Valid.value
            (JDict [ (`"jsonrpc", JStr `"2.0"); (`"id", request_id);
                     (`"error",
                       JDict [ (`"code", JInt code);
                               (`"message", JStr message) ]) ]))
    with (Valid.distinct [ `"jsonrpc"; `"id"; `"error" ]
          && (Valid.str `"jsonrpc" && Valid.str `"2.0"
              && (Valid.str `"id" && Valid.value request_id
                  && (Valid.str `"error"
                      && (Valid.distinct [ `"code"; `"message" ]
                          && (Valid.str `"code" && true
                              && (Valid.str `"message" && Valid.str message
                                  && true)))
                      && true)))).
  now rewrite Hid, Hmessage.
Qed.

(** X7. What the worker writes, the controller reads back.  For an id and
    a result that a Python program can hold, the line written for the result
    is decoded by [from_json], once stripped, as a response with that id and
    that result and no error; the line written for an error is decoded as a
    response with that id, no result, and an error that holds the code and
    the message. *)
Theorem response_round_trip :
  forall request_id result code message,
    Valid.value request_id = true ->
    Valid.value result = true ->
    Valid.str message = true ->
    let success :=
      Transport.from_json
        (Py.strip (Server.written
                     (Server.success_response request_id result))) in
    let failure :=
      Transport.from_json
        (Py.strip (Server.written
                     (Server.error_response request_id code message))) in
    success
    = Return {| Transport.response_id := request_id;
                Transport.result := result;
                Transport.error := JNull |}
    /\ failure
       = Return {| Transport.response_id := request_id;
                   Transport.result := JNull;
                   Transport.error :=
                     JDict [ (`"code", JInt code);
                             (`"message", JStr message) ] |}
    /\ (forall response, success = Return response ->
                         Transport.is_error response = false)
    /\ (forall response, failure = Return response ->
                         Transport.is_error response = true).
Proof.
  intros request_id result code message Hid Hresult Hmessage success failure.
  assert (Hs : success
               = Return {| Transport.response_id := request_id;
                           Transport.result := result;
                           Transport.error := JNull |}).
  { unfold success, Transport.from_json, Server.success_response.
    rewrite loads_written by now apply valid_success_response.
    reflexivity. }
  assert (Hf : failure
               = Return {| Transport.response_id := request_id;
                           Transport.result := JNull;
                           Transport.error :=
                             JDict [ (`"code", JInt code);
                                     (`"message", JStr message) ] |}).
  { unfold failure, Transport.from_json, Server.error_response.
    rewrite loads_written by now apply valid_error_response.
    reflexivity. }
  split; [exact Hs|]. split; [exact Hf|]. split.
  - intros response. rewrite Hs. now intros [= <-].
  - intros response. rewrite Hf. now intros [= <-].
Qed.

Lemma response_round_trip_witness :
  Transport.from_json
    (Py.strip (Server.written
                 (Server.success_response (JInt 1) (JList [JStr `"echo"]))))
  = Return {| Transport.response_id := JInt 1;
              Transport.result := JList [JStr `"echo"];
              Transport.error := JNull |}.
Proof.
  exact (proj1 (response_round_trip (JInt 1) (JList [JStr `"echo"]) 0 []
                  eq_refl eq_refl eq_refl)).
Defined.

(* ===================================================================== *)
(** * Stopping a transport, and sending without a child *)
(* ===================================================================== *)

Lemma stop_running_other t w other :
  Transport._process t <> Some other ->
  OS.running (snd (Transport.stop t w)) other = OS.running w other.
Proof.
  intros Hne. unfold Transport.stop.
  destruct (Transport._process t) as [pid|]; [|reflexivity].
  assert (Hpid : pid <> other) by congruence.
  unfold OS.wait.
  destruct (OS.running (OS.terminate pid w) pid); simpl.
  - rewrite running_kill_other by assumption. rewrite running_log.
    now apply running_terminate_other.
  - rewrite running_log. now apply running_terminate_other.
Qed.

(** X8. [stop] is final and can be repeated: after it the transport holds
    no process and is not alive, the child it held is not running, and no
    other process has changed state; a second [stop], like a [stop] of a
    transport that was never started, calls nothing and changes nothing. *)
Theorem stop_is_final_and_repeatable :
  forall t w,
    let (t1, w1) := Transport.stop t w in
    Transport._process t1 = None
    /\ Transport.is_alive t1 w1 = false
    /\ Transport.stop t1 w1 = (t1, w1)
    /\ (forall pid, Transport._process t = Some pid ->
                    OS.running w1 pid = false)
    /\ (forall other, Transport._process t <> Some other ->
                      OS.running w1 other = OS.running w other)
    /\ (Transport._process t = None -> t1 = t /\ w1 = w).
Proof.
  intros t w.
  pose proof (stop_running_other t w) as Hother.
  destruct (Transport._process t) as [pid|] eqn:Hp.
  - pose proof (stop_effect t w pid Hp) as Hs.
    destruct (Transport.stop t w) as [t1 w1].
    destruct Hs as (Hp1 & Hr1 & _). simpl snd in Hother.
    split; [assumption|].
    split; [unfold Transport.is_alive; now rewrite Hp1|].
    split; [unfold Transport.stop; now rewrite Hp1|].
    split; [now intros ? [= <-]|]. split; [exact Hother|discriminate].
  - unfold Transport.stop in *. rewrite Hp in *.
    split; [assumption|].
    split; [unfold Transport.is_alive; now rewrite Hp|].
    split; [unfold Transport.stop; now rewrite Hp|].
    split; [discriminate|]. split; [|auto].
    intros other _. reflexivity.
Qed.

(** X9. [send] needs a live child.  On a transport that holds no process,
    or whose child has exited, it raises [RuntimeError] without writing or
    reading anything.  On a live child whose output has ended, it raises
    [RuntimeError] after the request line was written, and the message holds
    no more than the first 500 characters of the error stream. *)
Theorem send_needs_a_live_child :
  forall t request w,
    (Transport.is_alive t w = false ->
     Transport.send t request w
     = (Raise (Exn RuntimeError `"Transport not running. Call start() first."),
        w))
    /\ (forall pid p,
           Transport._process t = Some pid ->
           nth_error (OS.procs w) pid = Some p ->
           OS.state p = OS.Running ->
           let line := Transport.to_json request ++ Py.newline in
           let a := OS.respond (OS.image p) (OS.stdin_lines p ++ [line]) in
           OS.stdout_line a = [] ->
           exists message,
             fst (Transport.send t request w)
             = Raise (Exn RuntimeError
                          (`"Tool server process died. stderr: " ++ message))
             /\ message = firstn 500 (OS.stderr_text a)
             /\ length message <= 500
             /\ OS.trace (snd (Transport.send t request w))
                = OS.trace w ++ [OS.EvWrite pid line; OS.EvReadline pid]).
Proof.
  intros t request w. split.
  - unfold Transport.is_alive, Transport.send.
    destruct (Transport._process t) as [pid|]; [|reflexivity].
    now intros ->.
  - intros pid p Hp Hnth Hstate line a Hline.
    assert (Hrun : OS.running w pid = true)
      by (unfold OS.running; now rewrite Hnth, Hstate).
    unfold Transport.send. rewrite Hp, Hrun. fold line.
    unfold OS.readline.
    assert (Hnth' : nth_error (OS.procs (OS.write pid line w)) pid
                    = Some {| OS.image := OS.image p; OS.state := OS.state p;
                              OS.stdin_lines := OS.stdin_lines p ++ [line] |}).
    { unfold OS.write. simpl. rewrite nth_error_update_same, Hnth.
      reflexivity. }
    rewrite Hnth'. cbn [OS.image OS.stdin_lines].
    change (OS.respond (OS.image p) (OS.stdin_lines p ++ [line])) with a.
    clearbody a. rewrite Hline. cbn [Json.is_empty]. cbv iota beta.
    rewrite Hline. cbn [Json.is_empty fst snd].
    exists (firstn 500 (OS.stderr_text a)).
    split; [reflexivity|]. split; [reflexivity|].
    split; [apply firstn_le_length|].
    simpl. now rewrite <- app_assoc.
Qed.

Lemma send_needs_a_live_child_witness :
  let t := Transport.set_process
             (Transport.__init__ Example.echo_command None) (Some 0) in
  let w := OS.write 0 (`"[1, 2]" ++ Py.newline)
                    (snd (OS.Popen Example.echo_command None
                                   Example.world0)) in
  Transport.send (Transport.__init__ Example.echo_command None) Example.ping
                 Example.world0
  = (Raise (Exn RuntimeError `"Transport not running. Call start() first."),
     Example.world0)
  /\ exists message,
       fst (Transport.send t Example.ping w)
       = Raise (Exn RuntimeError
                    (`"Tool server process died. stderr: " ++ message))
       /\ length message <= 500.
Proof.
  split.
  - exact (proj1 (send_needs_a_live_child
                    (Transport.__init__ Example.echo_command None)
                    Example.ping Example.world0)
                 eq_refl).
  - destruct (proj2 (send_needs_a_live_child
                       (Transport.set_process
                          (Transport.__init__ Example.echo_command None)
                          (Some 0))
                       Example.ping
                       (OS.write 0 (`"[1, 2]" ++ Py.newline)
                                 (snd (OS.Popen Example.echo_command None
                                                Example.world0))))
                    0
                    {| OS.image := Example.worker Example.echo_server;
                       OS.state := OS.Running;
                       OS.stdin_lines := [ `"[1, 2]" ++ Py.newline ] |}
                    eq_refl ltac:(reflexivity) eq_refl
                    ltac:(vm_compute; reflexivity))
      as (message & Hraise & _ & Hlen & _).
    exists message. split; assumption.
Defined.

(* ===================================================================== *)
(** * Stopping every server *)
(* ===================================================================== *)

Lemma set_transport_None s :
  Manager.transport s = None -> Manager.set_transport s None = s.
Proof. destruct s; simpl; now intros ->. Qed.

Lemma In_get {V} (d : Dict.t V) k v :
  NoDup (Dict.keys d) -> In (k, v) d -> Dict.get d k = Some v.
Proof.
  unfold Dict.keys. induction d as [|[k0 v0] d IH]; simpl; intros Hnd Hin.
  - contradiction.
  - inversion Hnd as [|? ? Hnotin Hnd']; subst.
    destruct Hin as [[= -> ->]|Hin].
    + now rewrite str_eqb_refl.
    + destruct (str_eqb_spec k0 k) as [->|Hne]; [|now apply IH].
      elim Hnotin. apply in_map_iff. now exists (k, v).
Qed.

Lemma get_In {V} (d : Dict.t V) k v : Dict.get d k = Some v -> In (k, v) d.
Proof.
  induction d as [|[k0 v0] d IH]; simpl; [discriminate|].
  destruct (str_eqb_spec k0 k) as [->|Hne].
  - intros [= ->]. now left.
  - intros H. right. now apply IH.
Qed.

(** On a dict, an assignment to a key that is present is a map over the
    items. *)
Lemma set_as_map {V} (f : V -> V) (d : Dict.t V) k v :
  NoDup (Dict.keys d) ->
  Dict.get d k = Some v ->
  Dict.set d k (f v)
  = map (fun kv => if Py.str_eqb (fst kv) k then (fst kv, f (snd kv)) else kv)
        d.
Proof.
  unfold Dict.keys. induction d as [|[k0 v0] d IH]; simpl; intros Hnd Hg.
  - discriminate.
  - inversion Hnd as [|? ? Hnotin Hnd']; subst.
    destruct (str_eqb_spec k0 k) as [->|Hne].
    + injection Hg as ->. f_equal. symmetry.
      rewrite <- (map_id d) at 2. apply map_ext_in. intros [k1 v1] Hin. simpl.
      destruct (str_eqb_spec k1 k) as [->|]; [|reflexivity].
      elim Hnotin. apply in_map_iff. now exists (k, v1).
    + f_equal. now apply IH.
Qed.

Lemma map_absent {V} (f : V -> V) (d : Dict.t V) k :
  Dict.get d k = None ->
  map (fun kv => if Py.str_eqb (fst kv) k then (fst kv, f (snd kv)) else kv) d
  = d.
Proof.
  induction d as [|[k0 v0] d IH]; simpl; [reflexivity|].
  destruct (Py.str_eqb k0 k); [discriminate|].
  intros H. f_equal. now apply IH.
Qed.

(** [stop] detaches the registration of its id and touches no other. *)
Lemma stop_servers m k w :
  NoDup (Dict.keys (Manager._servers m)) ->
  Manager._servers (fst (Manager.stop m k w))
  = map (fun kv => Invariant.detach_if (Py.str_eqb (fst kv) k) kv)
        (Manager._servers m).
Proof.
  intros Hnd. unfold Manager.stop, Invariant.detach_if.
  destruct (Dict.get (Manager._servers m) k) as [s|] eqn:Hg.
  - rewrite <- (set_as_map (fun s => Manager.set_transport s None)
                           (Manager._servers m) k s Hnd Hg).
    destruct (Manager.transport s) as [t|] eqn:Ht.
    + now destruct (Transport.stop t w).
    + simpl. rewrite (set_transport_None s Ht).
      clear Hnd. induction (Manager._servers m) as [|[k0 v0] d IH];
        simpl in *; [discriminate|].
      destruct (Py.str_eqb k0 k); [now injection Hg as ->|].
      f_equal. now apply IH.
  - simpl. symmetry.
    exact (map_absent (fun s => Manager.set_transport s None) _ _ Hg).
Qed.

Lemma stop_keys m k w :
  Dict.keys (Manager._servers (fst (Manager.stop m k w)))
  = Dict.keys (Manager._servers m).
Proof.
  unfold Manager.stop.
  destruct (Dict.get (Manager._servers m) k) as [s|] eqn:Hg; [|reflexivity].
  destruct (Manager.transport s) as [t|]; [|reflexivity].
  destruct (Transport.stop t w). simpl.
  now apply (keys_set_present _ _ _ s).
Qed.

(** The processes that [stop] can affect are those the registration
    holds. *)
Lemma stop_world m k w pid :
  match Dict.get (Manager._servers m) k with
  | Some s =>
      (In pid (Session.server_pids s) ->
       OS.running (snd (Manager.stop m k w)) pid = false)
      /\ (~ In pid (Session.server_pids s) ->
          OS.running (snd (Manager.stop m k w)) pid = OS.running w pid)
  | None => snd (Manager.stop m k w) = w
  end.
Proof.
  unfold Manager.stop, Session.server_pids.
  destruct (Dict.get (Manager._servers m) k) as [s|]; [|reflexivity].
  destruct (Manager.transport s) as [t|]; [|split; [intros []|reflexivity]].
  pose proof (stop_running_other t w pid) as Hother.
  destruct (Transport._process t) as [p|] eqn:Hp.
  - pose proof (stop_effect t w p Hp) as Hs.
    destruct (Transport.stop t w) as [t1 w1]. simpl in *.
    destruct Hs as (_ & Hr & _). split.
    + now intros [<-|[]].
    + intros Hne. apply Hother. intros [= ->]. apply Hne. now left.
  - destruct (Transport.stop t w) as [t1 w1]. simpl in *.
    split; [intros []|]. intros _. now apply Hother.
Qed.

Lemma stop_all_world ids :
  forall m w,
    let st := fold_left (fun st server_id =>
                           Manager.stop (fst st) server_id (snd st))
                        ids (m, w) in
    (forall pid, OS.running (snd st) pid = true -> OS.running w pid = true)
    /\ (forall k s pid,
           In k ids -> Dict.get (Manager._servers m) k = Some s ->
           In pid (Session.server_pids s) ->
           OS.running (snd st) pid = false)
    /\ (forall pid,
           (forall k s, In k ids -> Dict.get (Manager._servers m) k = Some s ->
                        ~ In pid (Session.server_pids s)) ->
           OS.running (snd st) pid = OS.running w pid).
Proof.
  induction ids as [|i ids IH]; intros m w; simpl.
  - split; [auto|]. split; [intros ? ? ? []|reflexivity].
  - destruct (Manager.stop m i w) as [m1 w1] eqn:Hstop.
    specialize (IH m1 w1). simpl in IH. destruct IH as (Hmono & Hheld & Hfree).
    assert (Hm1 : m1 = fst (Manager.stop m i w)) by now rewrite Hstop.
    assert (Hw1 : w1 = snd (Manager.stop m i w)) by now rewrite Hstop.
    assert (Hstep : forall pid, OS.running w1 pid = true ->
                                OS.running w pid = true).
    { intros pid Hr. pose proof (stop_world m i w pid) as Hw.
      rewrite <- Hw1 in Hw.
      destruct (Dict.get (Manager._servers m) i) as [s|]; [|congruence].
      destruct Hw as [Hin Hout].
      destruct (in_dec Nat.eq_dec pid (Session.server_pids s)) as [H|H].
      - rewrite (Hin H) in Hr. discriminate.
      - now rewrite <- (Hout H). }
    split; [|split].
    + intros pid Hr. apply Hstep. now apply Hmono.
    + intros k s pid Hk Hg Hpid.
      destruct (str_eqb_spec i k) as [->|Hne].
      * pose proof (stop_world m k w pid) as Hw.
        rewrite <- Hw1, Hg in Hw. destruct Hw as [Hin _].
        match goal with |- ?x = false => destruct x eqn:Hr end;
          [|reflexivity].
        apply Hmono in Hr. rewrite (Hin Hpid) in Hr. discriminate.
      * destruct Hk as [Hk|Hk]; [congruence|].
        apply (Hheld k s pid Hk); [|assumption].
        rewrite Hm1, stop_get_other by assumption. assumption.
    + intros pid Hnone. rewrite Hfree.
      * pose proof (stop_world m i w pid) as Hw. rewrite <- Hw1 in Hw.
        destruct (Dict.get (Manager._servers m) i) as [s|] eqn:Hg;
          [|congruence].
        apply Hw. apply (Hnone i s); [now left|assumption].
      * intros k s Hk Hg1.
        destruct (str_eqb_spec i k) as [->|Hne].
        -- rewrite Hm1 in Hg1. unfold Manager.stop in Hg1.
           destruct (Dict.get (Manager._servers m) k) as [s0|] eqn:Hg;
             [|simpl in Hg1; congruence].
           destruct (Manager.transport s0) as [t|] eqn:Ht.
           ++ destruct (Transport.stop t w). simpl in Hg1.
              rewrite get_set_same in Hg1. injection Hg1 as <-.
              intros [].
           ++ simpl in Hg1. rewrite Hg in Hg1. injection Hg1 as <-.
              unfold Session.server_pids. rewrite Ht. intros [].
        -- rewrite Hm1, stop_get_other in Hg1 by assumption.
           apply (Hnone k s); [now right|assumption].
Qed.

Lemma stop_all_servers ids :
  forall m w,
    NoDup (Dict.keys (Manager._servers m)) ->
    Manager._servers
      (fst (fold_left (fun st server_id =>
                         Manager.stop (fst st) server_id (snd st))
                      ids (m, w)))
    = map (fun kv => Invariant.detach_if (existsb (Py.str_eqb (fst kv)) ids) kv)
          (Manager._servers m).
Proof.
  induction ids as [|i ids IH]; intros m w Hnd; simpl.
  - unfold Invariant.detach_if. simpl. now rewrite map_id.
  - destruct (Manager.stop m i w) as [m1 w1] eqn:Hstop.
    assert (Hm1 : m1 = fst (Manager.stop m i w)) by now rewrite Hstop.
    rewrite IH by (rewrite Hm1, stop_keys; assumption).
    rewrite Hm1, stop_servers by assumption. rewrite map_map.
    apply map_ext. intros [k s]. unfold Invariant.detach_if. simpl.
    destruct (Py.str_eqb k i); simpl.
    + now destruct (existsb (Py.str_eqb k) ids).
    + reflexivity.
Qed.

Lemma held_pids_detached (d : Dict.t Manager.server) :
  flat_map (fun kv => Session.server_pids (snd kv))
           (map (fun kv => (fst kv, Manager.set_transport (snd kv) None)) d)
  = [].
Proof. induction d as [|[k s] d IH]; [reflexivity|exact IH]. Qed.

Lemma transport_alive_detached (d : Dict.t Manager.server) k w :
  match Dict.get (map (fun kv => (fst kv, Manager.set_transport (snd kv) None))
                      d) k with
  | Some server => Manager.transport_alive server w
  | None => false
  end = false.
Proof.
  induction d as [|[k0 s] d IH]; [reflexivity|]. simpl.
  destruct (Py.str_eqb k0 k); [reflexivity|exact IH].
Qed.

(** X10. [stop_all] detaches every registration and keeps everything else
    of it (command, environment and cached tools), in the same order.
    Every process a registration held is not running afterwards, no other
    process has changed state, and no server is reported as running. *)
Theorem stop_all_stops_every_held_child :
  forall self w,
    NoDup (Dict.keys (Manager._servers self)) ->
    let (self', w') := Manager.stop_all self w in
    Manager._servers self'
    = map (fun kv => (fst kv, Manager.set_transport (snd kv) None))
          (Manager._servers self)
    /\ (forall pid, In pid (Session.held_pids self) ->
                    OS.running w' pid = false)
    /\ (forall pid, ~ In pid (Session.held_pids self) ->
                    OS.running w' pid = OS.running w pid)
    /\ Session.held_pids self' = []
    /\ (forall server_id, Manager.is_running self' server_id w' = false).
Proof.
  intros self w Hnd.
  pose proof (stop_all_servers (Dict.keys (Manager._servers self)) self w Hnd)
    as Hservers.
  pose proof (stop_all_world (Dict.keys (Manager._servers self)) self w)
    as (_ & Hheld & Hfree).
  unfold Manager.stop_all.
  destruct (fold_left _ _ _) as [self' w']. simpl in *.
  assert (Hmap : Manager._servers self'
                 = map (fun kv => (fst kv, Manager.set_transport (snd kv) None))
                       (Manager._servers self)).
  { rewrite Hservers. apply map_ext_in. intros [k s] Hin.
    unfold Invariant.detach_if.
    replace (existsb (Py.str_eqb (fst (k, s)))
                     (Dict.keys (Manager._servers self))) with true;
      [reflexivity|].
    symmetry. apply existsb_exists. exists k. split.
    - unfold Dict.keys. apply in_map_iff. now exists (k, s).
    - apply str_eqb_refl. }
  split; [exact Hmap|]. split; [|split; [|split]].
  - intros pid Hpid. apply held_pids_In in Hpid as (k & s & Hin & Hp).
    apply (Hheld k s pid).
    + unfold Dict.keys. apply in_map_iff. exists (k, s). now split.
    + now apply In_get.
    + assumption.
  - intros pid Hpid. apply Hfree. intros k s _ Hg Hp. apply Hpid.
    apply held_pids_In. exists k, s. split; [now apply get_In|assumption].
  - unfold Session.held_pids. rewrite Hmap. apply held_pids_detached.
  - intros server_id. unfold Manager.is_running. rewrite Hmap.
    apply transport_alive_detached.
Qed.

Lemma stop_all_stops_every_held_child_witness :
  let (self', w') :=
    Manager.stop_all (fst Example.started) (snd Example.started) in
  OS.running (snd Example.started) 0 = true
  /\ OS.running w' 0 = false
  /\ Session.held_pids self' = []
  /\ Manager.list_tools self' `"A"
     = JList [Server.get_schema Example.EchoTool].
Proof.
  pose proof (stop_all_stops_every_held_child
                (fst Example.started) (snd Example.started)
                ltac:(apply distinct_NoDup; reflexivity)) as H.
  destruct (Manager.stop_all (fst Example.started) (snd Example.started))
    as [self' w'].
  destruct H as (Hservers & Hheld & _ & Hnone & _).
  split; [reflexivity|]. split; [|split; [exact Hnone|]].
  - apply Hheld. vm_compute. now left.
  - unfold Manager.list_tools. rewrite Hservers. reflexivity.
Defined.

(* ===================================================================== *)
(** * What the manager reports *)
(* ===================================================================== *)

(** X11. [list_servers] has one entry for each registered id, in the order
    of the registrations, and its entry for an id is what [is_running]
    returns for that id. *)
Theorem list_servers_reports_is_running :
  forall self w,
    Dict.keys (Manager.list_servers self w) = Dict.keys (Manager._servers self)
    /\ forall server_id,
         Dict.get (Manager.list_servers self w) server_id
         = match Dict.get (Manager._servers self) server_id with
           | Some _ => Some (Manager.is_running self server_id w)
           | None => None
           end.
Proof.
  intros self w. unfold Manager.list_servers, Manager.is_running, Dict.keys.
  split.
  - rewrite map_map. reflexivity.
  - intros server_id. induction (Manager._servers self) as [|[k s] d IH];
      [reflexivity|].
    simpl. destruct (Py.str_eqb k server_id); [reflexivity|exact IH].
Qed.


(* ===================================================================== *)
(** * What a start leaves behind *)
(* ===================================================================== *)

Lemma set_set {V} (d : Dict.t V) k v v' :
  Dict.set (Dict.set d k v) k v' = Dict.set d k v'.
Proof.
  induction d as [|[k0 v0] d IH]; simpl.
  - now rewrite str_eqb_refl.
  - destruct (Py.str_eqb k0 k) eqn:E; simpl; rewrite E; [reflexivity|].
    now rewrite IH.
Qed.

Lemma send_length t request w :
  length (OS.procs (snd (Transport.send t request w))) = length (OS.procs w).
Proof.
  unfold Transport.send.
  destruct (Transport._process t) as [pid|]; [|reflexivity].
  destruct (OS.running w pid); [|reflexivity].
  unfold OS.readline.
  destruct (nth_error _ pid) as [p|].
  - match goal with
    | |- context [OS.respond ?i ?l] => set (a := OS.respond i l)
    end.
    destruct (Json.is_empty (OS.stdout_line a)) eqn:E; cbv iota beta;
      rewrite ?E; cbn [snd];
      repeat (rewrite ?length_update;
              cbn [OS.procs OS.log OS.with_procs OS.write]);
      reflexivity.
  - cbv iota beta. cbn [Json.is_empty OS.stdout_line snd].
    repeat (rewrite ?length_update;
            cbn [OS.procs OS.log OS.with_procs OS.write]).
    reflexivity.
Qed.

(** X12. [start] of a registered id.  When the command cannot be launched,
    the exception of [Popen] is raised and neither the manager nor any
    process has changed.  When it can, a process is created and, whether the
    discovery of the tools then succeeds or not, the registration holds a new
    transport bound to that process, with the request counter at 1: a child
    that [start] has launched is always within reach of [stop].  The cached
    tools are what [start] returns when it returns, and the registered
    command and environment never change. *)
Theorem start_attaches_what_it_launched :
  forall isprintable self w server_id server,
    Dict.get (Manager._servers self) server_id = Some server ->
    let '(r, self', w') := Manager.start isprintable self server_id w in
    match OS.launch w (Manager.command server) (Manager.env server) with
    | Raise e => r = Raise e /\ self' = self /\ w' = w
    | Return _ =>
        let fresh := length (OS.procs w) in
        exists server',
          Dict.get (Manager._servers self') server_id = Some server'
          /\ Manager.transport server'
             = Some {| Transport.command := Manager.command server;
                       Transport.env := Manager.env server;
                       Transport._process := Some fresh;
                       Transport._request_id := 1 |}
          /\ Manager.command server' = Manager.command server
          /\ Manager.env server' = Manager.env server
          /\ In fresh (Session.held_pids self')
          /\ length (OS.procs w') = S fresh
          /\ (forall found, r = Return found ->
                            Manager.tools server' = found)
    end.
Proof.
  intros isprintable self w server_id server Hg.
  unfold Manager.start. rewrite Hg.
  unfold Transport.start, Transport.__init__. simpl Transport._process.
  cbv iota beta. simpl Transport.command. simpl Transport.env.
  unfold OS.Popen.
  destruct (OS.launch w (Manager.command server) (Manager.env server))
    as [program|e]; [|repeat split].
  set (fresh := length (OS.procs w)).
  set (w1 := OS.log (OS.EvPopen fresh) _).
  unfold Transport.next_id, Transport.set_process. simpl.
  set (t2 := {| Transport.command := Manager.command server;
                Transport.env := Manager.env server;
                Transport._process := Some fresh;
                Transport._request_id := 1 |}).
  set (request := {| Transport.method := `"tools/list";
                     Transport.params := [];
                     Transport.id := Transport.IdInt 1 |}).
  set (server1 := Manager.set_transport server (Some t2)).
  assert (Hlen : forall r w2, Transport.send t2 request w1 = (r, w2) ->
                              length (OS.procs w2) = S fresh).
  { intros r w2 Hsend. change w2 with (snd (r, w2)).
    rewrite <- Hsend, send_length. unfold w1. simpl.
    rewrite length_app. simpl. unfold fresh. lia. }
  assert (Hfinal : forall self' tools1,
             self' = Manager.put self server_id
                       (Manager.set_tools server1 tools1) ->
             exists server',
               Dict.get (Manager._servers self') server_id = Some server'
               /\ Manager.transport server' = Some t2
               /\ Manager.command server' = Manager.command server
               /\ Manager.env server' = Manager.env server
               /\ In fresh (Session.held_pids self')
               /\ Manager.tools server' = tools1).
  { intros self' tools1 ->. eexists. split; [apply put_get_same|].
    repeat split. apply held_pids_In.
    exists server_id, (Manager.set_tools server1 tools1).
    split; [apply get_In, put_get_same|]. now left. }
  assert (Hsame : Manager.put self server_id server1
                  = Manager.put self server_id
                      (Manager.set_tools server1 (Manager.tools server)))
    by reflexivity.
  assert (Hput : forall tools1,
             Manager.put (Manager.put self server_id server1) server_id
                         (Manager.set_tools server1 tools1)
             = Manager.put self server_id (Manager.set_tools server1 tools1)).
  { intros tools1. unfold Manager.put. simpl. now rewrite set_set. }
  destruct (Transport.send t2 request w1) as [r w2] eqn:Hsend.
  pose proof (Hlen r w2 eq_refl) as Hlen2.
  destruct r as [response|e].
  - destruct (Transport.is_error response).
    + destruct (Hfinal _ _ Hsame) as (s' & H1 & H2 & H3 & H4 & H5 & H6).
      exists s'. repeat split; try assumption. discriminate.
    + rewrite Hput.
      match goal with
      | |- context [Manager.set_tools server1 ?f] =>
          destruct (Hfinal _ f eq_refl) as (s' & H1 & H2 & H3 & H4 & H5 & H6)
      end.
      destruct (Manager.tool_names _).
      * exists s'. repeat split; try assumption. now intros found [= <-].
      * exists s'. repeat split; try assumption. discriminate.
  - destruct (Hfinal _ _ Hsame) as (s' & H1 & H2 & H3 & H4 & H5 & H6).
    exists s'. repeat split; try assumption. discriminate.
Qed.

Lemma start_attaches_what_it_launched_witness :
  let '(r, self', w') :=
    Manager.start Example.isprintable Example.registered `"A"
                  Example.world0 in
  exists server',
    Dict.get (Manager._servers self') `"A" = Some server'
    /\ Manager.transport server'
       = Some {| Transport.command := Example.echo_command;
                 Transport.env := None;
                 Transport._process := Some 0;
                 Transport._request_id := 1 |}
    /\ Manager.command server' = Example.echo_command
    /\ Manager.env server' = None
    /\ In 0 (Session.held_pids self')
    /\ length (OS.procs w') = 1
    /\ (forall found, r = Return found -> Manager.tools server' = found).
Proof.
  exact (start_attaches_what_it_launched
           Example.isprintable Example.registered Example.world0 `"A"
           {| Manager.command := Example.echo_command;
              Manager.transport := None; Manager.env := None;
              Manager.tools := JList [] |}
           eq_refl).
Defined.

(* ===================================================================== *)
(** * Registering again *)
(* ===================================================================== *)

(** X13. Registering an id again while its server runs drops the transport
    without stopping it: the manager reports the server as not running, and
    the child, still running, is out of its reach, so that even [stop_all]
    leaves it running. *)
Theorem reregistering_orphans_a_running_child :
  forall self w server_id server t pid command env,
    NoDup (Dict.keys (Manager._servers self)) ->
    Dict.get (Manager._servers self) server_id = Some server ->
    Manager.transport server = Some t ->
    Transport._process t = Some pid ->
    OS.running w pid = true ->
    (forall k s, In (k, s) (Manager._servers self) -> k <> server_id ->
                 ~ In pid (Session.server_pids s)) ->
    let self1 :=
      snd (Manager.register_server self server_id command env) in
    Manager.is_running self server_id w = true
    /\ Manager.is_running self1 server_id w = false
    /\ ~ In pid (Session.held_pids self1)
    /\ OS.running (snd (Manager.stop self1 server_id w)) pid = true
    /\ OS.running (snd (Manager.stop_all self1 w)) pid = true.
Proof.
  intros self w server_id server t pid command env
         Hnd Hg Ht Hp Hrun Hexcl self1.
  set (fresh := {| Manager.command := command; Manager.transport := None;
                   Manager.env := env; Manager.tools := JList [] |}).
  assert (Hg1 : Dict.get (Manager._servers self1) server_id = Some fresh)
    by apply put_get_same.
  assert (Hheld : ~ In pid (Session.held_pids self1)).
  { intros Hin. apply held_pids_In in Hin as (k & s & Hin & Hpid).
    apply set_In in Hin; [|assumption].
    destruct Hin as [[-> ->]|[Hne Hin]]; [exact Hpid|].
    now apply (Hexcl k s). }
  split; [|split; [|split; [exact Hheld|split]]].
  - unfold Manager.is_running, Manager.transport_alive, Transport.is_alive.
    now rewrite Hg, Ht, Hp.
  - unfold Manager.is_running. now rewrite Hg1.
  - unfold Manager.stop. now rewrite Hg1.
  - unfold Manager.stop_all.
    pose proof (stop_all_world (Dict.keys (Manager._servers self1)) self1 w)
      as (_ & _ & Hfree).
    simpl in Hfree. rewrite Hfree; [assumption|].
    intros k s _ Hgk Hpid. apply Hheld. apply held_pids_In.
    exists k, s. split; [now apply get_In|assumption].
Qed.

Lemma reregistering_orphans_a_running_child_witness :
  let self1 :=
    snd (Manager.register_server (fst Example.started) `"A"
                                 Example.echo_command None) in
  Manager.is_running self1 `"A" (snd Example.started) = false
  /\ OS.running (snd (Manager.stop_all self1 (snd Example.started))) 0 = true.
Proof.
  pose proof (reregistering_orphans_a_running_child
                (fst Example.started) (snd Example.started) `"A"
                Example.server_A Example.transport_A 0
                Example.echo_command None
                ltac:(apply distinct_NoDup; reflexivity)
                eq_refl eq_refl eq_refl eq_refl) as H.
  destruct H as (_ & Hnot & _ & _ & Hall).
  - intros k s Hin Hne Hpid. vm_compute in Hin.
    destruct Hin as [[= <- <-]|[[= <- <-]|[]]].
    + now elim Hne.
    + vm_compute in Hpid. exact Hpid.
  - split; [exact Hnot|exact Hall].
Defined.

(* ===================================================================== *)
(** * The requests a call sends *)
(* ===================================================================== *)



(* ===================================================================== *)
(** * From the controller to a handler and back *)
(* ===================================================================== *)

(** The JSON object that [to_json] encodes. *)
Lemma to_json_dumps r :
  Transport.to_json r
  = Json.dumps (JDict [ (`"jsonrpc", JStr `"2.0");
                        (`"method", JStr (Transport.method r));
                        (`"params", JDict (Transport.params r));
                        (`"id", Transport.json_of_id (Transport.id r)) ]).
Proof. reflexivity. Qed.

Lemma valid_request_value r :
  Valid.request r = true ->
  Valid.value (JDict [ (`"jsonrpc", JStr `"2.0");
                       (`"method", JStr (Transport.method r));
                       (`"params", JDict (Transport.params r));
                       (`"id", Transport.json_of_id (Transport.id r)) ])
  = true.
Proof.
  intros Hvalid. unfold Valid.request in Hvalid.
  apply andb_true_iff in Hvalid as [Hvalid Hid].
  apply andb_true_iff in Hvalid as [Hmethod Hparams].
  change (Valid.value
            (JDict [ (`"jsonrpc", JStr `"2.0");
                     (`"method", JStr (Transport.method r));
                     (`"params", JDict (Transport.params r));
                     (`"id", Transport.json_of_id (Transport.id r)) ]))
    with (Valid.distinct [ `"jsonrpc"; `"method"; `"params"; `"id" ]
          && (Valid.str `"jsonrpc" && Valid.str `"2.0"
              && (Valid.str `"method" && Valid.str (Transport.method r)
                  && (Valid.str `"params"
                      && Valid.value (JDict (Transport.params r))
                      && (Valid.str `"id"
                          && Valid.value
                               (Transport.json_of_id (Transport.id r))
                          && true))))).
  rewrite Hmethod, Hid, Hparams. reflexivity.
Qed.

Lemma request_line_loads r :
  Valid.request r = true ->
  Json.loads (Py.strip (Transport.to_json r ++ Py.newline))
  = Return (JDict [ (`"jsonrpc", JStr `"2.0");
                    (`"method", JStr (Transport.method r));
                    (`"params", JDict (Transport.params r));
                    (`"id", Transport.json_of_id (Transport.id r)) ]).
Proof.
  intros Hvalid. rewrite to_json_dumps.
  exact (loads_written _ (valid_request_value r Hvalid)).
Qed.

Lemma skipn_length_app {A} (l1 l2 : list A) : skipn (length l1) (l1 ++ l2) = l2.
Proof. induction l1 as [|x l1 IH]; [reflexivity|exact IH]. Qed.

Section EndToEnd.

(** The table of the worker's interpreter. *)
Variable isprintable : N -> bool.
Variable self : Server.StdioToolServer.

(** A worker that is still in its loop answers a request line with the
    line [run] writes for it, and [send] decodes that line. *)
Lemma send_to_worker t w pid history request response :
  Transport._process t = Some pid ->
  nth_error (OS.procs w) pid
  = Some {| OS.image := Startup.worker isprintable self;
            OS.state := OS.Running;
            OS.stdin_lines := history |} ->
  fst (Server.run isprintable self history) = Return tt ->
  Server.run_line isprintable self
                  (Transport.to_json request ++ Py.newline) []
  = (Return tt, [Server.written (JDict response)]) ->
  fst (Transport.send t request w)
  = Transport.from_json (Json.dumps (JDict response)).
Proof.
  intros Hp Hnth Hloop Hline.
  assert (Hrun : OS.running w pid = true)
    by (unfold OS.running; now rewrite Hnth).
  unfold Transport.send. rewrite Hp, Hrun.
  set (line := Transport.to_json request ++ Py.newline) in *.
  unfold OS.readline.
  assert (Hnth' : nth_error (OS.procs (OS.write pid line w)) pid
                  = Some {| OS.image := Startup.worker isprintable self;
                            OS.state := OS.Running;
                            OS.stdin_lines := history ++ [line] |}).
  { unfold OS.write. simpl. rewrite nth_error_update_same, Hnth.
    reflexivity. }
  rewrite Hnth'. cbn [OS.image OS.stdin_lines].
  assert (Hanswer : OS.respond (Startup.worker isprintable self)
                               (history ++ [line])
                    = {| OS.stdout_line := Server.written (JDict response);
                         OS.stderr_text := [] |}).
  { unfold Startup.worker. cbn [OS.respond].
    rewrite removelast_last. unfold Server.run in *.
    rewrite run_from_app.
    destruct (Server.run_from isprintable self history []) as [[[]|e] out1];
      [|discriminate].
    cbn [Server.run_from]. rewrite (run_line_out isprintable self line out1).
    rewrite Hline. cbn [fst snd].
    rewrite skipn_length_app. cbn [concat]. now rewrite app_nil_r. }
  rewrite Hanswer. cbn [OS.stdout_line].
  assert (Hne : Json.is_empty (Server.written (JDict response)) = false).
  { unfold Server.written. destruct (Json.dumps _); reflexivity. }
  rewrite Hne. cbv iota beta. cbn [OS.stdout_line]. rewrite Hne. cbn [fst].
  now rewrite strip_written.
Qed.

End EndToEnd.

Lemma valid_tools_call tool_name arguments n :
  Valid.str tool_name = true ->
  Valid.value (JDict arguments) = true ->
  Valid.request (Startup.tools_call tool_name arguments n) = true.
Proof.
  intros Hname Hargs. unfold Valid.request, Startup.tools_call.
  cbn [Transport.method Transport.params Transport.id Transport.json_of_id].
  change (Valid.value
            (JDict [ (`"name", JStr tool_name);
                     (`"arguments", JDict arguments) ]))
    with (Valid.distinct [ `"name"; `"arguments" ]
          && (Valid.str `"name" && Valid.str tool_name
              && (Valid.str `"arguments" && Valid.value (JDict arguments)
                  && true))).
  now rewrite Hname, Hargs.
Qed.

(** What the worker writes for a [tools/call] request of a registered
    tool. *)
Lemma run_line_tools_call isprintable self tool_name arguments n handler :
  Valid.str tool_name = true ->
  Valid.value (JDict arguments) = true ->
  Dict.get (Server._handlers self) tool_name = Some handler ->
  Server.run_line isprintable self
    (Transport.to_json (Startup.tools_call tool_name arguments n)
       ++ Py.newline) []
  = (Return tt,
     [Server.written
        match Server.handle handler (JDict arguments) with
        | Return (Server.Encodable v) => Server.success_response (JInt n) v
        | Return (Server.Unencodable ty) =>
            Server.error_response (JInt n) (-32603)
              (`"Object of type " ++ ty ++ `" is not JSON serializable")
        | Raise e => Server.error_response (JInt n) (-32603) (exn_str e)
        end]).
Proof.
  intros Hname Hargs Hhandler.
  pose proof (request_line_loads _ (valid_tools_call tool_name arguments n
                                      Hname Hargs)) as Hloads.
  rewrite (run_line_object isprintable self _ [] _ Hloads).
  cbn [app]. do 2 f_equal.
  change (Dict.get_default _ `"id" JNull) with (JInt n).
  change (Dict.get_default _ `"method" (JStr [])) with (JStr `"tools/call").
  change (Dict.get_default _ `"params" (JDict []))
    with (JDict [ (`"name", JStr tool_name);
                  (`"arguments", JDict arguments) ]).
  unfold Server._dispatch.
  change (Repr.eq_str (JStr `"tools/call") `"ping") with false.
  change (Repr.eq_str (JStr `"tools/call") `"tools/list") with false.
  change (Repr.eq_str (JStr `"tools/call") `"tools/call") with true.
  cbv iota beta.
  change (Dict.get_default _ `"name" (JStr [])) with (JStr tool_name).
  change (Dict.get_default _ `"arguments" (JDict [])) with (JDict arguments).
  unfold Server.handlers_get. rewrite Hhandler. reflexivity.
Qed.

(** A call through the manager, the transport and the loop of the worker
    comes back with the outcome of the handler. *)
Lemma call_reaches_the_handler :
  forall isprintable worker_isprintable worker manager w server_id server
         t pid history tool_name arguments handler,
    Dict.get (Manager._servers manager) server_id = Some server ->
    Manager.transport server = Some t ->
    Transport._process t = Some pid ->
    nth_error (OS.procs w) pid
    = Some {| OS.image := Startup.worker worker_isprintable worker;
              OS.state := OS.Running;
              OS.stdin_lines := history |} ->
    fst (Server.run worker_isprintable worker history) = Return tt ->
    Dict.get (Server._handlers worker) tool_name = Some handler ->
    Valid.str tool_name = true ->
    Valid.value (JDict arguments) = true ->
    let returned :=
      fst (fst (Manager.call isprintable manager server_id tool_name
                             arguments w)) in
    let failed message :=
      Raise (Exn RuntimeError
                 (`"Tool call failed (" ++ server_id ++ `"/" ++ tool_name
                    ++ `"): "
                    ++ Repr.str_ isprintable
                         (JDict [ (`"code", JInt (-32603));
                                  (`"message", JStr message) ]))) in
    (forall v,
        Server.handle handler (JDict arguments)
        = Return (Server.Encodable v) ->
        Valid.value v = true ->
        returned = Return v)
    /\ (forall e,
           Server.handle handler (JDict arguments) = Raise e ->
           Valid.str (exn_str e) = true ->
           returned = failed (exn_str e))
    /\ (forall ty,
           Server.handle handler (JDict arguments)
           = Return (Server.Unencodable ty) ->
           Valid.str ty = true ->
           returned
           = failed (`"Object of type " ++ ty
                       ++ `" is not JSON serializable")).
Proof.
  intros isprintable worker_isprintable worker manager w server_id server
         t pid history tool_name arguments handler
         Hg Ht Hp Hnth Hloop Hhandler Hname Hargs returned failed.
  assert (Hrun : OS.running w pid = true)
    by (unfold OS.running; now rewrite Hnth).
  unfold returned, Manager.call. rewrite Hg, Ht.
  unfold Transport.is_alive. rewrite Hp, Hrun.
  unfold Transport.next_id.
  set (n := (Transport._request_id t + 1)%Z).
  set (t1 := {| Transport.command := Transport.command t;
                Transport.env := Transport.env t;
                Transport._process := Transport._process t;
                Transport._request_id := n |}).
  fold (Startup.tools_call tool_name arguments n).
  pose proof (run_line_tools_call worker_isprintable worker tool_name
                arguments n handler Hname Hargs Hhandler) as Hline.
  assert (Hsend : forall response,
             Server.run_line worker_isprintable worker
               (Transport.to_json (Startup.tools_call tool_name arguments n)
                  ++ Py.newline) []
             = (Return tt, [Server.written (JDict response)]) ->
             fst (Transport.send t1 (Startup.tools_call tool_name arguments n)
                                 w)
             = Transport.from_json (Json.dumps (JDict response))).
  { intros response. now apply (send_to_worker _ _ t1 w pid history). }
  assert (Hfail : forall message,
             Valid.str message = true ->
             Server.run_line worker_isprintable worker
               (Transport.to_json (Startup.tools_call tool_name arguments n)
                  ++ Py.newline) []
             = (Return tt,
                [Server.written
                   (Server.error_response (JInt n) (-32603) message)]) ->
             fst (fst (let (r, w1) :=
                         Transport.send t1
                           (Startup.tools_call tool_name arguments n) w in
                       match r with
                       | Return response =>
                           if Transport.is_error response then
                             (Raise (Exn RuntimeError
                                (`"Tool call failed (" ++ server_id ++ `"/"
                                   ++ tool_name ++ `"): "
                                   ++ Repr.str_ isprintable
                                        (Transport.error response))),
                              Manager.put manager server_id
                                (Manager.set_transport server (Some t1)), w1)
                           else
                             (Return (Transport.result response),
                              Manager.put manager server_id
                                (Manager.set_transport server (Some t1)), w1)
                       | Raise e =>
                           (Raise e,
                            Manager.put manager server_id
                              (Manager.set_transport server (Some t1)), w1)
                       end))
             = failed message).
  { intros message Hmessage Hwritten.
    pose proof (Hsend _ Hwritten) as Hs.
    destruct (Transport.send t1 _ w) as [r w1]. simpl fst in Hs. subst r.
    unfold Transport.from_json.
    rewrite loads_dumps by (now apply valid_error_response).
    reflexivity. }
  split; [|split].
  - intros v Hhandle Hv. rewrite Hhandle in Hline. cbv iota beta in Hline.
    pose proof (Hsend _ Hline) as Hs.
    destruct (Transport.send t1 _ w) as [r w1]. simpl fst in Hs. subst r.
    unfold Transport.from_json.
    rewrite loads_dumps by (now apply valid_success_response).
    reflexivity.
  - intros e Hhandle He. rewrite Hhandle in Hline. cbv iota beta in Hline.
    apply Hfail; assumption.
  - intros ty Hhandle Hty. rewrite Hhandle in Hline. cbv iota beta in Hline.
    apply Hfail; [|exact Hline].
    unfold Valid.str in *. rewrite !forallb_app, Hty. reflexivity.
Qed.


Lemma names_of_schemas handlers :
  Manager.names_of (map Server.get_schema handlers)
  = Return (map (fun h => JStr (Server.name h)) handlers).
Proof.
  induction handlers as [|h handlers IH]; [reflexivity|].
  cbn [map Manager.names_of].
  change (Manager.subscript_name (Server.get_schema h))
    with (@Return json (JStr (Server.name h))).
  cbv iota beta. now rewrite IH.
Qed.

(** X16. [start] discovers the tools of the worker it launches.  When the
    registered command launches a worker script, [start] returns the schemas
    of the worker's handlers, in the order of their registration, caches
    them as the tools of the server, and leaves the server holding a
    transport; the request it sent is [tools/list] with id 1.  The schemas
    are values a Python program can hold. *)
Theorem start_discovers_the_tools :
  forall isprintable worker_isprintable worker manager w server_id server,
    Dict.get (Manager._servers manager) server_id = Some server ->
    OS.launch w (Manager.command server) (Manager.env server)
    = Return (Startup.worker worker_isprintable worker) ->
    let schemas :=
      JList (map Server.get_schema (Dict.values (Server._handlers worker))) in
    Valid.value schemas = true ->
    let '(r, manager', w') :=
      Manager.start isprintable manager server_id w in
    r = Return schemas
    /\ Manager.list_tools manager' server_id = schemas
    /\ In (length (OS.procs w)) (Session.held_pids manager')
    /\ exists line,
         line = Transport.to_json {| Transport.method := `"tools/list";
                                     Transport.params := [];
                                     Transport.id := Transport.IdInt 1 |}
                  ++ Py.newline
         /\ OS.trace w'
            = OS.trace w ++ [ OS.EvPopen (length (OS.procs w));
                              OS.EvWrite (length (OS.procs w)) line;
                              OS.EvReadline (length (OS.procs w)) ].
Proof.
  intros isprintable worker_isprintable worker manager w server_id server
         Hg Hlaunch schemas Hvalid.
  unfold Manager.start. rewrite Hg.
  unfold Transport.start, Transport.__init__. simpl Transport._process.
  cbv iota beta. simpl Transport.command. simpl Transport.env.
  unfold OS.Popen. rewrite Hlaunch.
  set (fresh := length (OS.procs w)).
  set (w1 := OS.log (OS.EvPopen fresh) _).
  unfold Transport.next_id, Transport.set_process. simpl.
  set (t2 := {| Transport.command := Manager.command server;
                Transport.env := Manager.env server;
                Transport._process := Some fresh;
                Transport._request_id := 1 |}).
  set (request := {| Transport.method := `"tools/list";
                     Transport.params := [];
                     Transport.id := Transport.IdInt 1 |}).
  set (server1 := Manager.set_transport server (Some t2)).
  assert (Hnth : nth_error (OS.procs w1) fresh
                 = Some {| OS.image := Startup.worker worker_isprintable worker;
                           OS.state := OS.Running;
                           OS.stdin_lines := [] |}).
  { unfold w1. simpl.
    rewrite nth_error_app2, Nat.sub_diag by (unfold fresh; lia). reflexivity. }
  assert (Hrun : OS.running w1 fresh = true)
    by (unfold OS.running; now rewrite Hnth).
  assert (Hline : Server.run_line worker_isprintable worker
                    (Transport.to_json request ++ Py.newline) []
                  = (Return tt,
                     [Server.written
                        (Server.success_response (JInt 1) schemas)])).
  { pose proof (request_line_loads request eq_refl) as Hloads.
    rewrite (run_line_object worker_isprintable worker _ [] _ Hloads).
    reflexivity. }
  pose proof (send_to_worker worker_isprintable worker t2 w1 fresh [] request
                _ eq_refl Hnth eq_refl Hline) as Hsend.
  pose proof (send_effect t2 request w1 fresh eq_refl Hrun) as Heff.
  destruct (Transport.send t2 request w1) as [r w2].
  simpl fst in Hsend. subst r. destruct Heff as [Htrace _].
  unfold Transport.from_json.
  rewrite loads_dumps by (now apply valid_success_response).
  cbv iota beta.
  change (Transport.is_error _) with false. cbv iota.
  change (Transport.result _) with schemas.
  assert (Hfound : (if Repr.truthy schemas then schemas else JList [])
                   = schemas).
  { unfold schemas.
    destruct (Dict.values (Server._handlers worker)); reflexivity. }
  rewrite Hfound. unfold schemas at 1. cbn [Manager.tool_names].
  rewrite names_of_schemas.
  split; [reflexivity|]. split; [|split].
  - unfold Manager.list_tools. now rewrite put_get_same.
  - apply held_pids_In. eexists _, _.
    split; [apply get_In, put_get_same|]. now left.
  - eexists. split; [reflexivity|].
    rewrite Htrace. unfold w1. simpl. now rewrite <- app_assoc.
Qed.

Lemma start_discovers_the_tools_witness :
  let '(r, manager', w') :=
    Manager.start Example.isprintable Example.registered `"A"
                  Example.world0 in
  r = Return (JList [Server.get_schema Example.EchoTool])
  /\ Manager.list_tools manager' `"A"
     = JList [Server.get_schema Example.EchoTool].
Proof.
  pose proof (start_discovers_the_tools
                Example.isprintable Example.isprintable Example.echo_server
                Example.registered Example.world0 `"A"
                {| Manager.command := Example.echo_command;
                   Manager.transport := None; Manager.env := None;
                   Manager.tools := JList [] |}
                eq_refl eq_refl eq_refl) as H.
  destruct (Manager.start _ _ _ _) as [[r manager'] w'].
  destruct H as (Hr & Htools & _). split; assumption.
Defined.

(* ===================================================================== *)
(** * A transport never leaves a child behind *)
(* ===================================================================== *)

Lemma send_running t request w :
  (forall pid, OS.running (snd (Transport.send t request w)) pid = true ->
               OS.running w pid = true)
  /\ (forall other, Transport._process t <> Some other ->
                    OS.running (snd (Transport.send t request w)) other
                    = OS.running w other).
Proof.
  unfold Transport.send.
  destruct (Transport._process t) as [pid|]; [|split; auto].
  destruct (OS.running w pid) eqn:Hrun; [|split; auto].
  set (line := Transport.to_json request ++ Py.newline).
  pose proof (fun other => running_readline_other (OS.write pid line w)
                             pid other) as Hro.
  destruct (OS.readline pid (OS.write pid line w)) as [a w2].
  simpl snd in Hro.
  assert (Hother : forall other, pid <> other ->
                                 OS.running w2 other = OS.running w other).
  { intros other Hne. rewrite Hro by assumption. apply running_write. }
  assert (Hboth : (forall p, OS.running w2 p = true -> OS.running w p = true)
                  /\ (forall other, Some pid <> Some other ->
                                    OS.running w2 other = OS.running w other)).
  { split.
    - intros p Hp. destruct (Nat.eq_dec pid p) as [<-|Hne]; [assumption|].
      now rewrite <- Hother.
    - intros other Hne. apply Hother. congruence. }
  destruct (Json.is_empty (OS.stdout_line a)); exact Hboth.
Qed.

Lemma running_child_exits w pid :
  OS.running (Session.child_exits pid w) pid = false
  /\ (forall other, pid <> other ->
                    OS.running (Session.child_exits pid w) other
                    = OS.running w other)
  /\ length (OS.procs (Session.child_exits pid w)) = length (OS.procs w).
Proof.
  unfold Session.child_exits. split; [apply running_set_exited|]. split.
  - intros other Hne. now apply running_update_other.
  - simpl. apply length_update.
Qed.

Section NoLeak.

Variable base : nat.
Variable running0 : nat -> bool.

Lemma tidy_stop t w :
  Invariant.tidy base running0 t w ->
  Invariant.tidy base running0 (fst (Transport.stop t w))
                 (snd (Transport.stop t w)).
Proof.
  intros Htidy.
  pose proof (stop_running_other t w) as Hother.
  destruct (Transport._process t) as [pid|] eqn:Hp.
  - destruct Htidy as (Hlen & Hheld & Hrun & Hold).
    pose proof (stop_effect t w pid Hp) as Hs.
    destruct (Transport.stop t w) as [t1 w1]. simpl in *.
    destruct Hs as (Hp1 & Hr1 & Hlen1 & _).
    split; [lia|]. split; [rewrite Hp1; discriminate|]. split.
    + intros p Hbase Hr. destruct (Nat.eq_dec p pid) as [->|Hne];
        [congruence|].
      rewrite Hother in Hr by congruence.
      specialize (Hrun p Hbase Hr). congruence.
    + intros p Hlt. rewrite Hother; [now apply Hold|].
      intros [= ->]. specialize (Hheld p Hp). lia.
  - unfold Transport.stop. rewrite Hp. exact Htidy.
Qed.

Lemma tidy_start t w :
  Invariant.tidy base running0 t w ->
  Invariant.tidy base running0 (snd (fst (Transport.start t w)))
                 (snd (Transport.start t w)).
Proof.
  intros Htidy. unfold Transport.start.
  assert (Hpre : exists t1 w1,
             match Transport._process t with
             | Some pid => if OS.running w pid then Transport.stop t w
                           else (t, w)
             | None => (t, w)
             end = (t1, w1)
             /\ Invariant.tidy base running0 t1 w1
             /\ forall pid, base <= pid -> OS.running w1 pid = false).
  { destruct (Transport._process t) as [pid|] eqn:Hp.
    - destruct (OS.running w pid) eqn:Hr.
      + pose proof (tidy_stop t w Htidy) as Hts.
        pose proof (stop_effect t w pid Hp) as Hs.
        destruct (Transport.stop t w) as [t1 w1]. simpl in Hts.
        exists t1, w1. split; [reflexivity|]. split; [assumption|].
        intros p Hbase. destruct (OS.running w1 p) eqn:Hr1; [|reflexivity].
        destruct Hts as (_ & _ & Hrun1 & _).
        specialize (Hrun1 p Hbase Hr1). destruct Hs as (Hp1 & _). congruence.
      + exists t, w. split; [reflexivity|]. split; [assumption|].
        intros p Hbase. destruct (OS.running w p) eqn:Hr1; [|reflexivity].
        destruct Htidy as (_ & _ & Hrun & _).
        specialize (Hrun p Hbase Hr1). congruence.
    - exists t, w. split; [reflexivity|]. split; [assumption|].
      intros p Hbase. destruct (OS.running w p) eqn:Hr1; [|reflexivity].
      destruct Htidy as (_ & _ & Hrun & _).
      specialize (Hrun p Hbase Hr1). congruence. }
  destruct Hpre as (t1 & w1 & -> & (Hlen & Hheld & Hrun & Hold) & Hnone).
  destruct (OS.Popen (Transport.command t1) (Transport.env t1) w1)
    as [[n|e] w2] eqn:HP; simpl.
  - pose proof (running_Popen_new _ _ _ _ _ HP) as (Hn & Hrn & _ & Hlen2).
    pose proof (fun pid => running_Popen_old _ _ _ _ _ pid HP) as Hkeep.
    subst n. split; [lia|]. split; [|split].
    + intros p [= <-]. lia.
    + intros p Hbase Hr.
      destruct (Nat.eq_dec p (length (OS.procs w1))) as [->|Hne];
        [reflexivity|].
      assert (Hlt : p < length (OS.procs w1)).
      { apply running_lt in Hr. lia. }
      rewrite Hkeep in Hr by assumption.
      rewrite Hnone in Hr by assumption. discriminate.
    + intros p Hlt. rewrite Hkeep by lia. now apply Hold.
  - apply Popen_raise in HP. subst w2. repeat split; auto; now apply Hheld.
Qed.

Lemma tidy_step st o :
  Invariant.tidy base running0 (fst (fst st)) (snd (fst st)) ->
  Invariant.tidy base running0 (fst (fst (Session.transport_step st o)))
       (snd (fst (Session.transport_step st o))).
Proof.
  destruct st as [[t w] ids]. simpl. intros Htidy.
  destruct o; simpl.
  - pose proof (tidy_start t w Htidy) as H.
    now destruct (Transport.start t w) as [[r t'] w'].
  - pose proof (tidy_stop t w Htidy) as H.
    now destruct (Transport.stop t w) as [t' w'].
  - assumption.
  - pose proof (send_running t request w) as [Hmono Hother].
    pose proof (send_length t request w) as Hlen'.
    destruct (Transport.send t request w) as [r w']. simpl in *.
    destruct Htidy as (Hlen & Hheld & Hrun & Hold).
    split; [lia|]. split; [|split].
    + intros p Hp. rewrite Hlen'. now apply Hheld.
    + intros p Hbase Hr. apply Hrun; auto.
    + intros p Hlt. rewrite Hother; [now apply Hold|].
      intros Hp. specialize (Hheld p Hp). lia.
  - destruct Htidy as (Hlen & Hheld & Hrun & Hold).
    repeat split; auto; now apply Hheld.
  - destruct (Transport._process t) as [pid|] eqn:Hp; [|assumption].
    simpl. destruct (running_child_exits w pid) as (Hdead & Hother & Hlen').
    destruct Htidy as (Hlen & Hheld & Hrun & Hold).
    split; [lia|]. split; [|split].
    + intros p Hp'. rewrite Hlen'. now apply Hheld.
    + intros p Hbase Hr. destruct (Nat.eq_dec pid p) as [<-|Hne];
        [congruence|].
      rewrite Hother in Hr by assumption. now apply Hrun.
    + intros p Hlt. rewrite Hother; [now apply Hold|].
      intros <-. specialize (Hheld pid Hp). lia.
Qed.

Lemma tidy_run ops :
  forall st,
    Invariant.tidy base running0 (fst (fst st)) (snd (fst st)) ->
    Invariant.tidy base running0 (fst (fst (Session.transport_run ops st)))
         (snd (fst (Session.transport_run ops st))).
Proof.
  unfold Session.transport_run.
  induction ops as [|o ops IH]; intros st H; simpl; [assumption|].
  apply IH. now apply tidy_step.
Qed.

End NoLeak.

(** X17. A transport never leaves a child behind.  Through any sequence of
    [start], [stop], [is_alive], [send] and [next_id] calls on a new
    transport, with its child exiting at any point in between, the only
    process created since the beginning that can still be running is the
    one the transport holds; every other process it created has been
    stopped or has exited, and the processes that existed before are as
    they were. *)
Theorem a_transport_never_leaves_a_child_behind :
  forall command env w0 ops,
    let '(t, w, _) :=
      Session.transport_run ops (Transport.__init__ command env, w0, []) in
    (forall pid, Transport._process t = Some pid ->
                 length (OS.procs w0) <= pid < length (OS.procs w))
    /\ (forall pid, length (OS.procs w0) <= pid ->
                    OS.running w pid = true ->
                    Transport._process t = Some pid)
    /\ (forall pid, pid < length (OS.procs w0) ->
                    OS.running w pid = OS.running w0 pid).
Proof.
  intros command env w0 ops.
  pose proof (tidy_run (length (OS.procs w0)) (OS.running w0) ops
                       (Transport.__init__ command env, w0, [])) as H.
  destruct (Session.transport_run ops _) as [[t w] ids]. simpl in H.
  destruct H as (_ & Hheld & Hrun & Hold).
  - split; [lia|]. split; [discriminate|]. split; [|reflexivity].
    intros pid Hbase Hr. apply running_lt in Hr. lia.
  - repeat split; try apply Hheld; assumption.
Qed.

(* ===================================================================== *)
(** * The registry only grows *)
(* ===================================================================== *)

Section RegistryKeys.

Variable isprintable : N -> bool.

Lemma call_keys m w k tool arguments :
  Dict.keys (Manager._servers
               (snd (fst (Manager.call isprintable m k tool arguments w))))
  = Dict.keys (Manager._servers m).
Proof.
  unfold Manager.call.
  destruct (Dict.get (Manager._servers m) k) as [s|] eqn:Hg; [|reflexivity].
  destruct (Manager.transport s) as [t|]; [|reflexivity].
  destruct (Transport.is_alive t w); [|reflexivity].
  unfold Transport.next_id.
  destruct (Transport.send _ _ w) as [[response|e] w1]; simpl.
  - destruct (Transport.is_error response); simpl;
      now apply (keys_set_present _ _ _ s).
  - now apply (keys_set_present _ _ _ s).
Qed.

Lemma start_each_servers_keys ids :
  forall results m w,
    Dict.keys (Manager._servers
                 (snd (fst (Manager.start_each isprintable ids results m w))))
    = Dict.keys (Manager._servers m).
Proof.
  induction ids as [|i ids IH]; intros results m w; simpl; [reflexivity|].
  pose proof (start_keys isprintable m w i) as Hk.
  destruct (Manager.start isprintable m i w) as [[[found|e] m'] w'];
    simpl in Hk; now rewrite IH.
Qed.

Lemma stop_all_keys m w :
  Dict.keys (Manager._servers (fst (Manager.stop_all m w)))
  = Dict.keys (Manager._servers m).
Proof.
  unfold Manager.stop_all. generalize (Dict.keys (Manager._servers m)) at 1.
  intros ids. revert m w.
  induction ids as [|i ids IH]; intros m w; simpl; [reflexivity|].
  pose proof (stop_keys m i w) as Hk.
  destruct (Manager.stop m i w) as [m' w']. simpl in Hk.
  now rewrite IH.
Qed.

(** Every call other than [register_server] leaves the ids as they are;
    [register_server] adds its id at the end unless it is there. *)
Lemma step_keys st o :
  Dict.keys (Manager._servers (fst (Session.manager_step isprintable st o)))
  = match o with
    | Session.Register server_id _ _ =>
        if existsb (Py.str_eqb server_id)
                   (Dict.keys (Manager._servers (fst st)))
        then Dict.keys (Manager._servers (fst st))
        else Dict.keys (Manager._servers (fst st)) ++ [server_id]
    | _ => Dict.keys (Manager._servers (fst st))
    end.
Proof.
  destruct st as [m w]. destruct o; simpl.
  - destruct (Dict.get (Manager._servers m) server_id) as [s|] eqn:Hg.
    + rewrite (keys_set_present _ _ _ _ Hg).
      replace (existsb _ _) with true; [reflexivity|].
      symmetry. apply existsb_exists. exists server_id.
      split; [now apply (get_Some_key _ _ s)|apply str_eqb_refl].
    + rewrite (keys_set_absent _ _ _ Hg).
      replace (existsb _ _) with false; [reflexivity|].
      symmetry. apply not_true_is_false. intros Hex.
      apply existsb_exists in Hex as (k & Hin & Heq).
      destruct (str_eqb_spec server_id k) as [<-|]; [|discriminate].
      now apply (proj1 (get_None_not_key _ _) Hg).
  - pose proof (start_keys isprintable m w server_id) as Hk.
    now destruct (Manager.start isprintable m server_id w) as [[r m'] w'].
  - unfold Manager.start_all.
    pose proof (start_each_servers_keys (Dict.keys (Manager._servers m))
                                        [] m w) as Hk.
    now destruct (Manager.start_each _ _ _ _ _) as [[results m'] w'].
  - apply stop_keys.
  - apply stop_all_keys.
  - pose proof (call_keys m w server_id tool_name arguments) as Hk.
    now destruct (Manager.call _ _ _ _ _ _) as [[r m'] w'].
  - reflexivity.
Qed.

End RegistryKeys.

(** X18. The registry only grows.  Through any sequence of calls on a
    manager (and of children exiting in between), every id that was
    registered stays registered, at the same place, and an id is registered
    at the end only if it was at the beginning or one of the calls is a
    [register_server] of it: neither [stop] nor a failed [start] removes a
    registration. *)
Theorem the_registry_only_grows :
  forall isprintable ops self w,
    let (self', w') := Session.manager_run isprintable ops (self, w) in
    (exists added,
        Dict.keys (Manager._servers self')
        = Dict.keys (Manager._servers self) ++ added)
    /\ forall server_id,
         In server_id (Dict.keys (Manager._servers self')) ->
         In server_id (Dict.keys (Manager._servers self))
         \/ exists command env,
              In (Session.Register server_id command env) ops.
Proof.
  intros isprintable ops. unfold Session.manager_run.
  induction ops as [|o ops IH]; intros self w; cbn [fold_left].
  - split; [exists []; now rewrite app_nil_r|]. auto.
  - pose proof (step_keys isprintable (self, w) o) as Hstep.
    destruct (Session.manager_step isprintable (self, w) o) as [self1 w1].
    specialize (IH self1 w1).
    destruct (fold_left (Session.manager_step isprintable) ops (self1, w1))
      as [self' w'].
    destruct IH as [[added Hadded] Hfrom]. simpl in Hstep.
    assert (Hcases : Dict.keys (Manager._servers self1)
                     = Dict.keys (Manager._servers self)
                     \/ exists server_id command env,
                          o = Session.Register server_id command env
                          /\ Dict.keys (Manager._servers self1)
                             = Dict.keys (Manager._servers self)
                                 ++ [server_id]).
    { destruct o; auto.
      destruct (existsb _ _); [now left|]. right. eauto. }
    split.
    + destruct Hcases as [Hsame|(k & c & e & _ & Hnew)].
      * exists added. now rewrite Hadded, Hsame.
      * exists (k :: added). rewrite Hadded, Hnew, <- app_assoc. reflexivity.
    + intros k Hin. destruct (Hfrom k Hin) as [H1|(c & e & Hreg)].
      * destruct Hcases as [Hsame|(k' & c & e & -> & Hnew)].
        -- left. now rewrite <- Hsame.
        -- rewrite Hnew in H1. apply in_app_or in H1 as [H1|[<-|[]]].
           ++ now left.
           ++ right. exists c, e. now left.
      * right. exists c, e. now right.
Qed.

Lemma run_unregistered isprintable ops :
  forall st server_id,
    Dict.get (Manager._servers (fst st)) server_id = None ->
    (forall command env,
        ~ In (Session.Register server_id command env) ops) ->
    Dict.get (Manager._servers
                (fst (Session.manager_run isprintable ops st))) server_id
    = None.
Proof.
  unfold Session.manager_run.
  induction ops as [|o ops IH]; intros st k Hg Hops; [assumption|].
  cbn [fold_left]. apply IH.
  - apply get_None_not_key. rewrite step_keys.
    apply get_None_not_key in Hg.
    destruct o; try assumption.
    destruct (existsb _ _); [assumption|].
    intros Hin. apply in_app_or in Hin as [Hin|[<-|[]]]; [contradiction|].
    apply (Hops command env). now left.
  - intros command env Hin. apply (Hops command env). now right.
Qed.

(** X19. An id that was never registered stays unknown.  Through any
    sequence of calls on the manager, none of which is a [register_server]
    of that id, [start] and [call] on it raise [ValueError] and change
    neither the manager nor any process, [stop] does nothing at all,
    [list_tools] returns the empty list and [is_running] [False]. *)
Theorem an_unregistered_id_stays_unknown :
  forall isprintable ops self w server_id,
    Dict.get (Manager._servers self) server_id = None ->
    (forall command env,
        ~ In (Session.Register server_id command env) ops) ->
    let (self', w') := Session.manager_run isprintable ops (self, w) in
    Manager.start isprintable self' server_id w'
    = (Raise (Exn ValueError (`"Unknown server: " ++ server_id)), self', w')
    /\ (forall tool_name arguments,
           Manager.call isprintable self' server_id tool_name arguments w'
           = (Raise (Exn ValueError (`"Unknown server: " ++ server_id)),
              self', w'))
    /\ Manager.stop self' server_id w' = (self', w')
    /\ Manager.list_tools self' server_id = JList []
    /\ Manager.is_running self' server_id w' = false.
Proof.
  intros isprintable ops self w server_id Hg Hops.
  pose proof (run_unregistered isprintable ops (self, w) server_id Hg Hops)
    as Hg'.
  destruct (Session.manager_run isprintable ops (self, w)) as [self' w'].
  cbn [fst] in Hg'.
  unfold Manager.start, Manager.call, Manager.stop, Manager.list_tools,
         Manager.is_running.
  rewrite Hg'. repeat split.
Qed.

Lemma an_unregistered_id_stays_unknown_witness :
  let (self', w') :=
    Session.manager_run Example.isprintable
                        [ Session.StartAll; Session.Stop `"A" ]
                        (Example.registered, Example.world0) in
  Manager.start Example.isprintable self' `"C" w'
  = (Raise (Exn ValueError `"Unknown server: C"), self', w')
  /\ Manager.stop self' `"C" w' = (self', w').
Proof.
  pose proof (an_unregistered_id_stays_unknown
                Example.isprintable [ Session.StartAll; Session.Stop `"A" ]
                Example.registered Example.world0 `"C" eq_refl) as H.
  destruct (Session.manager_run _ _ _) as [self' w'].
  destruct H as (Hstart & _ & Hstop & _).
  - intros command env [Hin|[Hin|[]]]; discriminate.
  - split; [exact Hstart|exact Hstop].
Defined.

(* ===================================================================== *)
(** * The echo server *)
(* ===================================================================== *)



(* ===================================================================== *)
(** * The bridge to the agent *)
(* ===================================================================== *)

Lemma call_mcp_text isprintable manager server_id tool_name kwargs w :
  fst (fst (Bridge._call_mcp isprintable manager server_id tool_name kwargs w))
  = match fst (fst (Manager.call isprintable manager server_id tool_name
                                 kwargs w)) with
    | Return (JStr s) => s
    | Return result => Bridge.dumps_indent 0 result
    | Raise e =>
        `"Error calling " ++ server_id ++ `"/" ++ tool_name ++ `": "
          ++ exn_str e
    end.
Proof.
  unfold Bridge._call_mcp.
  destruct (Manager.call isprintable manager server_id tool_name kwargs w)
    as [[[result|e] manager'] w']; [|reflexivity].
  destruct result; reflexivity.
Qed.

(** X21. The function the bridge wraps for the agent never raises on a
    server that is not running: for an id that is not registered, and for a
    registered server that is stopped or whose child has exited, it returns
    a text that names the server, the tool and the reason, sends nothing,
    and changes neither the manager nor any process. *)
Theorem call_mcp_reports_a_server_that_is_not_running :
  forall isprintable manager server_id tool_name kwargs w,
    Manager.is_running manager server_id w = false ->
    Bridge._call_mcp isprintable manager server_id tool_name kwargs w
    = (`"Error calling " ++ server_id ++ `"/" ++ tool_name ++ `": "
         ++ match Dict.get (Manager._servers manager) server_id with
            | Some _ =>
                `"Server " ++ server_id
                  ++ `" is not running. Call start() first."
            | None => `"Unknown server: " ++ server_id
            end,
       manager, w).
Proof.
  intros isprintable manager server_id tool_name kwargs w.
  unfold Manager.is_running, Manager.transport_alive, Bridge._call_mcp,
         Manager.call.
  destruct (Dict.get (Manager._servers manager) server_id) as [server|];
    [|reflexivity].
  destruct (Manager.transport server) as [t|]; [|reflexivity].
  now intros ->.
Qed.

Lemma call_mcp_reports_a_server_that_is_not_running_witness :
  Bridge._call_mcp Example.isprintable Example.registered `"A" `"echo" []
                   Example.world0
  = (`"Error calling A/echo: Server A is not running. Call start() first.",
     Example.registered, Example.world0).
Proof.
  exact (call_mcp_reports_a_server_that_is_not_running
           Example.isprintable Example.registered `"A" `"echo" []
           Example.world0 eq_refl).
Defined.



Lemma param_lines_dicts isprintable (params : list (Py.str * json)) :
  Forall (fun kv => exists info, snd kv = JDict info) params ->
  Bridge.param_lines isprintable params
  = Return (map (fun kv =>
                   match snd kv with
                   | JDict info =>
                       `"  - " ++ fst kv ++ `" ("
                         ++ Repr.str_ isprintable
                              (Dict.get_default info `"type" (JStr `"any"))
                         ++ `"): "
                         ++ Repr.str_ isprintable
                              (Dict.get_default info `"description" (JStr []))
                   | _ => []
                   end) params).
Proof.
  induction 1 as [|[pname pinfo] params [info Hinfo] _ IH]; [reflexivity|].
  simpl in Hinfo. subst pinfo. cbn [Bridge.param_lines map].
  unfold Bridge.param_line, Bridge.get_or. cbn [fst snd].
  now rewrite IH.
Qed.

Lemma param_lines_not_dict isprintable (params : list (Py.str * json)) :
  ~ Forall (fun kv => exists info, snd kv = JDict info) params ->
  exists e, Bridge.param_lines isprintable params = Raise e.
Proof.
  induction params as [|[pname pinfo] params IH]; intros Hnot.
  - elim Hnot. constructor.
  - cbn [Bridge.param_lines]. unfold Bridge.param_line, Bridge.get_or.
    destruct pinfo; try (eexists; reflexivity).
    destruct (Bridge.param_lines isprintable params) as [lines|e] eqn:Hlines;
      [|eexists; reflexivity].
    destruct IH as [e He]; [|discriminate].
    intros Hall. apply Hnot. constructor; [now exists d|assumption].
Qed.

(** X23. The prompt instructions generated from the schema of a handler.
    [_auto_prompt_instructions] returns a text for the schema that
    [get_schema] builds exactly when every parameter of the handler is
    described by a dict, and raises otherwise.  The text is a title line
    with the name, the description, an empty line and, when the handler has
    parameters, the line [Parameters:] followed by one line for each
    parameter, in their order, with its name, its type ([any] when there is
    none) and its description. *)
Theorem auto_prompt_instructions_of_a_handler :
  forall isprintable handler,
    let described :=
      Forall (fun kv => exists info, snd kv = JDict info)
             (Server.parameters handler) in
    let line kv :=
      match snd kv with
      | JDict info =>
          `"  - " ++ fst kv ++ `" ("
            ++ Repr.str_ isprintable
                 (Dict.get_default info `"type" (JStr `"any"))
            ++ `"): "
            ++ Repr.str_ isprintable
                 (Dict.get_default info `"description" (JStr []))
      | _ => []
      end in
    (described ->
     Bridge._auto_prompt_instructions isprintable (Server.get_schema handler)
     = Return (Py.join Py.newline
                 ([ `"## Tool: " ++ Server.name handler;
                    Server.description handler; [] ]
                    ++ match Server.parameters handler with
                       | [] => []
                       | params => `"Parameters:" :: map line params
                       end)))
    /\ (~ described ->
        exists e,
          Bridge._auto_prompt_instructions isprintable
                                           (Server.get_schema handler)
          = Raise e).
Proof.
  intros isprintable handler described line.
  unfold Bridge._auto_prompt_instructions, Server.get_schema, Bridge.get_or.
  change (Dict.get_default _ `"name" (JStr `"unknown"))
    with (JStr (Server.name handler)).
  change (Dict.get_default _ `"description" (JStr []))
    with (JStr (Server.description handler)).
  change (Dict.get_default _ `"parameters" (JDict []))
    with (JDict [ (`"type", JStr `"object");
                  (`"properties", JDict (Server.parameters handler)) ]).
  cbv iota beta.
  change (Dict.get_default _ `"properties" (JDict []))
    with (JDict (Server.parameters handler)).
  unfold Bridge.items, described. cbn [Repr.truthy Repr.str_].
  destruct (Server.parameters handler) as [|kv params] eqn:Hparams.
  - split; [reflexivity|]. intros Hnot. elim Hnot. constructor.
  - cbn [Json.is_empty negb]. cbv iota. split.
    + intros Hall. now rewrite (param_lines_dicts isprintable _ Hall).
    + intros Hnot.
      destruct (param_lines_not_dict isprintable _ Hnot) as [e ->].
      eexists. reflexivity.
Qed.

Lemma auto_prompt_instructions_of_a_handler_witness :
  Bridge._auto_prompt_instructions Example.isprintable
                                   (Server.get_schema Example.EchoTool)
  = Return (Py.join Py.newline
              [ `"## Tool: echo";
                `"Echoes back the input message. Useful for testing.";
                [];
                `"Parameters:";
                `"  - message (string): The message to echo back" ]).
Proof.
  exact (proj1 (auto_prompt_instructions_of_a_handler
                  Example.isprintable Example.EchoTool)
               ltac:(repeat constructor; eexists; reflexivity)).
Defined.

(* ===================================================================== *)
(** * Starting the servers of [run_agent.py] *)
(* ===================================================================== *)

Section StartServers.

Variable isprintable : N -> bool.
Variable executable : Py.str.

(** [start] keeps the command and the environment of the registration, and
    what it returns is what it has cached. *)
Lemma start_registration m w k s :
  Dict.get (Manager._servers m) k = Some s ->
  exists s',
    Dict.get (Manager._servers (snd (fst (Manager.start isprintable m k w)))) k
    = Some s'
    /\ Manager.command s' = Manager.command s
    /\ Manager.env s' = Manager.env s
    /\ forall found,
         fst (fst (Manager.start isprintable m k w)) = Return found ->
         Manager.tools s' = found.
Proof.
  intros Hg. unfold Manager.start. rewrite Hg.
  repeat (break_match || break_let); cbn [fst snd];
    eexists; (split; [first [apply put_get_same|eassumption]|]);
    repeat split; try discriminate; now intros found [= <-].
Qed.

Lemma start_each_registry ids :
  forall all_tools manager w,
    NoDup ids ->
    let '(all_tools', manager', w') :=
      RunAgent.start_each isprintable executable ids all_tools manager w in
    (forall sid tools,
        Dict.get all_tools' sid = Some tools ->
        Dict.get all_tools sid = Some tools
        \/ (In sid ids /\ Manager.list_tools manager' sid = tools))
    /\ (forall sid,
           Dict.get (RunAgent.MCP_SERVERS executable) sid = None
           \/ ~ In sid ids ->
           Dict.get (Manager._servers manager') sid
           = Dict.get (Manager._servers manager) sid)
    /\ (forall sid command,
           In sid ids ->
           Dict.get (RunAgent.MCP_SERVERS executable) sid = Some command ->
           exists s,
             Dict.get (Manager._servers manager') sid = Some s
             /\ Manager.command s = command /\ Manager.env s = None).
Proof.
  induction ids as [|i ids IH]; intros all_tools manager w Hnd.
  - simpl. split; [auto|]. split; [auto|]. intros ? ? [].
  - inversion Hnd as [|? ? Hi Hnd']; subst. cbn [RunAgent.start_each].
    destruct (Dict.get (RunAgent.MCP_SERVERS executable) i) as [command|]
      eqn:Hknown.
    + set (manager1 := snd (Manager.register_server manager i command None)).
      assert (Hg1 : Dict.get (Manager._servers manager1) i
                    = Some {| Manager.command := command;
                              Manager.transport := None;
                              Manager.env := None;
                              Manager.tools := JList [] |})
        by apply put_get_same.
      destruct (start_registration manager1 w i _ Hg1)
        as (s' & Hg2 & Hcommand & Henv & Htools).
      pose proof (fun k => start_get_other isprintable manager1 w i k) as Ho.
      destruct (Manager.start isprintable manager1 i w) as [[r manager2] w2].
      cbn [fst snd] in *.
      assert (Hstep : forall all_tools1,
                 (all_tools1 = all_tools
                  \/ exists found,
                       r = Return found
                       /\ all_tools1 = Dict.set all_tools i found) ->
                 let '(all_tools', manager', w') :=
                   RunAgent.start_each isprintable executable ids all_tools1
                                       manager2 w2 in
                 (forall sid tools,
                     Dict.get all_tools' sid = Some tools ->
                     Dict.get all_tools sid = Some tools
                     \/ (In sid (i :: ids)
                         /\ Manager.list_tools manager' sid = tools))
                 /\ (forall sid,
                        Dict.get (RunAgent.MCP_SERVERS executable) sid = None
                        \/ ~ In sid (i :: ids) ->
                        Dict.get (Manager._servers manager') sid
                        = Dict.get (Manager._servers manager) sid)
                 /\ (forall sid command0,
                        In sid (i :: ids) ->
                        Dict.get (RunAgent.MCP_SERVERS executable) sid
                        = Some command0 ->
                        exists s,
                          Dict.get (Manager._servers manager') sid = Some s
                          /\ Manager.command s = command0
                          /\ Manager.env s = None)).
      { intros all_tools1 Hall. specialize (IH all_tools1 manager2 w2 Hnd').
        destruct (RunAgent.start_each _ _ ids all_tools1 manager2 w2)
          as [[all_tools' manager'] w'].
        destruct IH as (Hfrom & Hother & Hreg).
        assert (Hi' : Dict.get (Manager._servers manager') i = Some s')
          by (rewrite Hother; [assumption|now right]).
        split; [|split].
        - intros sid tools Hsid.
          destruct (Hfrom sid tools Hsid) as [H1|[Hin Htl]];
            [|right; split; [now right|assumption]].
          destruct Hall as [->|(found & -> & ->)]; [now left|].
          destruct (str_eqb_spec i sid) as [<-|Hne].
          + rewrite get_set_same in H1. injection H1 as <-.
            right. split; [now left|].
            unfold Manager.list_tools. rewrite Hi'. now apply Htools.
          + rewrite get_set_other in H1 by assumption. now left.
        - intros sid Hsid.
          assert (Hne : i <> sid).
          { intros <-. destruct Hsid as [H1|H1]; [congruence|].
            apply H1. now left. }
          rewrite Hother, Ho by (try assumption; simpl in Hsid; tauto).
          unfold manager1. cbn [snd Manager.register_server].
          now apply put_get_other.
        - intros sid command0 [<-|Hin] Hc.
          + exists s'. rewrite Hcommand, Henv. cbn.
            split; [assumption|]. split; congruence.
          + now apply Hreg. }
      destruct r as [tools|e]; [|apply Hstep; now left].
      destruct (Manager.tool_names tools); apply Hstep;
        [right; now exists tools|now left].
    + specialize (IH all_tools manager w Hnd').
      destruct (RunAgent.start_each _ _ ids all_tools manager w)
        as [[all_tools' manager'] w'].
      destruct IH as (Hfrom & Hother & Hreg). split; [|split].
      * intros sid tools Hsid.
        destruct (Hfrom sid tools Hsid) as [H1|[Hin Htl]]; [now left|].
        right. split; [now right|assumption].
      * intros sid [Hsid|Hsid]; apply Hother; [now left|].
        right. intros Hin. apply Hsid. now right.
      * intros sid command [<-|Hin] Hc; [congruence|now apply Hreg].
Qed.

End StartServers.

(** X24. [start_mcp_servers] of [run_agent.py], asked for ids without
    repetition ([None] and the empty list both stand for every server of
    [MCP_SERVERS]).  Each entry of the result belongs to an id asked for and
    holds the tools the manager has cached for that server.  An id that
    [MCP_SERVERS] does not know is skipped: its registration, if any, is
    left as it was, like that of every id not asked for.  Every known id
    asked for is registered afterwards with the command of [MCP_SERVERS]
    and no environment, whether or not its server could be started. *)
Theorem start_mcp_servers_registers_and_reports :
  forall isprintable executable manager server_ids w,
    let requested :=
      match server_ids with
      | Some (sid :: rest) => sid :: rest
      | _ => Dict.keys (RunAgent.MCP_SERVERS executable)
      end in
    NoDup requested ->
    let '(all_tools, manager', w') :=
      RunAgent.start_mcp_servers isprintable executable manager server_ids
                                 w in
    (forall sid tools,
        Dict.get all_tools sid = Some tools ->
        In sid requested /\ Manager.list_tools manager' sid = tools)
    /\ (forall sid,
           Dict.get (RunAgent.MCP_SERVERS executable) sid = None
           \/ ~ In sid requested ->
           Dict.get (Manager._servers manager') sid
           = Dict.get (Manager._servers manager) sid)
    /\ (forall sid command,
           In sid requested ->
           Dict.get (RunAgent.MCP_SERVERS executable) sid = Some command ->
           exists s,
             Dict.get (Manager._servers manager') sid = Some s
             /\ Manager.command s = command /\ Manager.env s = None).
Proof.
  intros isprintable executable manager server_ids w requested Hnd.
  unfold RunAgent.start_mcp_servers. fold requested.
  pose proof (start_each_registry isprintable executable requested []
                                  manager w Hnd) as H.
  destruct (RunAgent.start_each _ _ requested [] manager w)
    as [[all_tools manager'] w'].
  destruct H as (Hfrom & Hother & Hreg). split; [|split; assumption].
  intros sid tools Hsid.
  destruct (Hfrom sid tools Hsid) as [H1|H1]; [discriminate|assumption].
Qed.

Lemma start_mcp_servers_registers_and_reports_witness :
  let '(all_tools, manager', w') :=
    RunAgent.start_mcp_servers Example.isprintable `"python"
                               Manager.__init__ (Some [ `"echo"; `"nope" ])
                               Example.world0 in
  (forall tools, Dict.get all_tools `"echo" = Some tools ->
                 Manager.list_tools manager' `"echo" = tools)
  /\ Dict.get (Manager._servers manager') `"nope" = None
  /\ exists s, Dict.get (Manager._servers manager') `"echo" = Some s
               /\ Manager.command s = Example.echo_command.
Proof.
  pose proof (start_mcp_servers_registers_and_reports
                Example.isprintable `"python" Manager.__init__
                (Some [ `"echo"; `"nope" ]) Example.world0
                ltac:(apply distinct_NoDup; reflexivity)) as H.
  destruct (RunAgent.start_mcp_servers _ _ _ _ _)
    as [[all_tools manager'] w'].
  destruct H as (Hfrom & Hother & Hreg). split; [|split].
  - intros tools Htools. now apply (Hfrom `"echo" tools).
  - exact (Hother `"nope" (or_introl eq_refl)).
  - destruct (Hreg `"echo" Example.echo_command (or_introl eq_refl) eq_refl)
      as (s & Hs & Hc & _).
    now exists s.
Defined.

(* ===================================================================== *)
(** * One line, one message *)
(* ===================================================================== *)

Section Framing.

Local Open Scope N_scope.

Lemma plain_app a b : Wire.plain (a ++ b) = Wire.plain a && Wire.plain b.
Proof. apply forallb_app. Qed.

Lemma plain_digits ds :
  Forall (fun c => Json.is_digit c = true) ds -> Wire.plain ds = true.
Proof.
  induction 1 as [|c ds Hc _ IH]; [reflexivity|]. simpl. rewrite IH.
  unfold Json.is_digit in Hc. apply andb_true_iff in Hc as [H1 H2].
  apply N.leb_le in H1, H2. unfold Wire.printable.
  rewrite andb_true_r. apply andb_true_iff; split; apply N.leb_le; lia.
Qed.

Lemma plain_str_of_Z z : Wire.plain (Py.str_of_Z z) = true.
Proof.
  destruct z; unfold Py.str_of_Z;
    try (apply plain_digits, str_of_N_digits).
  change (Wire.plain (45 :: Py.str_of_N (N.pos p)))
    with (Wire.printable 45 && Wire.plain (Py.str_of_N (N.pos p))).
  now rewrite (plain_digits _ (str_of_N_digits (N.pos p))).
Qed.

Lemma printable_hex_digit d :
  d < 16 -> Wire.printable (Json.hex_digit d) = true.
Proof.
  intros Hd. unfold Json.hex_digit, Wire.printable.
  destruct (d <? 10) eqn:E; apply andb_true_iff; split; apply N.leb_le;
    try (apply N.ltb_lt in E); try (apply N.ltb_ge in E); lia.
Qed.

Lemma plain_hex4 n : Wire.plain (Json.hex4 n) = true.
Proof.
  unfold Json.hex4, Wire.plain. cbn [forallb].
  rewrite !printable_hex_digit by (apply N.mod_lt; lia). reflexivity.
Qed.

Lemma plain_u_escape n : Wire.plain (Json.u_escape n) = true.
Proof.
  unfold Json.u_escape.
  change (Wire.plain (92 :: 117 :: Json.hex4 n))
    with (Wire.printable 92
          && (Wire.printable 117 && Wire.plain (Json.hex4 n))).
  now rewrite plain_hex4.
Qed.

Lemma plain_escape_char c : Wire.plain (Json.escape_char c) = true.
Proof.
  unfold Json.escape_char.
  repeat match goal with
         | |- context [if ?b then _ else _] =>
             lazymatch b with
             | (_ && _) => fail
             | (_ <? _) => fail
             | _ => destruct b; [reflexivity|]
             end
         end.
  destruct ((32 <=? c) && (c <=? 126)) eqn:E.
  - unfold Wire.plain, Wire.printable. cbn [forallb]. now rewrite E.
  - destruct (c <? 65536); [apply plain_u_escape|].
    rewrite plain_app, !plain_u_escape. reflexivity.
Qed.

Lemma plain_encode_str s : Wire.plain (Json.encode_str s) = true.
Proof.
  unfold Json.encode_str.
  change (Wire.plain (34 :: flat_map Json.escape_char s ++ [34]))
    with (Wire.printable 34
          && Wire.plain (flat_map Json.escape_char s ++ [34])).
  rewrite plain_app. change (Wire.plain [34]) with true.
  rewrite andb_true_r. cbn [andb Wire.printable].
  change (Wire.printable 34) with true. cbv iota.
  induction s as [|c s IH]; [reflexivity|].
  cbn [flat_map]. now rewrite plain_app, plain_escape_char, IH.
Qed.

Lemma plain_join sep parts :
  Wire.plain sep = true ->
  Forall (fun p => Wire.plain p = true) parts ->
  Wire.plain (Py.join sep parts) = true.
Proof.
  intros Hsep. induction 1 as [|p parts Hp Hparts IH]; [reflexivity|].
  destruct parts as [|q parts]; [exact Hp|].
  change (Py.join sep (p :: q :: parts))
    with (p ++ sep ++ Py.join sep (q :: parts)).
  now rewrite !plain_app, Hp, Hsep, IH.
Qed.

(** The encoder writes printable ASCII only. *)
Lemma dumps_plain v :
  Wire.plain_floats v = true -> Wire.plain (Json.dumps v) = true.
Proof.
  induction v as [|b|n|text|s|items IH|d IH] using json_nested_ind;
    intros Hv.
  - reflexivity.
  - now destruct b.
  - apply plain_str_of_Z.
  - exact Hv.
  - apply plain_encode_str.
  - cbn [Json.dumps]. rewrite !plain_app.
    change (Wire.plain `"[") with true. change (Wire.plain `"]") with true.
    rewrite andb_true_r. cbn [andb]. apply plain_join; [reflexivity|].
    cbn [Wire.plain_floats] in Hv. rewrite forallb_forall in Hv.
    apply Forall_forall. intros p Hp. apply in_map_iff in Hp as (x & <- & Hx).
    apply (proj1 (Forall_forall _ _) IH x Hx). now apply Hv.
  - cbn [Json.dumps]. rewrite !plain_app.
    change (Wire.plain `"{") with true. change (Wire.plain `"}") with true.
    rewrite andb_true_r. cbn [andb]. apply plain_join; [reflexivity|].
    cbn [Wire.plain_floats] in Hv. rewrite forallb_forall in Hv.
    apply Forall_forall. intros p Hp. apply in_map_iff in Hp as (x & <- & Hx).
    rewrite !plain_app, plain_encode_str.
    change (Wire.plain `": ") with true. cbn [andb].
    apply (proj1 (Forall_forall _ _) IH x Hx). now apply Hv.
Qed.

Lemma span_digits_digits s :
  Forall (fun c => Json.is_digit c = true) (fst (Json.span_digits s)).
Proof.
  induction s as [|c s IH]; [constructor|]. cbn [Json.span_digits].
  destruct (Json.is_digit c) eqn:E; [|constructor].
  destruct (Json.span_digits s). now constructor.
Qed.

Lemma span_digits_plain s : Wire.plain (fst (Json.span_digits s)) = true.
Proof. apply plain_digits, span_digits_digits. Qed.

Lemma match_number_plain s i f e r :
  Json.match_number s = Some (i, f, e, r) -> Wire.plain (i ++ f ++ e) = true.
Proof.
  unfold Json.match_number.
  destruct (Json.match_integer s) as [[i' s1]|] eqn:Hi; [|discriminate].
  assert (H1 : Wire.plain i' = true).
  { unfold Json.match_integer in Hi.
    assert (Hbody : forall sign s1',
               Wire.plain sign = true ->
               match s1' with
               | d :: r0 =>
                   if d =? 48 then Some (sign ++ [48], r0)
                   else if Json.is_digit d
                        then let (ds, rest) := Json.span_digits r0 in
                             Some (sign ++ d :: ds, rest)
                        else None
               | [] => None
               end = Some (i', s1) -> Wire.plain i' = true).
    { intros sign s1' Hsign. destruct s1' as [|d r0]; [discriminate|].
      destruct (d =? 48); [intros [= <- _]; now rewrite plain_app, Hsign|].
      destruct (Json.is_digit d) eqn:Hd; [|discriminate].
      pose proof (span_digits_digits r0) as Hds.
      destruct (Json.span_digits r0) as [ds rest]. intros [= <- _].
      rewrite plain_app, Hsign. apply plain_digits. now constructor. }
    destruct s as [|c s]; [discriminate|].
    destruct (c =? 45).
    - apply (Hbody [45] s); [reflexivity|exact Hi].
    - apply (Hbody [] (c :: s)); [reflexivity|exact Hi]. }
  assert (H2 : Wire.plain (fst (Json.match_frac s1)) = true).
  { unfold Json.match_frac. destruct s1 as [|c s1]; [reflexivity|].
    destruct (c =? 46); [|reflexivity].
    pose proof (span_digits_plain s1) as Hds.
    destruct (Json.span_digits s1) as [[|d ds] rest]; [reflexivity|].
    cbn [fst] in *.
    change (Wire.plain (46 :: d :: ds))
      with (Wire.printable 46 && Wire.plain (d :: ds)).
    now rewrite Hds. }
  destruct (Json.match_frac s1) as [f' s2]. cbn [fst] in H2.
  assert (H3 : Wire.plain (fst (Json.match_exp s2)) = true).
  { unfold Json.match_exp. destruct s2 as [|c s2]; [reflexivity|].
    destruct ((c =? 101) || (c =? 69)) eqn:Hc; [|reflexivity].
    assert (Hpc : Wire.printable c = true).
    { apply orb_true_iff in Hc as [Hc|Hc]; apply N.eqb_eq in Hc; now subst. }
    assert (Hsign : forall sign r1,
               Wire.plain sign = true ->
               Wire.plain (fst match Json.span_digits r1 with
                               | ([], _) => ([], c :: s2)
                               | (ds, rest) => (c :: sign ++ ds, rest)
                               end) = true).
    { intros sign r1 Hs. pose proof (span_digits_plain r1) as Hds.
      destruct (Json.span_digits r1) as [[|d ds] rest]; [reflexivity|].
      cbn [fst] in *.
      change (Wire.plain (c :: sign ++ d :: ds))
        with (Wire.printable c && Wire.plain (sign ++ d :: ds)).
      now rewrite Hpc, plain_app, Hs, Hds. }
    destruct s2 as [|g r']; [now apply Hsign|].
    destruct ((g =? 45) || (g =? 43)) eqn:Hg; [|now apply Hsign].
    apply Hsign.
    apply orb_true_iff in Hg as [Hg|Hg]; apply N.eqb_eq in Hg; now subst. }
  destruct (Json.match_exp s2) as [e' s3]. cbn [fst] in H3.
  intros [= <- <- <- _]. now rewrite !plain_app, H1, H2, H3.
Qed.

Lemma of_pairs_plain (pairs : list (Py.str * json)) :
  Forall (fun kv => Wire.plain_floats (snd kv) = true) pairs ->
  Forall (fun kv => Wire.plain_floats (snd kv) = true) (Dict.of_pairs pairs).
Proof.
  unfold Dict.of_pairs.
  assert (H : forall acc,
             Forall (fun kv => Wire.plain_floats (snd kv) = true) acc ->
             Forall (fun kv => Wire.plain_floats (snd kv) = true) pairs ->
             Forall (fun kv => Wire.plain_floats (snd kv) = true)
                    (fold_left (fun d kv => Dict.set d (fst kv) (snd kv))
                               pairs acc)).
  { induction pairs as [|[k v] pairs IH]; intros acc Hacc Hall; [assumption|].
    inversion Hall as [|? ? Hv Hrest]; subst. cbn [fold_left fst snd].
    apply IH; [|assumption]. apply Forall_set; [assumption|].
    intros k' _. exact Hv. }
  intros Hall. apply H; [constructor|assumption].
Qed.

Lemma plain_dict (d : list (Py.str * json)) :
  Forall (fun kv => Wire.plain_floats (snd kv) = true) d ->
  Wire.plain_floats (JDict d) = true.
Proof.
  intros H. cbn [Wire.plain_floats]. apply forallb_forall.
  intros kv Hkv. now apply (proj1 (Forall_forall _ _) H).
Qed.

Lemma plain_list (items : list json) :
  Forall (fun v => Wire.plain_floats v = true) items ->
  Wire.plain_floats (JList items) = true.
Proof.
  intros H. cbn [Wire.plain_floats]. apply forallb_forall.
  intros v Hv. now apply (proj1 (Forall_forall _ _) H).
Qed.

(** The float texts of a decoded value are the texts of numbers. *)
Lemma scan_plain fuel :
  (forall s v rest,
      Json.scan_once fuel s = Json.Scanned v rest ->
      Wire.plain_floats v = true)
  /\ (forall s acc v rest,
         Forall (fun v => Wire.plain_floats v = true) acc ->
         Json.array_items fuel s acc = Json.Scanned v rest ->
         Wire.plain_floats v = true)
  /\ (forall s start acc v rest,
         Forall (fun kv => Wire.plain_floats (snd kv) = true) acc ->
         Json.object_items fuel s start acc = Json.Scanned v rest ->
         Wire.plain_floats v = true).
Proof.
  induction fuel as [|fuel (IHscan & IHarray & IHobject)].
  { repeat split; intros; discriminate. }
  split; [|split].
  - intros s v rest. cbn [Json.scan_once].
    destruct s as [|c r]; [discriminate|].
    destruct (c =? 34).
    { destruct (Json.scanstring _ r); try discriminate. now intros [= <- _]. }
    destruct (c =? 123).
    { destruct (Json.skip_ws r) as [|c1 r1]; [discriminate|].
      destruct (c1 =? 125); [now intros [= <- _]|].
      destruct (c1 =? 34); [|discriminate].
      apply IHobject. constructor. }
    destruct (c =? 91).
    { destruct (Json.skip_ws r) as [|c1 r1]; [discriminate|].
      destruct (c1 =? 93); [now intros [= <- _]|].
      apply IHarray. constructor. }
    destruct (Py.startswith (c :: r) `"null"); [now intros [= <- _]|].
    destruct (Py.startswith (c :: r) `"true"); [now intros [= <- _]|].
    destruct (Py.startswith (c :: r) `"false"); [now intros [= <- _]|].
    destruct (Json.match_number (c :: r)) as [[[[i f] e] rest']|] eqn:Hm.
    { apply match_number_plain in Hm.
      destruct (Json.is_empty f && Json.is_empty e); now intros [= <- _]. }
    destruct (Py.startswith (c :: r) `"NaN"); [now intros [= <- _]|].
    destruct (Py.startswith (c :: r) `"Infinity"); [now intros [= <- _]|].
    destruct (Py.startswith (c :: r) `"-Infinity"); [now intros [= <- _]|].
    discriminate.
  - intros s acc v rest Hacc. cbn [Json.array_items].
    destruct (Json.scan_once fuel s) as [x r| | |] eqn:Hx; try discriminate.
    apply IHscan in Hx.
    destruct (Json.skip_ws r) as [|c r1]; [discriminate|].
    destruct (c =? 93).
    { intros [= <- _]. apply plain_list.
      change (rev acc ++ [x]) with (rev (x :: acc)).
      apply Forall_rev. now constructor. }
    destruct (c =? 44); [|discriminate].
    apply IHarray. now constructor.
  - intros s start acc v rest Hacc. cbn [Json.object_items].
    destruct (Json.scanstring start s) as [key r| | |]; try discriminate.
    destruct (Json.skip_ws r) as [|c r1]; [discriminate|].
    destruct (c =? 58); [|discriminate].
    destruct (Json.scan_once fuel (Json.skip_ws r1)) as [x r2| | |] eqn:Hx;
      try discriminate.
    apply IHscan in Hx.
    destruct (Json.skip_ws r2) as [|c2 r3]; [discriminate|].
    destruct (c2 =? 125).
    { intros [= <- _]. apply plain_dict, of_pairs_plain.
      change (rev acc ++ [(key, x)]) with (rev ((key, x) :: acc)).
      apply Forall_rev. now constructor. }
    destruct (c2 =? 44); [|discriminate].
    destruct (Json.skip_ws r3) as [|c3 r4]; [discriminate|].
    destruct (c3 =? 34); [|discriminate].
    apply IHobject. now constructor.
Qed.

Lemma loads_plain s v : Json.loads s = Return v -> Wire.plain_floats v = true.
Proof.
  unfold Json.loads.
  destruct (Py.startswith s [65279]); [discriminate|].
  destruct (Json.scan_once _ (Json.skip_ws s)) as [x r| | |] eqn:Hx;
    try discriminate.
  apply (proj1 (scan_plain _)) in Hx.
  destruct (Json.skip_ws r); [now intros [= <-]|discriminate].
Qed.

End Framing.

Lemma plain_get_default (d : list (Py.str * json)) k default :
  Wire.plain_floats (JDict d) = true ->
  Wire.plain_floats default = true ->
  Wire.plain_floats (Dict.get_default d k default) = true.
Proof.
  intros Hd Hdefault. unfold Dict.get_default.
  destruct (Dict.get d k) as [v|] eqn:Hg; [|assumption].
  cbn [Wire.plain_floats] in Hd. rewrite forallb_forall in Hd.
  exact (Hd (k, v) (get_In _ _ _ Hg)).
Qed.

Lemma written_one_line response :
  Wire.plain_floats response = true ->
  Wire.one_line (Server.written response).
Proof.
  intros H. exists (Json.dumps response).
  split; [reflexivity|now apply dumps_plain].
Qed.

Section ResponseLines.

Variable isprintable : N -> bool.
Variable self : Server.StdioToolServer.
Hypothesis Hhandlers : Wire.plain_handlers self.

Lemma dispatch_plain method params v :
  Wire.plain_floats params = true ->
  Server._dispatch isprintable self method params
  = Return (Server.Encodable v) ->
  Wire.plain_floats v = true.
Proof.
  intros Hparams0. unfold Server._dispatch.
  destruct (Repr.eq_str method `"ping").
  { intros [= <-]. cbn [Wire.plain_floats forallb snd andb].
    rewrite andb_true_r. apply forallb_forall.
    intros x Hx. apply in_map_iff in Hx as (k & <- & _). reflexivity. }
  destruct (Repr.eq_str method `"tools/list").
  { intros [= <-]. cbn [Wire.plain_floats]. apply forallb_forall.
    intros x Hx. apply in_map_iff in Hx as (h & <- & Hh).
    unfold Dict.values in Hh. apply in_map_iff in Hh as ([k h'] & <- & Hin).
    destruct (Hhandlers k h' Hin) as [Hparams _].
    unfold Server.get_schema. cbn [Wire.plain_floats forallb snd andb].
    cbn [Wire.plain_floats] in Hparams. cbn [snd]. now rewrite Hparams. }
  destruct (Repr.eq_str method `"tools/call"); [|discriminate].
  destruct params; try discriminate.
  unfold Server.handlers_get.
  destruct (Dict.get_default d `"name" (JStr [])); try discriminate.
  destruct (Dict.get (Server._handlers self) s) as [handler|] eqn:Hg;
    [|discriminate].
  intros Hhandle.
  refine (proj2 (Hhandlers s handler (get_In _ _ _ Hg)) _ _ _ Hhandle).
  now apply plain_get_default.
Qed.

(** One iteration writes nothing, or one line of printable ASCII. *)
Lemma run_line_one_line line out :
  snd (Server.run_line isprintable self line out) = out
  \/ exists response,
       snd (Server.run_line isprintable self line out)
       = out ++ [Server.written response]
       /\ Wire.plain_floats response = true.
Proof.
  destruct (Json.loads (Py.strip line)) as [request|e] eqn:Hloads.
  - destruct request as [| | | | | |r];
      try (left; unfold Server.run_line;
           rewrite (loads_not_blank _ _ Hloads), Hloads; reflexivity).
    right. rewrite (run_line_object isprintable self line out r Hloads).
    eexists. split; [reflexivity|].
    pose proof (loads_plain _ _ Hloads) as Hr.
    assert (Hid : Wire.plain_floats (Dict.get_default r `"id" JNull) = true)
      by (now apply plain_get_default).
    destruct (Server._dispatch isprintable self _ _) as [[v|ty]|e] eqn:Hd.
    + apply dispatch_plain in Hd; [|now apply plain_get_default].
      unfold Server.success_response.
      cbn [Wire.plain_floats forallb snd andb]. now rewrite Hid, Hd.
    + unfold Server.error_response.
      cbn [Wire.plain_floats forallb snd andb]. now rewrite Hid.
    + unfold Server.error_response.
      cbn [Wire.plain_floats forallb snd andb]. now rewrite Hid.
  - unfold Server.run_line.
    destruct (Json.is_empty (Py.strip line)); [now left|].
    rewrite Hloads. destruct (is_JSONDecodeError e); [|now left].
    right. eexists. split; reflexivity.
Qed.

Lemma run_from_one_line lines :
  forall out,
    Forall Wire.one_line out ->
    Forall Wire.one_line (snd (Server.run_from isprintable self lines out)).
Proof.
  induction lines as [|line lines IH]; intros out Hout; [assumption|].
  cbn [Server.run_from].
  pose proof (run_line_one_line line out) as Hline.
  destruct (Server.run_line isprintable self line out) as [[[]|e] out'];
    cbn [snd] in *.
  - apply IH. destruct Hline as [->|(response & -> & Hplain)]; [assumption|].
    apply Forall_app. split; [assumption|].
    constructor; [now apply written_one_line|constructor].
  - destruct Hline as [->|(response & -> & Hplain)]; [assumption|].
    apply Forall_app. split; [assumption|].
    constructor; [now apply written_one_line|constructor].
Qed.

End ResponseLines.



(** X26. One line, one response.  Whatever lines the worker reads, well
    formed or not, everything it writes is a sequence of messages, each one
    printable ASCII (U+0020 to U+007E) followed by the line terminator: no
    response is ever split over two lines by a line break in a result, in
    an error message or in an id.  (The float texts of the handlers'
    parameters and results are plain, as they are for every Python
    float.) *)
Theorem run_writes_one_line_per_response :
  forall isprintable self lines,
    Wire.plain_handlers self ->
    Forall Wire.one_line (snd (Server.run isprintable self lines)).
Proof.
  intros isprintable self lines Hhandlers. unfold Server.run.
  apply run_from_one_line; [assumption|constructor].
Qed.

Lemma run_writes_one_line_per_response_witness :
  Forall Wire.one_line
         (snd (Server.run Example.isprintable Example.echo_server
                          Example.two_requests)).
Proof.
  apply run_writes_one_line_per_response.
  intros k handler [[= <- <-]|[]]. split; [reflexivity|].
  intros arguments v Harguments. cbn [Server.handle Example.EchoTool].
  destruct arguments as [| | | | | |p]; try discriminate.
  pose proof (plain_get_default p `"message" (JStr []) Harguments eq_refl)
    as Hmessage.
  destruct (Dict.get_default p `"message" (JStr [])); try discriminate;
    intros [= <-]; cbn [Wire.plain_floats forallb snd andb];
    cbn [Wire.plain_floats] in Hmessage; now rewrite ?Hmessage.
Defined.

(* ===================================================================== *)
(** * A client that checks [is_running] never leaks *)
(* ===================================================================== *)

Lemma set_In_other {V} (d : Dict.t V) k v k' v' :
  In (k', v') d -> k' <> k -> In (k', v') (Dict.set d k v).
Proof.
  intros Hin Hne. induction d as [|[k0 v0] d IH]; [contradiction|].
  simpl. destruct (str_eqb_spec k0 k) as [->|Hk0].
  - destruct Hin as [[= <- <-]|Hin]; [congruence|now right].
  - destruct Hin as [Hin|Hin]; [now left|right; now apply IH].
Qed.

Lemma is_running_false_pids m k w s pid :
  Manager.is_running m k w = false ->
  Dict.get (Manager._servers m) k = Some s ->
  In pid (Session.server_pids s) ->
  OS.running w pid = false.
Proof.
  unfold Manager.is_running, Manager.transport_alive, Transport.is_alive,
         Session.server_pids.
  intros Hrun Hg. rewrite Hg in Hrun.
  destruct (Manager.transport s) as [t|]; [|intros []].
  destruct (Transport._process t) as [p|]; [|intros []].
  now intros [<-|[]].
Qed.

Section Careful.

Variable isprintable : N -> bool.
Variable base : nat.

(** The invariant survives a change of the world in which the processes
    stay and none starts running. *)
Lemma all_held_world m w w' :
  Discipline.all_held base m w ->
  length (OS.procs w) <= length (OS.procs w') ->
  (forall pid, OS.running w' pid = true -> OS.running w pid = true) ->
  Discipline.all_held base m w'.
Proof.
  intros (Hnd & Hexist & Hheld) Hlen Hmono. split; [assumption|]. split.
  - intros pid Hpid. specialize (Hexist pid Hpid). lia.
  - intros pid Hbase Hr. apply Hheld; auto.
Qed.

(** The invariant survives the replacement of a registration, when the
    processes that start running are those of the new registration, and
    those of the old one that it drops are not running. *)
Lemma all_held_put m w w' k s' :
  Discipline.all_held base m w ->
  length (OS.procs w) <= length (OS.procs w') ->
  (forall pid, In pid (Session.server_pids s') ->
               pid < length (OS.procs w')) ->
  (forall pid, OS.running w' pid = true ->
               OS.running w pid = true \/ In pid (Session.server_pids s')) ->
  (forall s pid,
      Dict.get (Manager._servers m) k = Some s ->
      In pid (Session.server_pids s) ->
      In pid (Session.server_pids s') \/ OS.running w' pid = false) ->
  Discipline.all_held base (Manager.put m k s') w'.
Proof.
  intros (Hnd & Hexist & Hheld) Hlen Hnew Hrun Hdrop.
  split; [now apply keys_set_NoDup|]. split.
  - intros pid Hpid. apply held_pids_In in Hpid as (k0 & s0 & Hin & Hp).
    apply set_In in Hin; [|assumption].
    destruct Hin as [[-> ->]|[Hne Hin]]; [now apply Hnew|].
    assert (pid < length (OS.procs w)); [|lia].
    apply Hexist. apply held_pids_In. now exists k0, s0.
  - intros pid Hbase Hr. apply held_pids_In.
    destruct (Hrun pid Hr) as [Hw|Hs'].
    + specialize (Hheld pid Hbase Hw).
      apply held_pids_In in Hheld as (k0 & s0 & Hin & Hp).
      destruct (str_eqb_spec k0 k) as [->|Hne].
      * destruct (Hdrop s0 pid (In_get _ _ _ Hnd Hin) Hp) as [H1|H1];
          [|congruence].
        exists k, s'. split; [apply get_In, put_get_same|assumption].
      * exists k0, s0. split; [|assumption].
        now apply set_In_other.
    + exists k, s'. split; [apply get_In, put_get_same|assumption].
Qed.

(** What [start] does to the registry and to the processes. *)
Lemma start_shape m w k s :
  Dict.get (Manager._servers m) k = Some s ->
  let m' := snd (fst (Manager.start isprintable m k w)) in
  let w' := snd (Manager.start isprintable m k w) in
  (m' = m /\ w' = w)
  \/ exists s',
       m' = Manager.put m k s'
       /\ Session.server_pids s' = [length (OS.procs w)]
       /\ length (OS.procs w') = S (length (OS.procs w))
       /\ forall pid, pid <> length (OS.procs w) ->
                      OS.running w' pid = OS.running w pid.
Proof.
  intros Hg. cbv zeta. unfold Manager.start. rewrite Hg.
  unfold Transport.start, Transport.__init__. simpl Transport._process.
  cbv iota beta. simpl Transport.command. simpl Transport.env.
  destruct (OS.Popen (Manager.command s) (Manager.env s) w)
    as [[n|e] w1] eqn:HP;
    [|apply Popen_raise in HP; subst w1; now left].
  pose proof (running_Popen_new _ _ _ _ _ HP) as (Hn & Hrn & _ & Hlen1).
  pose proof (fun pid => running_Popen_old _ _ _ _ _ pid HP) as Hold.
  subst n. set (fresh := length (OS.procs w)) in *.
  unfold Transport.next_id, Transport.set_process. simpl.
  set (t2 := {| Transport.command := Manager.command s;
                Transport.env := Manager.env s;
                Transport._process := Some fresh;
                Transport._request_id := 1 |}).
  set (request := {| Transport.method := `"tools/list";
                     Transport.params := [];
                     Transport.id := Transport.IdInt 1 |}).
  set (s1 := Manager.set_transport s (Some t2)).
  pose proof (send_running t2 request w1) as [_ Hother].
  pose proof (send_length t2 request w1) as Hlen2.
  destruct (Transport.send t2 request w1) as [r w2]. cbn [snd] in *.
  assert (Hworld : length (OS.procs w2) = S fresh
                   /\ forall pid, pid <> fresh ->
                                  OS.running w2 pid = OS.running w pid).
  { split; [lia|]. intros pid Hne.
    rewrite Hother by (simpl; congruence).
    destruct (Nat.lt_ge_cases pid fresh) as [Hlt|Hge];
      [now apply Hold|].
    assert (Hgt : fresh < pid) by lia.
    destruct (OS.running w1 pid) eqn:Hr1;
      [apply running_lt in Hr1; lia|].
    destruct (OS.running w pid) eqn:Hr;
      [apply running_lt in Hr; unfold fresh in *; lia|reflexivity]. }
  assert (Hput : forall tools1,
             Manager.put (Manager.put m k s1) k (Manager.set_tools s1 tools1)
             = Manager.put m k (Manager.set_tools s1 tools1)).
  { intros tools1. unfold Manager.put. simpl. now rewrite set_set. }
  assert (Hfinal : forall s',
             Manager.transport s' = Some t2 ->
             exists s'0,
               Manager.put m k s' = Manager.put m k s'0
               /\ Session.server_pids s'0 = [fresh]
               /\ length (OS.procs w2) = S fresh
               /\ forall pid, pid <> fresh ->
                              OS.running w2 pid = OS.running w pid).
  { intros s' Hs'. exists s'. split; [reflexivity|].
    split; [unfold Session.server_pids; now rewrite Hs'|exact Hworld]. }
  destruct r as [response|e]; [|right; now apply Hfinal].
  destruct (Transport.is_error response); [right; now apply Hfinal|].
  rewrite Hput.
  destruct (Manager.tool_names _); right; now apply Hfinal.
Qed.

Lemma all_held_start m w k :
  Manager.is_running m k w = false ->
  Discipline.all_held base m w ->
  Discipline.all_held base
    (snd (fst (Manager.start isprintable m k w)))
    (snd (Manager.start isprintable m k w))
  /\ length (OS.procs w)
     <= length (OS.procs (snd (Manager.start isprintable m k w)))
  /\ forall pid,
       OS.running (snd (Manager.start isprintable m k w)) pid = true ->
       OS.running w pid = true \/ pid = length (OS.procs w).
Proof.
  intros Hguard Hinv.
  destruct (Dict.get (Manager._servers m) k) as [s|] eqn:Hg.
  - pose proof (start_shape m w k s Hg) as Hshape. cbv zeta in Hshape.
    destruct (Manager.start isprintable m k w) as [[r m'] w'].
    cbn [fst snd] in *.
    destruct Hshape as [[-> ->]|(s' & -> & Hpids & Hlen & Hother)];
      [split; [assumption|]; split; [lia|auto]|].
    assert (Hrun : forall pid,
               OS.running w' pid = true ->
               OS.running w pid = true \/ pid = length (OS.procs w)).
    { intros pid Hr. destruct (Nat.eq_dec pid (length (OS.procs w)));
        [now right|left]. now rewrite <- Hother. }
    split; [|split; [lia|exact Hrun]].
    apply (all_held_put m w w' k s' Hinv); [lia| | |].
    + intros pid. rewrite Hpids. intros [<-|[]]. lia.
    + intros pid Hr. rewrite Hpids. destruct (Hrun pid Hr); [now left|].
      right. now left.
    + intros s0 pid Hg0 Hp. right.
      assert (Hs0 : s0 = s) by congruence. subst s0.
      pose proof (is_running_false_pids m k w s pid Hguard Hg Hp) as Hdead.
      destruct (OS.running w' pid) eqn:Hr; [|reflexivity].
      destruct (Hrun pid Hr) as [H1|H1]; [congruence|].
      destruct Hinv as (_ & Hexist & _).
      assert (pid < length (OS.procs w)); [|lia].
      apply Hexist. apply held_pids_In. exists k, s.
      split; [now apply get_In|assumption].
  - unfold Manager.start. rewrite Hg. cbn [fst snd].
    split; [assumption|]. split; [lia|auto].
Qed.

Lemma all_held_stop m w k :
  Discipline.all_held base m w ->
  Discipline.all_held base (fst (Manager.stop m k w))
                      (snd (Manager.stop m k w))
  /\ length (OS.procs w) <= length (OS.procs (snd (Manager.stop m k w))).
Proof.
  intros Hinv. pose proof (stop_world m k w) as Hworld.
  unfold Manager.stop in *.
  destruct (Dict.get (Manager._servers m) k) as [s|] eqn:Hg;
    [|split; [assumption|cbn [snd]; lia]].
  destruct (Manager.transport s) as [t|] eqn:Ht;
    [|split; [assumption|cbn [snd]; lia]].
  assert (Hlen : length (OS.procs (snd (Transport.stop t w)))
                 = length (OS.procs w)).
  { destruct (Transport._process t) as [p|] eqn:Hp.
    - pose proof (stop_effect t w p Hp) as Hs.
      destruct (Transport.stop t w) as [t1 w1]. cbn [snd]. apply Hs.
    - unfold Transport.stop. now rewrite Hp. }
  destruct (Transport.stop t w) as [t1 w1] eqn:Hstop. cbn [fst snd] in *.
  split; [|lia].
  apply (all_held_put m w w1 k _ Hinv); [lia| | |].
  - intros pid [].
  - intros pid Hr. left.
    destruct (in_dec Nat.eq_dec pid (Session.server_pids s)) as [Hin|Hout].
    + rewrite (proj1 (Hworld pid) Hin) in Hr. discriminate.
    + now rewrite <- (proj2 (Hworld pid) Hout).
  - intros s0 pid Hg0 Hp. right.
    assert (Hs0 : s0 = s) by congruence. subst s0.
    exact (proj1 (Hworld pid) Hp).
Qed.

Lemma all_held_call m w k tool arguments :
  Discipline.all_held base m w ->
  Discipline.all_held base
    (snd (fst (Manager.call isprintable m k tool arguments w)))
    (snd (Manager.call isprintable m k tool arguments w)).
Proof.
  intros Hinv. unfold Manager.call.
  destruct (Dict.get (Manager._servers m) k) as [s|] eqn:Hg; [|assumption].
  destruct (Manager.transport s) as [t|] eqn:Ht; [|assumption].
  destruct (Transport.is_alive t w); [|assumption].
  unfold Transport.next_id.
  match goal with
  | |- context [Transport.send ?t1 ?request w] =>
      set (t1' := t1); set (request' := request)
  end.
  pose proof (send_running t1' request' w) as [Hmono _].
  pose proof (send_length t1' request' w) as Hlen.
  assert (Hpids : Session.server_pids
                    (Manager.set_transport s (Some t1'))
                  = Session.server_pids s).
  { unfold Session.server_pids. now rewrite Ht. }
  assert (Hput : Discipline.all_held base
                   (Manager.put m k (Manager.set_transport s (Some t1')))
                   (snd (Transport.send t1' request' w))).
  { apply (all_held_put m w _ k _ Hinv); [lia| | |].
    - intros pid. rewrite Hpids, Hlen. intros Hp.
      destruct Hinv as (_ & Hexist & _). apply Hexist.
      apply held_pids_In. exists k, s. split; [now apply get_In|assumption].
    - intros pid Hr. left. now apply Hmono.
    - intros s0 pid Hg0 Hp. left.
      assert (Hs0 : s0 = s) by congruence. subst s0. now rewrite Hpids. }
  destruct (Transport.send t1' request' w) as [[response|e] w1];
    cbn [fst snd] in *; [|assumption].
  now destruct (Transport.is_error response).
Qed.

Lemma all_held_start_each ids :
  forall results m w,
    NoDup ids ->
    (forall k, In k ids -> Manager.is_running m k w = false) ->
    Discipline.all_held base m w ->
    Discipline.all_held base
      (snd (fst (Manager.start_each isprintable ids results m w)))
      (snd (Manager.start_each isprintable ids results m w)).
Proof.
  induction ids as [|i ids IH]; intros results m w Hnd Hguard Hinv;
    [assumption|].
  inversion Hnd as [|? ? Hi Hnd']; subst.
  pose proof (all_held_start m w i (Hguard i (or_introl eq_refl)) Hinv)
    as (Hinv1 & Hlen1 & Hrun1).
  pose proof (fun k => start_get_other isprintable m w i k) as Hother.
  cbn [Manager.start_each].
  assert (Hnext : forall k,
             In k ids ->
             Manager.is_running
               (snd (fst (Manager.start isprintable m i w))) k
               (snd (Manager.start isprintable m i w)) = false).
  { intros k Hk. assert (Hne : i <> k) by (intros ->; contradiction).
    pose proof (Hguard k (or_intror Hk)) as Hk0.
    unfold Manager.is_running in *. rewrite Hother by assumption.
    destruct (Dict.get (Manager._servers m) k) as [s|] eqn:Hg;
      [|reflexivity].
    unfold Manager.transport_alive, Transport.is_alive in *.
    destruct (Manager.transport s) as [t|] eqn:Ht; [|reflexivity].
    destruct (Transport._process t) as [p|] eqn:Hp; [|reflexivity].
    destruct (OS.running (snd _) p) eqn:Hr; [|reflexivity].
    destruct (Hrun1 p Hr) as [H1|H1]; [congruence|].
    destruct Hinv as (_ & Hexist & _).
    assert (p < length (OS.procs w)); [|lia].
    apply Hexist. apply held_pids_In. exists k, s.
    split; [now apply get_In|].
    unfold Session.server_pids. rewrite Ht, Hp. now left. }
  destruct (Manager.start isprintable m i w) as [[[found|e] m1] w1];
    cbn [fst snd] in *; now apply IH.
Qed.

Lemma all_held_stop_all_from ids :
  forall m w,
    Discipline.all_held base m w ->
    Discipline.all_held base
      (fst (fold_left (fun st server_id =>
                         Manager.stop (fst st) server_id (snd st))
                      ids (m, w)))
      (snd (fold_left (fun st server_id =>
                         Manager.stop (fst st) server_id (snd st))
                      ids (m, w))).
Proof.
  induction ids as [|i ids IH]; intros m w Hinv; [assumption|].
  cbn [fold_left fst snd].
  pose proof (all_held_stop m w i Hinv) as [Hinv1 _].
  destruct (Manager.stop m i w) as [m1 w1]. now apply IH.
Qed.

Lemma all_held_step st o :
  Discipline.allowed st o = true ->
  Discipline.all_held base (fst st) (snd st) ->
  Discipline.all_held base
    (fst (Session.manager_step isprintable st o))
    (snd (Session.manager_step isprintable st o)).
Proof.
  destruct st as [m w]. cbn [fst snd]. intros Hallowed Hinv.
  destruct o; cbn [Session.manager_step Discipline.allowed] in *.
  - apply negb_true_iff in Hallowed. cbn [fst snd Manager.register_server].
    apply (all_held_put m w w server_id _ Hinv); [lia| | |].
    + intros pid [].
    + intros pid Hr. now left.
    + intros s pid Hg Hp. right.
      exact (is_running_false_pids m server_id w s pid Hallowed Hg Hp).
  - apply negb_true_iff in Hallowed.
    pose proof (all_held_start m w server_id Hallowed Hinv) as [H _].
    now destruct (Manager.start isprintable m server_id w) as [[r m'] w'].
  - unfold Manager.start_all.
    pose proof (all_held_start_each (Dict.keys (Manager._servers m)) [] m w)
      as H.
    destruct (Manager.start_each _ _ _ _ _) as [[results m'] w'].
    apply H; [apply Hinv| |assumption].
    intros k Hk. rewrite forallb_forall in Hallowed.
    apply negb_true_iff. now apply Hallowed.
  - pose proof (all_held_stop m w server_id Hinv) as [H _].
    now destruct (Manager.stop m server_id w).
  - unfold Manager.stop_all.
    apply (all_held_stop_all_from _ m w Hinv).
  - pose proof (all_held_call m w server_id tool_name arguments Hinv) as H.
    now destruct (Manager.call _ _ _ _ _ _) as [[r m'] w'].
  - destruct (running_child_exits w pid) as (Hdead & Hother & Hlen).
    cbn [fst snd]. apply (all_held_world m w _ Hinv); [lia|].
    intros p Hr. destruct (Nat.eq_dec pid p) as [<-|Hne]; [congruence|].
    now rewrite <- Hother.
Qed.

Lemma all_held_run ops :
  forall st,
    Discipline.followed isprintable ops st = true ->
    Discipline.all_held base (fst st) (snd st) ->
    Discipline.all_held base
      (fst (Session.manager_run isprintable ops st))
      (snd (Session.manager_run isprintable ops st)).
Proof.
  unfold Session.manager_run.
  induction ops as [|o ops IH]; intros st Hfollowed Hinv; [assumption|].
  cbn [Discipline.followed] in Hfollowed.
  apply andb_true_iff in Hfollowed as [Hallowed Hrest].
  cbn [fold_left]. apply IH; [assumption|]. now apply all_held_step.
Qed.

End Careful.

(** X27. A client that checks [is_running] never leaks.  When the
    registrations have distinct ids and hold processes that exist, then
    through any sequence of calls on the manager (and of children exiting
    in between) in which [register_server] and [start] are only called on
    ids for which [is_running] is [False], and [start_all] only when it is
    [False] for every id, every process created by the sequence that is
    still running is held by a registration: it can be stopped through the
    manager. *)
Theorem a_client_that_checks_is_running_never_leaks :
  forall isprintable ops self w,
    NoDup (Dict.keys (Manager._servers self)) ->
    (forall pid, In pid (Session.held_pids self) ->
                 pid < length (OS.procs w)) ->
    Discipline.followed isprintable ops (self, w) = true ->
    let (self', w') := Session.manager_run isprintable ops (self, w) in
    forall pid,
      length (OS.procs w) <= pid ->
      OS.running w' pid = true ->
      In pid (Session.held_pids self').
Proof.
  intros isprintable ops self w Hnd Hexist Hfollowed.
  pose proof (all_held_run isprintable (length (OS.procs w)) ops (self, w)
                           Hfollowed) as H.
  destruct (Session.manager_run isprintable ops (self, w)) as [self' w'].
  cbn [fst snd] in H. apply H.
  split; [assumption|]. split; [assumption|].
  intros pid Hbase Hr. apply running_lt in Hr. lia.
Qed.

Lemma a_client_that_checks_is_running_never_leaks_witness :
  let ops := [ Session.StartAll; Session.Stop `"A"; Session.Start `"A";
               Session.Call `"A" `"echo" [ (`"message", JStr `"hi") ] ] in
  let (self', w') :=
    Session.manager_run Example.isprintable ops
                        (Example.registered, Example.world0) in
  OS.running w' 1 = true /\ In 1 (Session.held_pids self').
Proof.
  pose proof (a_client_that_checks_is_running_never_leaks
                Example.isprintable
                [ Session.StartAll; Session.Stop `"A"; Session.Start `"A";
                  Session.Call `"A" `"echo" [ (`"message", JStr `"hi") ] ]
                Example.registered Example.world0
                ltac:(apply distinct_NoDup; reflexivity)
                ltac:(intros pid [])
                ltac:(vm_compute; reflexivity)) as H.
  cbv zeta.
  destruct (Session.manager_run _ _ _) as [self' w'] eqn:Hrun.
  assert (Hr : OS.running w' 1 = true).
  { change w' with (snd (self', w')). rewrite <- Hrun.
    vm_compute. reflexivity. }
  split; [exact Hr|]. apply H; [simpl; lia|exact Hr].
Defined.
